(** * scheduletools: a shallow embedding of the parser, expander and splitter

  The development follows the Python sources
  [scheduletools/parser.py], [scheduletools/expander.py] and
  [scheduletools/splitter.py].

  - Python [str] values are [string]s (ASCII; case mapping and the
    whitespace class are the ASCII restrictions of Python's).
  - Python exceptions are the [exn] type; a computation that may raise
    returns a [result].
  - dictionaries are [gmap string _], data frames are row lists.
  - [pd.Timestamp] values are records of calendar fields, compared through
    their number of seconds since 1970-01-01. *)

From Stdlib Require Import ZArith Ascii String List Lia Bool.
From stdpp Require Import base option list gmap strings pretty sorting.

Local Open Scope Z_scope.

(** ** Exceptions and results *)

Inductive exn : Type :=
| IndexError
| AttributeError
| ValueError
| FileNotFoundError
| JSONDecodeError.

Inductive result (A : Type) : Type :=
| Ok (a : A)
| Raise (e : exn).
Arguments Ok {A} a.
Arguments Raise {A} e.

#[global] Instance result_ret : MRet result := λ A a, Ok a.

#[global] Instance result_fmap : FMap result := λ A B f r,
  match r with
  | Ok a => Ok (f a)
  | Raise e => Raise e
  end.

#[global] Instance result_bind : MBind result := λ A B k r,
match r with
| Ok a => k a
| Raise e => Raise e
end.

(** [try: ... except Exception: ...] *)
Definition try_except {A : Type} (r : result A) (handler : A) : A :=
match r with
| Ok a => a
| Raise _ => handler
end.

(** ** Python string operations *)

Module PyStr.

Definition code (c : ascii) : Z := Z.of_nat (nat_of_ascii c).

(** [str.isspace] on the ASCII range: TAB..CR, FS..US and the space. *)
Definition isspace (c : ascii) : bool :=
  let n := code c in
  ((9 <=? n) && (n <=? 13)) || ((28 <=? n) && (n <=? 32)).

Definition isdigit (c : ascii) : bool :=
  let n := code c in (48 <=? n) && (n <=? 57).

Definition digit_val (c : ascii) : Z := code c - 48.

Definition lower_char (c : ascii) : ascii :=
  let n := code c in
  if (65 <=? n) && (n <=? 90) then ascii_of_nat (Z.to_nat (n + 32)) else c.

(** [s.lower()] *)
Fixpoint lower (s : string) : string :=
  match s with
  | EmptyString => EmptyString
  | String c r => String (lower_char c) (lower r)
  end.

(** [s.lstrip()] *)
Fixpoint lstrip (s : string) : string :=
  match s with
  | EmptyString => EmptyString
  | String c r => if isspace c then lstrip r else s
  end.

(** [s.rstrip()] *)
Fixpoint rstrip (s : string) : string :=
  match s with
  | EmptyString => EmptyString
  | String c r =>
      match rstrip r with
      | EmptyString => if isspace c then EmptyString else String c EmptyString
      | r' => String c r'
      end
  end.

(** [s.strip()] *)
Definition strip (s : string) : string := lstrip (rstrip s).

(** [s.lstrip("0")]: every leading ["0"] goes, not only the first. *)
Fixpoint lstrip0 (s : string) : string :=
  match s with
  | EmptyString => EmptyString
  | String c r => if Ascii.eqb c "0" then lstrip0 r else s
  end.

(** [s.startswith(p)] *)
Fixpoint startswith (p s : string) : bool :=
  match p, s with
  | EmptyString, _ => true
  | String a p', String b s' => Ascii.eqb a b && startswith p' s'
  | String _ _, EmptyString => false
  end.

(** [sub in s] *)
Fixpoint contains (sub s : string) : bool :=
  startswith sub s ||
  match s with
  | EmptyString => false
  | String _ r => contains sub r
  end.

Fixpoint has_char (c : ascii) (s : string) : bool :=
  match s with
  | EmptyString => false
  | String x r => Ascii.eqb x c || has_char c r
  end.

(** [s.split(c)] for a one-character separator: every occurrence splits. *)
Fixpoint split_char (c : ascii) (s : string) : list string :=
  match s with
  | EmptyString => [EmptyString]
  | String x r =>
      if Ascii.eqb x c then EmptyString :: split_char c r
      else match split_char c r with
           | h :: t => String x h :: t
           | [] => [String x EmptyString]
           end
  end.

(** [re.split(re.escape(sep), s)]: the separator is a literal; matches are
    found left to right and do not overlap.  [skip] counts the characters
    of a separator occurrence still to be jumped over, [cur] is the piece
    being collected.  An empty separator matches at every position
    (Python 3.7 and later), which cuts the text into its characters with an
    empty piece at both ends. *)
Fixpoint re_split_go (sep : string) (s : string) (skip : nat) (cur : string)
  : list string :=
  match s with
  | EmptyString => [cur]
  | String x r =>
      match skip with
      | S k => re_split_go sep r k cur
      | O =>
          if startswith sep s
          then cur :: re_split_go sep r (Nat.pred (String.length sep)) EmptyString
          else re_split_go sep r O (cur +:+ String x EmptyString)
      end
  end.

Fixpoint chars (s : string) : list string :=
  match s with
  | EmptyString => []
  | String x r => String x EmptyString :: chars r
  end.

Definition re_split (sep s : string) : list string :=
  match sep with
  | EmptyString => EmptyString :: chars s ++ [EmptyString]
  | _ => re_split_go sep s O EmptyString
  end.

(** [s.partition(c)]: the text before the first [c] and the text after it
    (for a text that holds [c]). *)
Fixpoint before (c : ascii) (s : string) : string :=
  match s with
  | EmptyString => EmptyString
  | String x r => if Ascii.eqb x c then EmptyString else String x (before c r)
  end.

Fixpoint after (c : ascii) (s : string) : string :=
  match s with
  | EmptyString => EmptyString
  | String x r => if Ascii.eqb x c then r else after c r
  end.

(** Truthiness of a string: [bool(s)]. *)
Definition nonempty (s : string) : bool :=
  match s with EmptyString => false | _ => true end.

(** [f"{n}"] for an integer *)
Definition of_Z (n : Z) : string := pretty n.

(** [f"{n:02}"] and the like: zero padding on the left up to [width]. *)
Definition zfill (width : nat) (s : string) : string :=
  String.string_of_list_ascii
    (replicate (width - String.length s)%nat "0"%char) +:+ s.

(** Lexicographic comparison of strings by character code: [a < b]. *)
Fixpoint ltb (a b : string) : bool :=
  match a, b with
  | EmptyString, EmptyString => false
  | EmptyString, String _ _ => true
  | String _ _, EmptyString => false
  | String x a', String y b' =>
      if code x <? code y then true
      else if code y <? code x then false
      else ltb a' b'
  end.

End PyStr.

(** ** Calendar arithmetic and [pd.Timestamp] *)

Module Cal.

Record timestamp : Type := mkTs {
  year : Z; month : Z; day : Z; hour : Z; minute : Z }.

(** The value of [pd.to_datetime]: a timestamp or [NaT]. *)
Inductive datetime : Type :=
| NaT
| Ts (t : timestamp).

Definition is_leap (y : Z) : bool :=
  ((y mod 4 =? 0) && negb (y mod 100 =? 0)) || (y mod 400 =? 0).

Definition days_in_month (y m : Z) : Z :=
  if m =? 2 then (if is_leap y then 29 else 28)
  else if (m =? 4) || (m =? 6) || (m =? 9) || (m =? 11) then 30
  else 31.

(** Days from 1970-01-01 to the given civil date (proleptic Gregorian). *)
Definition days_from_civil (y m d : Z) : Z :=
  let y' := if m <=? 2 then y - 1 else y in
  let era := y' / 400 in
  let yoe := y' - era * 400 in
  let mp := (m + 9) mod 12 in
  let doy := (153 * mp + 2) / 5 + d - 1 in
  let doe := yoe * 365 + yoe / 4 - yoe / 100 + doy in
  era * 146097 + doe - 719468.

Definition to_days (t : timestamp) : Z :=
  days_from_civil (year t) (month t) (day t).

Definition to_seconds (t : timestamp) : Z :=
  to_days t * 86400 + hour t * 3600 + minute t * 60.

(** [t.weekday()]: Monday is 0. *)
Definition weekday (t : timestamp) : Z := (to_days t + 3) mod 7.

Definition weekday_names : list string :=
  ["Monday"; "Tuesday"; "Wednesday"; "Thursday"; "Friday"; "Saturday";
   "Sunday"].

Definition weekday_name (t : timestamp) : string :=
  default "" (weekday_names !! Z.to_nat (weekday t)).

(** A date of the calendar: year 0 and a day past the end of its month are
    rejected.  (The narrower range of a timestamp counted in nanoseconds,
    years 1677 to 2262, is not modelled.) *)
Definition valid (t : timestamp) : bool :=
  (1 <=? year t) && (1 <=? month t) && (month t <=? 12) &&
  (1 <=? day t) && (day t <=? days_in_month (year t) (month t)).

End Cal.

(** ** [strftime] / [strptime] patterns

    The directives covered are [%Y %m %d %H %I %M %p %A] and [%%]; any other
    directive is an unknown one: parsing with it raises (a bad directive),
    formatting copies it as it stands.  Names and AM/PM marks are those of
    the C locale. *)

Module Fmt.

Import PyStr Cal.

Inductive directive : Type := dY | dm | dd | dH | dI | dM | dp | dA.

#[global] Instance directive_eq_dec : EqDecision directive.
Proof. solve_decision. Defined.

Definition directive_of (c : ascii) : option directive :=
  if Ascii.eqb c "Y" then Some dY
  else if Ascii.eqb c "m" then Some dm
  else if Ascii.eqb c "d" then Some dd
  else if Ascii.eqb c "H" then Some dH
  else if Ascii.eqb c "I" then Some dI
  else if Ascii.eqb c "M" then Some dM
  else if Ascii.eqb c "p" then Some dp
  else if Ascii.eqb c "A" then Some dA
  else None.

Inductive tok : Type :=
| TLit (c : ascii)
| TDir (d : directive)
| TUnk (c : ascii)
| TStray.

(** Reading a pattern string left to right: [%x] is a directive, [%%] a
    literal percent sign, a [%] at the very end is stray. *)
Fixpoint tokenize (fmt : string) : list tok :=
  match fmt with
  | EmptyString => []
  | String c r =>
      if Ascii.eqb c "%" then
        match r with
        | EmptyString => [TStray]
        | String x r' =>
            (if Ascii.eqb x "%" then TLit "%"
             else match directive_of x with
                  | Some d => TDir d
                  | None => TUnk x
                  end) :: tokenize r'
        end
      else TLit c :: tokenize r
  end.

(** *** Formatting *)

Definition hour12 (h : Z) : Z :=
  let h' := h mod 12 in if h' =? 0 then 12 else h'.

(** The text of one directive.  [%Y] is the year as the C library of Linux
    writes it, without padding: 999 for the year 999. *)
Definition format_directive (d : directive) (t : timestamp) : string :=
  match d with
  | dY => of_Z (year t)
  | dm => zfill 2 (of_Z (month t))
  | dd => zfill 2 (of_Z (day t))
  | dH => zfill 2 (of_Z (hour t))
  | dI => zfill 2 (of_Z (hour12 (hour t)))
  | dM => zfill 2 (of_Z (minute t))
  | dp => if hour t <? 12 then "AM" else "PM"
  | dA => weekday_name t
  end.

Fixpoint format_toks (ts : list tok) (t : timestamp) : string :=
  match ts with
  | [] => ""
  | TLit c :: r => String c (format_toks r t)
  | TDir d :: r => format_directive d t +:+ format_toks r t
  | TUnk c :: r => String "%" (String c (format_toks r t))
  | TStray :: r => String "%" (format_toks r t)
  end.

(** [t.strftime(fmt)] *)
Definition strftime (fmt : string) (t : timestamp) : string :=
  format_toks (tokenize fmt) t.

(** *** Parsing: the regular expression of a pattern *)

Inductive rx : Type :=
| RLit (c : ascii)   (* an escaped literal, matched ignoring case *)
| RWs                (* [\s+], for a run of white space in the pattern *)
| RDir (d : directive).

Definition ci (c x : ascii) : bool := Ascii.eqb (lower_char c) (lower_char x).
Definition is_ (c x : ascii) : bool := Ascii.eqb c x.
Definition range (lo hi x : ascii) : bool :=
  (code lo <=? code x) && (code x <=? code hi).

Definition word (s : string) : list (ascii → bool) :=
  map ci (String.list_ascii_of_string s).

(** The alternatives of a directive's group, in the order the regular
    expression lists them; an alternative is a sequence of character
    classes. *)
Definition alts (d : directive) : list (list (ascii → bool)) :=
  match d with
  | dY => [[isdigit; isdigit; isdigit; isdigit]]
  | dm => [[is_ "1"; range "0" "2"]; [is_ "0"; range "1" "9"]; [range "1" "9"]]
  | dd => [[is_ "3"; range "0" "1"]; [range "1" "2"; isdigit];
           [is_ "0"; range "1" "9"]; [range "1" "9"];
           [is_ " "; range "1" "9"]]
  | dH => [[is_ "2"; range "0" "3"]; [range "0" "1"; isdigit]; [isdigit]]
  | dI => [[is_ "1"; range "0" "2"]; [is_ "0"; range "1" "9"]; [range "1" "9"]]
  | dM => [[range "0" "5"; isdigit]; [isdigit]]
  | dp => [word "am"; word "pm"]
  | dA => [word "wednesday"; word "thursday"; word "saturday"; word "tuesday";
           word "monday"; word "friday"; word "sunday"]
  end.

(** Match a sequence of character classes at the head of [s]: the matched
    text and what follows it. *)
Fixpoint match_classes (ps : list (ascii → bool)) (s : string)
  : option (string * string) :=
  match ps with
  | [] => Some (EmptyString, s)
  | p :: ps' =>
      match s with
      | EmptyString => None
      | String x r =>
          if p x then
            match match_classes ps' r with
            | Some (m, rest) => Some (String x m, rest)
            | None => None
            end
          else None
      end
  end.

Definition candidates (d : directive) (s : string) : list (string * string) :=
  omap (λ ps, match_classes ps s) (alts d).

(** The ways [\s+] matches at the head of [s], longest first. *)
Fixpoint ws_candidates (s : string) : list string :=
  match s with
  | EmptyString => []
  | String x r => if isspace x then ws_candidates r ++ [r] else []
  end.

Fixpoint first_some {A B : Type} (f : A → option B) (l : list A) : option B :=
  match l with
  | [] => None
  | a :: l' => match f a with Some b => Some b | None => first_some f l' end
  end.

(** [re.match]: the first match in backtracking order, anchored at the start
    only.  The result is the text of each group, in pattern order, and the
    unmatched remainder. *)
Fixpoint rx_match (r : list rx) (s : string)
  : option (list (directive * string) * string) :=
  match r with
  | [] => Some ([], s)
  | RLit c :: r' =>
      match s with
      | EmptyString => None
      | String x s' => if ci c x then rx_match r' s' else None
      end
  | RWs :: r' => first_some (rx_match r') (ws_candidates s)
  | RDir d :: r' =>
      first_some
        (λ '(m, rest),
           match rx_match r' rest with
           | Some (caps, out) => Some ((d, m) :: caps, out)
           | None => None
           end)
        (candidates d s)
  end.

(** From tokens to the regular expression: white-space runs become one
    [\s+]; an unknown or stray directive, or a directive used twice (a group
    name defined twice), is an error. *)
Fixpoint compile_toks (ts : list tok) (prev_ws : bool) (seen : list directive)
  : result (list rx) :=
  match ts with
  | [] => Ok []
  | TLit c :: r =>
      if isspace c then
        if prev_ws then compile_toks r true seen
        else (rs ← compile_toks r true seen; Ok (RWs :: rs))
      else (rs ← compile_toks r false seen; Ok (RLit c :: rs))
  | TDir d :: r =>
      if bool_decide (d ∈ seen) then Raise ValueError
      else (rs ← compile_toks r false (d :: seen); Ok (RDir d :: rs))
  | TUnk _ :: _ => Raise ValueError
  | TStray :: _ => Raise ValueError
  end.

Definition compile (fmt : string) : result (list rx) :=
  compile_toks (tokenize fmt) false [].

(** [int(text)] for the text of a numeric group (digits, possibly after one
    space as [%d] allows). *)
Fixpoint int_go (s : string) (acc : Z) : Z :=
  match s with
  | EmptyString => acc
  | String x r => if isdigit x then int_go r (10 * acc + digit_val x) else int_go r acc
  end.

Definition int (s : string) : Z := int_go s 0.

Definition is_pm (caps : list (directive * string)) : bool :=
  match List.find (λ p, bool_decide (p.1 = dp)) caps with
  | Some (_, m) => String.eqb (lower m) "pm"
  | None => false
  end.

(** The fields of the parsed value: groups are handled in pattern order,
    starting from 1900-01-01 00:00.  [%I] reads the AM/PM mark wherever it
    stands (none counts as AM). *)
Definition apply_group (pm : bool) (t : timestamp) (g : directive * string)
  : timestamp :=
  let v := int g.2 in
  match g.1 with
  | dY => mkTs v (month t) (day t) (hour t) (minute t)
  | dm => mkTs (year t) v (day t) (hour t) (minute t)
  | dd => mkTs (year t) (month t) v (hour t) (minute t)
  | dH => mkTs (year t) (month t) (day t) v (minute t)
  | dI => mkTs (year t) (month t) (day t)
            (if pm then (if v =? 12 then 12 else v + 12)
             else (if v =? 12 then 0 else v))
            (minute t)
  | dM => mkTs (year t) (month t) (day t) (hour t) v
  | dp => t
  | dA => t
  end.

Definition build (caps : list (directive * string)) : timestamp :=
  fold_left (apply_group (is_pm caps)) caps (mkTs 1900 1 1 0 0).

(** The strings pandas reads as a missing value. *)
Definition nat_strings : list string :=
  ["NaT"; "nat"; "NAT"; "nan"; "NaN"; "NAN"].

(** [pd.to_datetime(s, format=fmt)] for a scalar string: the whole text
    must match, and the fields must name a calendar date. *)
Definition to_datetime (fmt : string) (s : string) : result datetime :=
  rs ← compile fmt;
  if bool_decide (s = "" ∨ s ∈ nat_strings) then Ok NaT
  else match rx_match rs s with
       | None => Raise ValueError
       | Some (caps, rest) =>
           if nonempty rest then Raise ValueError
           else let t := build caps in
                if valid t then Ok (Ts t) else Raise ValueError
       end.

End Fmt.

(** ** Data frames *)

(** A cell read by [pd.read_csv]: missing ([NaN]), text, or a number (kept
    with the text [str] gives for it). *)
Inductive cell : Type :=
| NaN
| Str (s : string)
| Num (repr : string).

(** [pd.isna(v)] *)
Definition isna (v : cell) : bool :=
  match v with NaN => true | _ => false end.

(** [str(v)] *)
Definition str (v : cell) : string :=
  match v with
  | NaN => "nan"
  | Str s => s
  | Num repr => repr
  end.

(** A frame keeps its column labels and, for every row, the row's index label
    and its cells (one per column).  Labels survive slicing and filtering, as
    in pandas. *)
Record DataFrame : Type := mkDF {
  columns : list nat;
  rows : list (nat * list cell) }.

(** The cell of a row at a column position; a position the row does not have
    reads as missing. *)
Definition at_pos (cells : list cell) (pos : nat) : cell :=
  default NaN (cells !! pos).

(** The frame [pd.read_csv(path, sep="\t", header=None)] builds from the
    lines of a sheet, given with their cells already typed: columns and rows
    are numbered from 0, the first line fixes the width and shorter lines
    are padded with missing cells.  It is used for the sample sheets, whose
    lines are no longer than the first ([pd.read_csv] raises on a longer
    line, which is not modelled: the line is cut). *)
Definition frame_of_grid (g : list (list cell)) : DataFrame :=
  let w := length (default [] (head g)) in
  mkDF (seq 0 w) (imap (λ i r, (i, map (at_pos r) (seq 0 w))) g).

(** [df.iloc[:, list(range(a, b))]] *)
Definition iloc_cols (df : DataFrame) (a b : nat) : DataFrame :=
  mkDF (take (b - a) (drop a (columns df)))
       (map (λ r, (r.1, take (b - a) (drop a r.2))) (rows df)).

(** ** [ScheduleParser] (parser.py) *)

Module ScheduleParser.

Import PyStr Cal Fmt.

(** The configuration dictionary, one field per leaf:
    [config["Format"]["Date"]], [config["Missing Values"]["Omit"]], ... *)
Record config : Type := mkConfig {
  Format_Date : string;
  Format_Time : string;
  Format_Duration : string;
  Missing_Omit : bool;
  Missing_Replacement : string;
  Split_Skip : bool;
  Split_Separator : string }.

Definition DEFAULT_CONFIG : config :=
  mkConfig "%m/%d/%Y" "%I:%M %p" "H:MM" true "missing" false "/".

(** *** [__init__]: where the configuration comes from (lines 29-38) *)

(** [os.path.dirname], for POSIX paths *)
Fixpoint dirname_head (p : string) : string :=
  match p with
  | EmptyString => EmptyString
  | String c r =>
      if has_char "/" p then String c (dirname_head r) else EmptyString
  end.

Fixpoint all_slashes (s : string) : bool :=
  match s with
  | EmptyString => true
  | String c r => Ascii.eqb c "/" && all_slashes r
  end.

Fixpoint rstrip_slash (s : string) : string :=
  match s with
  | EmptyString => EmptyString
  | String c r =>
      match rstrip_slash r with
      | EmptyString => if Ascii.eqb c "/" then EmptyString else String c EmptyString
      | r' => String c r'
      end
  end.

Definition dirname (p : string) : string :=
  let head := dirname_head p in
  if nonempty head && negb (all_slashes head) then rstrip_slash head else head.

Fixpoint endswith_slash (s : string) : bool :=
  match s with
  | EmptyString => false
  | String c EmptyString => Ascii.eqb c "/"
  | String _ r => endswith_slash r
  end.

(** [os.path.join(a, b)] *)
Definition path_join (a b : string) : string :=
  if startswith "/" b then b
  else if negb (nonempty a) || endswith_slash a then a +:+ b
  else a +:+ "/" +:+ b.

Section Init.

(** The file system, as the text of each file that exists, and
    [json.load] on such a text. *)
Variable fs : gmap string string.
Variable json_load : string → result config.

(** [with open(path, "r") as f: json.load(f)] *)
Definition load_json (path : string) : result config :=
  match fs !! path with
  | None => Raise FileNotFoundError
  | Some text => json_load text
  end.

(** [if config_path:] is false for [None] and for the empty string. *)
Definition truthy (config_path : option string) : bool :=
  match config_path with
  | Some p => nonempty p
  | None => false
  end.

(** The configuration [__init__] stores in [self.config]; [config_path] is
    [None] when the caller gave none. *)
Definition resolve_config (schedule_path : string) (config_path : option string)
  : result config :=
  if truthy config_path then load_json (default "" config_path)
  else
    let fallback_path := path_join (dirname schedule_path) "parser_config.json" in
    if bool_decide (is_Some (fs !! fallback_path)) then load_json fallback_path
    else Ok DEFAULT_CONFIG.

End Init.

(** *** [_parse_time_and_duration] *)

Definition time_format_attempts : list string := ["%I %p"; "%I:%M %p"].

(** One of the two [for fmt in time_format_attempts] loops: the value of the
    first pattern under which [pd.to_datetime] does not raise; [None] when
    every pattern raises. *)
Fixpoint first_parsed (fmts : list string) (s : string) : option datetime :=
  match fmts with
  | [] => None
  | fmt :: r =>
      match to_datetime fmt s with
      | Ok d => Some d
      | Raise _ => first_parsed r s
      end
  end.

(** Lines 72-76: the duration text of a start and an end time. *)
Definition duration_seconds (start_dt end_dt : timestamp) : Z :=
  let end_s :=
    if to_seconds end_dt <? to_seconds start_dt
    then to_seconds end_dt + 86400
    else to_seconds end_dt in
  end_s - to_seconds start_dt.

Definition duration_str (total_seconds : Z) : string :=
  of_Z (total_seconds / 3600) +:+ ":" +:+
  zfill 2 (of_Z ((total_seconds mod 3600) / 60)).

(** The body of the [try] block (lines 49-77).  A half that reads as [NaT]
    (an empty half, "nan", "nat") ends in an exception as well: if it gets
    past the test of line 69, its duration is [NaT], whose seconds are not a
    number, and [int] raises on them. *)
Definition parse_interval_body (cfg : config) (interval : string)
  : result (string * string) :=
  match split_char "-" (lower interval) with
  | [start_str; end_str] =>
      let start_str := strip start_str in
      let end_str := strip end_str in
      let start_dt := first_parsed time_format_attempts start_str in
      let end_dt := first_parsed time_format_attempts end_str in
      match start_dt, end_dt with
      | Some (Ts s), Some (Ts e) =>
          Ok (lstrip0 (strftime (Format_Time cfg) s),
              duration_str (duration_seconds s e))
      | Some _, Some _ => Raise ValueError
      | _, _ => Raise ValueError
      end
  | _ => Raise ValueError
  end.

(** [None] stands for the pair [(None, None)]. *)
Definition _parse_time_and_duration (cfg : config) (interval : string)
  : option (string * string) :=
  let interval := strip interval in
  if contains "Time" interval || negb (nonempty interval)
     || negb (contains "-" interval)
  then None
  else match parse_interval_body cfg interval with
       | Ok slot => Some slot
       | Raise _ => None
       end.

(** *** [_parse_block] *)

(** A dictionary appended to [rows].  [Date] is text here; the last step of
    [parse_schedule] writes the column again, and a date that then reads as
    [NaT] leaves a missing cell. *)
Record entry : Type := mkEntry {
  Week : Z;
  Day : string;
  Date : cell;
  Start_Time : string;
  Duration : string;
  Team : string }.

(** Sequencing a list of computations that may raise: the first exception
    ends the loop. *)
Fixpoint collect {A B : Type} (f : A → result (list B)) (l : list A)
  : result (list B) :=
  match l with
  | [] => Ok []
  | a :: l' => xs ← f a; ys ← collect f l'; Ok (xs ++ ys)
  end.

(** Lines 106-115: the participants of a cell; [None] is the [continue] of
    line 109. *)
Definition team_list (cfg : config) (team_entry : cell) : option (list string) :=
  let team_str := if isna team_entry then "" else strip (str team_entry) in
  if negb (nonempty team_str) then
    if Missing_Omit cfg then None
    else Some [Missing_Replacement cfg]
  else
    if Split_Skip cfg then Some [team_str]
    else Some (filter (λ t, nonempty t = true)
                      (map strip (re_split (Split_Separator cfg) team_str))).

(** [(date_obj - self.reference_date).days // 7] *)
Definition week_of (reference_date date_obj : timestamp) : Z :=
  ((to_seconds date_obj - to_seconds reference_date) / 86400) / 7.

(** Lines 97-125: what one row adds under one time column.  A date that
    reads as [NaT] raises once a dictionary is built from it ([NaT] has no
    [strftime]). *)
Definition cell_entries (cfg : config) (reference_date : timestamp)
    (start_time duration : string) (date_str team_entry : cell)
  : result (list entry) :=
  if isna date_str || contains "ice" (lower (str date_str)) then Ok []
  else
    match to_datetime (Format_Date cfg) (str date_str) with
    | Raise _ => Ok []
    | Ok date_obj =>
        match team_list cfg team_entry with
        | None => Ok []
        | Some teams =>
            match date_obj with
            | NaT => match teams with [] => Ok [] | _ :: _ => Raise ValueError end
            | Ts d =>
                Ok (map (λ team,
                      mkEntry (week_of reference_date d)
                              (strftime "%A" d)
                              (Str (strftime (Format_Date cfg) d))
                              start_time duration team) teams)
            end
        end
    end.

(** The entries of one column (lines 88-125), each with the labels of the
    column and of the row it was read from.  [pos] is
    [block.columns.get_loc(col)]. *)
Definition column_trace (cfg : config) (reference_date : timestamp)
    (block : DataFrame) (pos col : nat)
  : result (list ((nat * nat) * entry)) :=
  match rows block !! 2%nat with
  | None => Raise IndexError
  | Some (_, header) =>
      match at_pos header pos with
      | NaN => Ok []
      | Num _ => Raise AttributeError
      | Str time_interval =>
          match _parse_time_and_duration cfg time_interval with
          | None => Ok []
          | Some (start_time, duration) =>
              if negb (nonempty start_time && nonempty duration) then Ok []
              else
                collect
                  (λ r, es ← cell_entries cfg reference_date start_time duration
                                 (at_pos r.2 0) (at_pos r.2 pos);
                        Ok (map (λ e, ((col, r.1), e)) es))
                  (drop 3 (rows block))
          end
      end
  end.

(** [enumerate] *)
Definition enumerate {A : Type} (l : list A) : list (nat * A) :=
  imap (λ i a, (i, a)) l.

Definition block_trace (cfg : config) (reference_date : timestamp)
    (block : DataFrame) : result (list ((nat * nat) * entry)) :=
  match columns block with
  | [] => Raise IndexError
  | date_col :: _ =>
      collect (λ pc, column_trace cfg reference_date block pc.1 pc.2)
              (drop 1 (enumerate (columns block)))
  end.

(** The list [rows] that [_parse_block] wraps in a frame. *)
Definition _parse_block (cfg : config) (reference_date : timestamp)
    (block : DataFrame) : result (list entry) :=
  tr ← block_trace cfg reference_date block; Ok (map snd tr).


(** *** [parse_schedule] *)

(** Line 131: the positions of row 1 holding the text "date", whatever its
    case and surrounding white space. *)
Definition is_marker (val : cell) : bool :=
  match val with
  | Str s => String.eqb (lower (strip s)) "date"
  | _ => false
  end.

Definition find_date_cols (row1 : list cell) : list nat :=
  map fst (filter (λ p, is_marker p.2 = true) (enumerate row1)).

(** Line 135: the column range of each block, up to the next marker or to
    [df.shape[1]]. *)
Fixpoint block_ranges (date_cols : list nat) (width : nat) : list (nat * nat) :=
  match date_cols with
  | [] => []
  | date_col :: rest =>
      (date_col, match rest with next :: _ => next | [] => width end)
        :: block_ranges rest width
  end.

(** Lines 137-139: from position 3 on, only rows with a date cell stay. *)
Definition drop_undated (subset : DataFrame) : DataFrame :=
  mkDF (columns subset)
       (take 3 (rows subset) ++
        filter (λ r, isna (at_pos r.2 0) = false) (drop 3 (rows subset))).

Definition make_blocks (df : DataFrame) (date_cols : list nat) : list DataFrame :=
  map (λ ab, drop_undated (iloc_cols df ab.1 ab.2))
      (block_ranges date_cols (length (columns df))).

(** The sort key of a row: its date read again, and its start time as the
    column holds it, which is text. *)
Definition datetime_ltb (a b : datetime) : bool :=
  match a, b with
  | Ts x, Ts y => to_seconds x <? to_seconds y
  | Ts _, NaT => true
  | NaT, _ => false
  end.

Definition key_ltb (a b : datetime * string) : bool :=
  datetime_ltb a.1 b.1 || (negb (datetime_ltb b.1 a.1) && ltb a.2 b.2).

Definition key_leb (a b : datetime * string) : bool := negb (key_ltb b a).

(** [sort_values] on several columns is a stable sort; an insertion sort that
    puts an element before the first later one not below it is the stable
    sort of the list. *)
Fixpoint insert_sorted {A : Type} (key : A → datetime * string) (x : A) (l : list A)
  : list A :=
  match l with
  | [] => [x]
  | y :: r =>
      if key_leb (key x) (key y) then x :: l else y :: insert_sorted key x r
  end.

Fixpoint sort_values {A : Type} (key : A → datetime * string) (l : list A) : list A :=
  match l with
  | [] => []
  | x :: r => insert_sorted key x (sort_values key r)
  end.

(** A row of the returned frame: the [Index] column and the six others. *)
Record row : Type := mkRow {
  Index : Z;
  fields : entry }.

(** Lines 148: [pd.to_datetime(result["Date"], format=...)] on one value. *)
Definition reparse_date (cfg : config) (e : entry) : result (datetime * entry) :=
  d ← to_datetime (Format_Date cfg) (str (Date e)); Ok (d, e).

(** Line 150: the date written back as text. *)
Definition reformat_date (cfg : config) (de : datetime * entry) : entry :=
  let e := de.2 in
  mkEntry (Week e) (Day e)
          (match de.1 with NaT => NaN | Ts d => Str (strftime (Format_Date cfg) d) end)
          (Start_Time e) (Duration e) (Team e).

(** Lines 147-153 *)
Definition merge_and_order (cfg : config) (entries : list entry) : result (list row) :=
  keyed ← collect (λ e, x ← reparse_date cfg e; Ok [x]) entries;
  let sorted := sort_values (λ de : datetime * entry, (de.1, Start_Time de.2)) keyed in
  Ok (imap (λ i de, mkRow (Z.of_nat i) (reformat_date cfg de)) sorted).

(** [parse_schedule]: the rows of the returned frame; the empty list is the
    empty frame of line 145. *)
Definition parse_schedule (cfg : config) (reference_date : timestamp)
    (df : DataFrame) : result (list row) :=
  match rows df !! 1%nat with
  | None => Raise IndexError
  | Some (_, row1) =>
      let date_cols := find_date_cols row1 in
      let blocks := make_blocks df date_cols in
      parsed ← collect (λ b, es ← _parse_block cfg reference_date b; Ok [es]) blocks;
      let dfs := filter (λ es : list entry, es ≠ []) parsed in
      match dfs with
      | [] => Ok []
      | _ :: _ => merge_and_order cfg (concat dfs)
      end
  end.

End ScheduleParser.

(** ** [ScheduleExpander] (expander.py) *)

Module ScheduleExpander.

(** The input table, as [pd.read_csv] gives it: named columns and, for each
    row, one cell per column. *)
Record Frame : Type := mkFrame {
  frame_columns : list string;
  frame_rows : list (list cell) }.

(** The dtype of a column as [pd.read_csv] infers it, for the kinds of cell
    modelled: integers only, numbers with a float or a missing value among
    them, or anything with a text. *)
Inductive dtype : Type := Int64 | Float64 | Object.

#[global] Instance dtype_eq_dec : EqDecision dtype.
Proof. solve_decision. Defined.

Fixpoint all_digits (s : string) : bool :=
  match s with
  | EmptyString => true
  | String c r => PyStr.isdigit c && all_digits r
  end.

(** The text of an integer: digits, after a minus sign or not. *)
Definition is_int_text (s : string) : bool :=
  match s with
  | EmptyString => false
  | String c r =>
      if Ascii.eqb c "-" then PyStr.nonempty r && all_digits r else all_digits s
  end.

Definition cell_dtype (c : cell) : dtype :=
  match c with
  | NaN => Float64
  | Str _ => Object
  | Num repr => if is_int_text repr then Int64 else Float64
  end.

(** The common dtype of two: an object among them gives object, a float
    among integers gives float. *)
Definition common (a b : dtype) : dtype :=
  match a, b with
  | Object, _ | _, Object => Object
  | Float64, _ | _, Float64 => Float64
  | Int64, Int64 => Int64
  end.

(** The cells of the column at position [j]; a row too short holds a
    missing value there. *)
Definition column_cells (df : Frame) (j : nat) : list cell :=
  map (λ cells, default NaN (cells !! j)) (frame_rows df).

Definition column_dtype (cells : list cell) : dtype :=
  foldr (λ c, common (cell_dtype c)) Int64 cells.

(** The dtype of [df.values], which [iterrows] cuts into rows: the common
    dtype of the columns. *)
Definition values_dtype (df : Frame) : dtype :=
  foldr (λ j, common (column_dtype (column_cells df j))) Int64
        (seq 0 (length (frame_columns df))).

(** An integer as a float: its text gets [.0].  (Beyond 15 digits a float
    no longer holds every integer and switches to an exponent; that text is
    not modelled.) *)
Definition to_float (c : cell) : cell :=
  match c with
  | Num repr => if is_int_text repr then Num (repr +:+ ".0") else c
  | _ => c
  end.

(** A cell as [iterrows] hands it out: in a frame whose columns are all
    numeric and not all integer, the rows are float series and an integer
    comes out as a float; in any other frame the cell is as read. *)
Definition iterrows_cell (df : Frame) (c : cell) : cell :=
  match values_dtype df with
  | Float64 => to_float c
  | _ => c
  end.

(** A row handed out by [df.iterrows()] is a series labelled by the column
    names: [label in row] and [row[label]]. *)
Definition series (df : Frame) (cells : list cell) : gmap string cell :=
  list_to_map (zip (frame_columns df) (map (iterrows_cell df) cells)).

(** Line 19: [{v: k for k, v in self.mapping.items()}]; the items come in the
    order of the dictionary and a later one replaces an earlier one with the
    same target. *)
Definition reverse_of (mapping : list (string * string)) : gmap string string :=
  foldl (λ m kv, <[kv.2 := kv.1]> m) ∅ mapping.

(** Lines 26-33: the value stored under one required column. *)
Definition column_value (df : Frame) (defaults : gmap string cell)
    (reverse_mapping : gmap string string) (row : gmap string cell)
    (col : string) : cell :=
  if bool_decide (col ∈ frame_columns df) then default NaN (row !! col)
  else
    match reverse_mapping !! col with
    | Some src =>
        match row !! src with
        | Some v => v
        | None =>
            match defaults !! col with
            | Some v => v
            | None => Str ""
            end
        end
    | None =>
        match defaults !! col with
        | Some v => v
        | None => Str ""
        end
    end.

(** Lines 23-33: the dictionary built for one row. *)
Definition output_row (df : Frame) (required_columns : list string)
    (defaults : gmap string cell) (reverse_mapping : gmap string string)
    (row : gmap string cell) : gmap string cell :=
  foldl (λ out col, <[col := column_value df defaults reverse_mapping row col]> out)
        ∅ required_columns.

(** [expand_columns]: the dictionaries the returned frame is made of, one per
    input row. *)
Definition expand_columns (df : Frame) (required_columns : list string)
    (defaults : gmap string cell) (mapping : list (string * string))
  : list (gmap string cell) :=
  let reverse_mapping := reverse_of mapping in
  map (λ cells, output_row df required_columns defaults reverse_mapping
                  (series df cells))
      (frame_rows df).

End ScheduleExpander.

(** ** [CSVSplitter] (splitter.py) *)

Module CSVSplitter.

Import PyStr.

(** A group key of [df.groupby]: one value, or a tuple of values. *)
Inductive group_key : Type :=
| Scalar (k : cell)
| Tuple (ks : list cell).

(** Lines 11-12: an option given on the command line, cut at the commas. *)
Definition parse_values (values : option string) : option (list string) :=
  match values with
  | Some v => if nonempty v then Some (map strip (split_char "," v)) else None
  | None => None
  end.

Definition key_strings (group_keys : group_key) : list string :=
  match group_keys with
  | Tuple ks => map str ks
  | Scalar k => [str k]
  end.

(** Truthiness of an optional list: [None] and the empty list are false. *)
Definition given (values : option (list string)) : bool :=
  match values with
  | Some (_ :: _) => true
  | _ => false
  end.

Definition any_in (keys : list string) (values : option (list string)) : bool :=
  existsb (λ k, bool_decide (k ∈ default [] values)) keys.

Definition _should_include (include_values exclude_values : option (list string))
    (group_keys : group_key) : bool :=
  let keys := key_strings group_keys in
  if given include_values && negb (any_in keys include_values) then false
  else if given exclude_values && any_in keys exclude_values then false
  else true.

(** [_sanitize_filename]: each of the nine characters that a file name may
    not hold (angle brackets, colon, double quote, both slashes, bar,
    question mark, star) becomes an underscore. *)
Definition reserved (c : ascii) : bool :=
  existsb (Ascii.eqb c)
    ["<"; ">"; ":"; ascii_of_nat 34; "/"; "\"; "|"; "?"; "*"]%char.

Fixpoint _sanitize_filename (name : string) : string :=
  match name with
  | EmptyString => EmptyString
  | String c r => String (if reserved c then "_"%char else c) (_sanitize_filename r)
  end.

(** [s.replace(" ", "_")] *)
Fixpoint replace_spaces (s : string) : string :=
  match s with
  | EmptyString => EmptyString
  | String c r => String (if Ascii.eqb c " " then "_"%char else c) (replace_spaces r)
  end.

(** ["_".join(parts)] *)
Fixpoint join_underscore (parts : list string) : string :=
  match parts with
  | [] => ""
  | [p] => p
  | p :: r => p +:+ "_" +:+ join_underscore r
  end.

Definition key_cells (group_keys : group_key) : list cell :=
  match group_keys with
  | Tuple ks => ks
  | Scalar k => [k]
  end.

(** Lines 38-43.  [base_name] is the input file's name without directory and
    extension. *)
Definition output_path (output_dir base_name : string) (group_keys : group_key)
  : string :=
  let safe_keys :=
    map (λ k, _sanitize_filename (replace_spaces (str k))) (key_cells group_keys) in
  let suffix := join_underscore safe_keys in
  ScheduleParser.path_join output_dir (base_name +:+ "_" +:+ suffix +:+ ".csv").

(** [split_and_export] over the groups of [self.df.groupby(...)]: the files
    written, each with the path it is written to, in group order. *)
Definition split_and_export {G : Type}
    (include_values exclude_values : option (list string))
    (output_dir base_name : string) (grouped : list (group_key * G))
  : list (string * G) :=
  map (λ g, (output_path output_dir base_name g.1, g.2))
      (filter (λ g, _should_include include_values exclude_values g.1 = true) grouped).

End CSVSplitter.

(** ** Predicates used in the statements *)

Section Predicates.

Import PyStr Cal Fmt ScheduleParser.

(** A text parses when one of the two patterns reads it as a time. *)
Definition parses (x : string) : Prop :=
  ∃ fmt t, fmt ∈ time_format_attempts ∧ to_datetime fmt x = Ok (Ts t).

Definition is_null (x : string) : bool := bool_decide (x = "" ∨ x ∈ nat_strings).

(** A pattern none of whose parts can match the character [c]. *)
Definition class_free (c : ascii) (ps : list (ascii → bool)) : Prop :=
  Forall (λ p, p c = false) ps.

Definition rx_free (c : ascii) (x : rx) : Prop :=
  match x with
  | RLit l => ci l c = false
  | RWs => isspace c = false
  | RDir d => Forall (class_free c) (alts d)
  end.

Definition dirs (r : list rx) : list directive :=
  omap (λ x, match x with RDir d => Some d | _ => None end) r.

(** The text of a group is what one of the directive's alternatives
    matched. *)
Definition cap_ok (g : directive * string) : Prop :=
  ∃ ps s rest, ps ∈ alts g.1 ∧ match_classes ps s = Some (g.2, rest).

(** A time of day on 1900-01-01. *)
Definition time_of_day (t : timestamp) : Prop :=
  year t = 1900 ∧ month t = 1 ∧ day t = 1 ∧ 0 ≤ hour t ≤ 23 ∧ 0 ≤ minute t ≤ 59.

(** The two digits of a number below 100. *)
Definition two_digits (m : Z) : string :=
  String (ascii_of_nat (Z.to_nat (48 + m / 10)))
         (String (ascii_of_nat (Z.to_nat (48 + m mod 10))) "").

(** Every row is at or below the next one. *)
Fixpoint ascending {A : Type} (key : A → datetime * string) (l : list A) : Prop :=
  match l with
  | x :: (y :: _) as r => key_leb (key x) (key y) = true ∧ ascending key r
  | _ => True
  end.

(** Rows with the same key as [k]. *)
Definition tied {A : Type} (key : A → datetime * string)
    (k : datetime * string) (x : A) : bool :=
  key_leb (key x) k && key_leb k (key x).

End Predicates.

(** ** The claims about the expander and the splitter, in their own words

    These definitions follow the wording of the claims, not the code, for
    comparison with what the code computes. *)

Section ClaimWords.

Import ScheduleExpander CSVSplitter.

(** The position of the input column named [name]. *)
Fixpoint index_of (name : string) (cols : list string) : option nat :=
  match cols with
  | [] => None
  | c :: r => if String.eqb c name then Some O else S <$> index_of name r
  end.

(** The value of the input column [name] in a row, when the input has such
    a column: the cell at the column's position, as the row iteration hands
    it out. *)
Definition input_value (df : Frame) (cells : list cell) (name : string)
  : option cell :=
  match index_of name (frame_columns df) with
  | Some j => Some (iterrows_cell df (default NaN (cells !! j)))
  | None => None
  end.

(** The sources [Mapping] maps to [col], in the order of the mapping. *)
Definition sources_of (mapping : list (string * string)) (col : string)
  : list string :=
  map fst (filter (λ kv, kv.2 = col) mapping).

(** The value of a required column as the claim states it: the input column
    of the same name, else an input column that [Mapping] maps to it, else
    the default, else the empty text. *)
Definition claimed_value (df : Frame) (defaults : gmap string cell)
    (mapping : list (string * string)) (cells : list cell) (col : string) : cell :=
  match input_value df cells col with
  | Some v => v
  | None =>
      match head (omap (input_value df cells) (sources_of mapping col)) with
      | Some v => v
      | None => default (Str "") (defaults !! col)
      end
  end.

(** The same with the amendment: of the entries of [Mapping] for [col], the
    last alone is looked at. *)
Definition amended_value (df : Frame) (defaults : gmap string cell)
    (mapping : list (string * string)) (cells : list cell) (col : string) : cell :=
  match input_value df cells col with
  | Some v => v
  | None =>
      match last (sources_of mapping col) ≫= input_value df cells with
      | Some v => v
      | None => default (Str "") (defaults !! col)
      end
  end.

(** The components of a group key. *)
Definition components (group_keys : group_key) : list cell :=
  match group_keys with
  | Scalar k => [k]
  | Tuple ks => ks
  end.

(** A key matches a list when one of its components, written as text, is in
    the list. *)
Definition key_matches (group_keys : group_key) (values : list string) : Prop :=
  ∃ k, k ∈ components group_keys ∧ str k ∈ values.

(** The groups exported, as the claim states them: with an include list
    given (a list that is not empty), the key matches it; with an exclude
    list given, the key does not match it. *)
Definition exported (include_values exclude_values : option (list string))
    (group_keys : group_key) : Prop :=
  (∀ l, include_values = Some l → l ≠ [] → key_matches group_keys l) ∧
  (∀ l, exclude_values = Some l → ¬ key_matches group_keys l).

End ClaimWords.

(** ** Sample inputs *)

(** A sheet of two blocks with one dated row. *)
Definition sheet_ex : DataFrame := frame_of_grid
  [ [Str "Monday"; NaN; Str "Monday"; NaN];
    [Str "Date"; Str "Time"; Str "Date"; Str "Time"];
    [NaN; Str "6 pm - 7:15 pm"; NaN; Str "6:00 pm - 7:00 pm"];
    [Str "7/21/2025"; Str "16U / 18U"; Str "7/21/2025"; Str "12U"] ].

(** A block with a label in a time cell, a meta row, an undated row and
    empty participant cells. *)
Definition block_ex : DataFrame := frame_of_grid
  [ [Str "Monday"; NaN; NaN; NaN];
    [Str "Date"; Str "Time"; NaN; NaN];
    [NaN; Str "6 pm - 7:15 pm"; Str "Time"; Str "8 pm - 9 pm"];
    [Str "7/21/2025"; Str "16U / 18U"; Str "12U"; NaN];
    [Str "Ice Time"; Str "10U"; Str "10U"; Str "10U"];
    [NaN; Str "8U"; Str "8U"; Str "8U"];
    [Str "7/28/2025"; Str "  "; Str "14U"; Str "14U"] ].

(** A configuration with a 24-hour time pattern. *)
Definition config_24h_ex : ScheduleParser.config :=
  ScheduleParser.mkConfig "%m/%d/%Y" "%H:%M" "H:MM" true "missing" false "/".

(** A sheet with a date of the year 999. *)
Definition sheet_old_year : DataFrame := frame_of_grid
  [ [Str "Monday"; NaN];
    [Str "Date"; Str "Time"];
    [NaN; Str "6 pm - 7 pm"];
    [Str "1/1/0999"; Str "A / B"] ].

(** The sheet of the package's test for a wrong marker: the cells of row 1
    read "Day", not "Date". *)
Definition sheet_no_marker : DataFrame := frame_of_grid
  [ [Str "Monday"; NaN; Str "Tuesday"; NaN; NaN; NaN];
    [Str "Day"; Str "Time"; Str "Day"; Str "Time"; NaN; NaN];
    [NaN; Str "6 pm - 7:15 pm"; NaN; Str "6:00 pm - 7:00 pm";
     Str "7:00 pm - 8:00 pm"; Str "8:15 pm - 9:15 pm"];
    [Str "7/21/2025"; Str "16U / 18U"; Str "7/22/2025"; Str "12U / 14U";
     Str "18U"; Str "16U"];
    [Str "7/28/2025"; Str "16U / 18U"; Str "7/29/2025"; Str "8U / 10U";
     Str "18U"; Str "16U"];
    [Str "8/4/2025"; Str "16U / 18U"; Str "8/5/2025"; Str "12U / 14U";
     Str "18U"; Str "16U"] ].

(** A sheet with two morning slots on one day. *)
Definition sheet_mornings : DataFrame := frame_of_grid
  [ [Str "Saturday"; NaN; NaN];
    [Str "Date"; Str "Time"; NaN];
    [NaN; Str "9 am - 10 am"; Str "10 am - 11 am"];
    [Str "7/26/2025"; Str "A"; Str "B"] ].

(** A file system with a configuration beside the schedule and none at the
    path the caller names. *)
Definition fs_ex : gmap string string :=
  {[ "data/parser_config.json" := "sibling" ]}.

Definition sibling_config_ex : ScheduleParser.config :=
  ScheduleParser.mkConfig "%d/%m/%Y" "%H:%M" "H:MM" false "TBD" true ",".

Definition json_load_ex (text : string) : result ScheduleParser.config :=
  if String.eqb text "sibling" then Ok sibling_config_ex else Raise JSONDecodeError.

Definition expander_frame_ex : ScheduleExpander.Frame :=
  ScheduleExpander.mkFrame ["Date"; "Start Time"; "Team"]
    [ [Str "2025-01-01"; Str "7:00 PM"; Str "A"];
      [Str "2025-01-02"; Str "8:00 PM"; Str "B"] ].

(** A table of numbers only, with a float column. *)
Definition expander_numeric_ex : ScheduleExpander.Frame :=
  ScheduleExpander.mkFrame ["Week"; "Score"]
    [ [Num "1"; Num "2.5"];
      [Num "2"; NaN] ].

Definition expander_defaults_ex : gmap string cell :=
  <["Location" := Str "Main Arena"]> (<["Status" := Str "Scheduled"]> ∅).

(** ** Further parts of the sources *)

Module Paths.

Import PyStr.

(** [os.path.basename], for POSIX paths: what follows the last "/". *)
Fixpoint basename (p : string) : string :=
  match p with
  | EmptyString => EmptyString
  | String _ r => if has_char "/" p then basename r else p
  end.

(** The text before the last [c] of a text that holds [c]. *)
Fixpoint before_last (c : ascii) (s : string) : string :=
  match s with
  | EmptyString => EmptyString
  | String x r =>
      if has_char c r then String x (before_last c r)
      else if Ascii.eqb x c then EmptyString else s
  end.

Fixpoint all_dots (s : string) : bool :=
  match s with
  | EmptyString => true
  | String x r => Ascii.eqb x "." && all_dots r
  end.

(** [os.path.splitext(name)[0]] for a name without "/": the extension
    starts at the last dot, unless only dots stand before it. *)
Definition splitext_root (name : string) : string :=
  let root := before_last "." name in
  if has_char "." name && negb (all_dots root) then root else name.

End Paths.

Module CSVSplitterFile.

Import PyStr CSVSplitter.

(** [s.count(c)] *)
Fixpoint count_char (c : ascii) (s : string) : nat :=
  match s with
  | EmptyString => O
  | String x r => ((if Ascii.eqb x c then 1 else 0) + count_char c r)%nat
  end.

(** Line 9: the group columns given on the command line. *)
Definition parse_columns (group_columns : string) : list string :=
  map strip (split_char "," group_columns).

(** Line 41 *)
Definition base_name_of (input_file : string) : string :=
  Paths.splitext_root (Paths.basename input_file).

(** Lines 39-42: the name of the file written for a group. *)
Definition output_filename (input_file : string) (group_keys : group_key) : string :=
  let safe_keys :=
    map (λ k, _sanitize_filename (replace_spaces (str k))) (key_cells group_keys) in
  base_name_of input_file +:+ "_" +:+ join_underscore safe_keys +:+ ".csv".

End CSVSplitterFile.

(** ** Further predicates used in the statements *)

Section MorePredicates.

Import PyStr Cal Fmt ScheduleParser.

(** The four digits of a number below 10000. *)
Definition four_digits (y : Z) : string :=
  String (ascii_of_nat (Z.to_nat (48 + y / 1000)))
    (String (ascii_of_nat (Z.to_nat (48 + y / 100 mod 10)))
       (String (ascii_of_nat (Z.to_nat (48 + y / 10 mod 10)))
          (String (ascii_of_nat (Z.to_nat (48 + y mod 10))) ""))).

(** The date [parse_schedule] sorts an entry by: its [Date] text read again
    with the configured pattern (line 148). *)
Definition row_date (cfg : config) (e : entry) : datetime :=
  match to_datetime (Format_Date cfg) (str (Date e)) with
  | Ok d => d
  | Raise _ => NaT
  end.

(** The sort key of an entry (line 149). *)
Definition row_key (cfg : config) (e : entry) : datetime * string :=
  (row_date cfg e, Start_Time e).

(** The columns of an entry that the last step does not write again. *)
Definition other_fields (e : entry) : Z * string * string * string * string :=
  (Week e, Day e, Start_Time e, Duration e, Team e).

(** An entry made from a date cell that reads as the date [d] (lines
    111-121): its week, its day name and its date text all come from [d]. *)
Definition dated (cfg : config) (reference_date : timestamp) (e : entry) : Prop :=
  ∃ (s : string) (d : timestamp),
    to_datetime (Format_Date cfg) s = Ok (Ts d) ∧
    Week e = week_of reference_date d ∧
    Day e = strftime "%A" d ∧
    Date e = Str (strftime (Format_Date cfg) d).

(** Whether the date text of an entry reads as a date again under the
    configured pattern (line 148 does not raise on it). *)
Definition reads_back (cfg : config) (e : entry) : bool :=
  match to_datetime (Format_Date cfg) (str (Date e)) with
  | Ok _ => true
  | Raise _ => false
  end.

(** Numbering from 0, as [reset_index] does. *)
Definition numbered (l : list entry) : list row :=
  imap (λ i e, mkRow (Z.of_nat i) e) l.

(** A check of all the integers from [y] on, [fuel] of them. *)
Fixpoint all_from (fuel : nat) (y : Z) (P : Z → bool) : bool :=
  match fuel with
  | O => true
  | S f => P y && all_from f (y + 1) P
  end.

(** A group that took the text [m], put before what the rest of the pattern
    gives. *)
Definition after_group (d : directive) (m : string)
    (r : option (list (directive * string) * string))
  : option (list (directive * string) * string) :=
  match r with
  | Some (caps, out) => Some ((d, m) :: caps, out)
  | None => None
  end.

End MorePredicates.

(** * Properties *)

(** ** The model on small inputs *)

Example strip_ex : PyStr.strip "  6 pm - 7:15 pm  " = "6 pm - 7:15 pm".
Proof. reflexivity. Qed.

Example split_ex : PyStr.split_char "-" "6 pm - 7:15 pm" = ["6 pm "; " 7:15 pm"].
Proof. reflexivity. Qed.

Example re_split_ex : PyStr.re_split "/" "16U / 18U" = ["16U "; " 18U"].
Proof. reflexivity. Qed.

Example re_split_ex2 : PyStr.re_split "--" "a---b--" = ["a"; "-b"; ""].
Proof. reflexivity. Qed.

Example zfill_ex : PyStr.zfill 2 (PyStr.of_Z 5) = "05".
Proof. reflexivity. Qed.

Example epoch_ex : Cal.days_from_civil 1970 1 1 = 0.
Proof. reflexivity. Qed.

Example weekday_ex :
  Cal.weekday_name (Cal.mkTs 2025 9 2 0 0) = "Tuesday" ∧
  Cal.weekday_name (Cal.mkTs 2025 7 21 0 0) = "Monday".
Proof. split; reflexivity. Qed.

Example to_datetime_ex1 :
  Fmt.to_datetime "%I %p" "6 pm" = Ok (Cal.Ts (Cal.mkTs 1900 1 1 18 0)) ∧
  Fmt.to_datetime "%I %p" "6:00 pm" = Raise ValueError ∧
  Fmt.to_datetime "%I:%M %p" "12:05   am" = Ok (Cal.Ts (Cal.mkTs 1900 1 1 0 5)) ∧
  Fmt.to_datetime "%I %p" "13 pm" = Raise ValueError ∧
  Fmt.to_datetime "%I %p" "nan" = Ok Cal.NaT ∧
  Fmt.to_datetime "%m/%d/%Y" "7/21/2025" = Ok (Cal.Ts (Cal.mkTs 2025 7 21 0 0)) ∧
  Fmt.to_datetime "%m/%d/%Y" "2/29/2025" = Raise ValueError ∧
  Fmt.to_datetime "%m/%d/%Y" "Ice Time" = Raise ValueError.
Proof. repeat split; vm_compute; reflexivity. Qed.

Example strftime_ex1 :
  Fmt.strftime "%I:%M %p" (Cal.mkTs 1900 1 1 18 0) = "06:00 PM" ∧
  Fmt.strftime "%m/%d/%Y" (Cal.mkTs 2025 7 21 0 0) = "07/21/2025" ∧
  Fmt.strftime "%A" (Cal.mkTs 2025 7 21 0 0) = "Monday".
Proof. repeat split; vm_compute; reflexivity. Qed.

Example parse_interval_ex :
  ScheduleParser._parse_time_and_duration ScheduleParser.DEFAULT_CONFIG "6 pm - 7:15 pm"
    = Some ("6:00 PM", "1:15") ∧
  ScheduleParser._parse_time_and_duration ScheduleParser.DEFAULT_CONFIG "11 pm - 1 am"
    = Some ("11:00 PM", "2:00") ∧
  ScheduleParser._parse_time_and_duration ScheduleParser.DEFAULT_CONFIG "Time" = None ∧
  ScheduleParser._parse_time_and_duration ScheduleParser.DEFAULT_CONFIG "6 pm - 7 pm - 8 pm" = None ∧
  ScheduleParser._parse_time_and_duration ScheduleParser.DEFAULT_CONFIG "- 7 pm" = None.
Proof. repeat split; vm_compute; reflexivity. Qed.

Example dirname_ex :
  ScheduleParser.dirname "a/b/c.txt" = "a/b" ∧ ScheduleParser.dirname "c.txt" = "" ∧
  ScheduleParser.dirname "/c.txt" = "/" ∧
  ScheduleParser.path_join "a/b" "parser_config.json" = "a/b/parser_config.json" ∧
  ScheduleParser.path_join "" "parser_config.json" = "parser_config.json".
Proof. repeat split; vm_compute; reflexivity. Qed.

(** ** Facts about strings *)

Section StringFacts.

Import PyStr.

Lemma app_cons (x : ascii) (a b : string) : String x a +:+ b = String x (a +:+ b).
Proof. done. Qed.

Lemma append_empty (s : string) : s +:+ "" = s.
Proof.
  induction s as [|c s IH]; [done|].
  change (String c (s +:+ "") = String c s). by rewrite IH.
Qed.

Lemma nonempty_false (s : string) : nonempty s = false ↔ s = "".
Proof. destruct s; simpl; split; congruence. Qed.

Lemma nonempty_true (s : string) : nonempty s = true ↔ s ≠ "".
Proof. destruct s; simpl; split; congruence. Qed.

Lemma contains_char (c : ascii) (s : string) :
  contains (String c "") s = has_char c s.
Proof.
  induction s as [|x r IH]; [reflexivity|].
  simpl. rewrite IH. rewrite andb_true_r.
  by rewrite (Ascii.eqb_sym c x).
Qed.

Lemma lower_char_dash (x : ascii) :
  Ascii.eqb (lower_char x) "-" = Ascii.eqb x "-".
Proof.
  destruct x as [[] [] [] [] [] [] [] []]; reflexivity.
Qed.

Lemma has_dash_lower (s : string) : has_char "-" (lower s) = has_char "-" s.
Proof.
  induction s as [|x r IH]; [reflexivity|].
  simpl. by rewrite IH, lower_char_dash.
Qed.

Lemma eqb_class_false (p : ascii → bool) (x c : ascii) :
  p x = true → p c = false → Ascii.eqb x c = false.
Proof.
  intros Hx Hc. apply Ascii.eqb_neq. intros ->. congruence.
Qed.

Lemma has_char_lstrip (c : ascii) (s : string) :
  isspace c = false → has_char c (lstrip s) = has_char c s.
Proof.
  intros Hc. induction s as [|x r IH]; [reflexivity|].
  simpl. destruct (isspace x) eqn:Hx; [|reflexivity].
  by rewrite IH, (eqb_class_false isspace x c).
Qed.

Lemma has_char_rstrip (c : ascii) (s : string) :
  isspace c = false → has_char c (rstrip s) = has_char c s.
Proof.
  intros Hc. induction s as [|x r IH]; [reflexivity|].
  simpl. destruct (rstrip r) as [|y r'] eqn:Hr.
  - simpl in IH. rewrite <- IH. destruct (isspace x) eqn:Hx; simpl.
    + by rewrite (eqb_class_false isspace x c).
    + by rewrite orb_false_r.
  - simpl. simpl in IH. by rewrite IH.
Qed.

Lemma has_char_strip (c : ascii) (s : string) :
  isspace c = false → has_char c (strip s) = has_char c s.
Proof.
  intros Hc. unfold strip. by rewrite has_char_lstrip, has_char_rstrip.
Qed.

Lemma split_char_no_sep (c : ascii) (s : string) :
  has_char c s = false → split_char c s = [s].
Proof.
  induction s as [|x r IH]; [reflexivity|].
  simpl. intros H. apply orb_false_iff in H as [Hx Hr].
  by rewrite Hx, (IH Hr).
Qed.

Lemma split_char_first (c : ascii) (s : string) :
  has_char c s = true →
  split_char c s = before c s :: split_char c (after c s).
Proof.
  induction s as [|x r IH]; [done|].
  simpl. destruct (Ascii.eqb x c) eqn:Hx; [reflexivity|].
  simpl. intros Hr. by rewrite (IH Hr).
Qed.

Lemma split_char_two (c : ascii) (s : string) :
  has_char c s = true → has_char c (after c s) = false →
  split_char c s = [before c s; after c s].
Proof.
  intros H1 H2. by rewrite split_char_first, (split_char_no_sep c (after c s)).
Qed.

Lemma split_char_more (c : ascii) (s : string) :
  has_char c s = true → has_char c (after c s) = true →
  ∃ x y z l, split_char c s = x :: y :: z :: l.
Proof.
  intros H1 H2. rewrite split_char_first by done.
  rewrite (split_char_first c (after c s)) by done.
  destruct (split_char c (after c (after c s))) as [|z l] eqn:Hl.
  - destruct (after c (after c s)) as [|x r]; [done|].
    simpl in Hl. destruct (Ascii.eqb x c); [done|].
    by destruct (split_char c r).
  - eauto.
Qed.

End StringFacts.

(** ** Facts about pattern matching *)

Section MatchFacts.

Import PyStr Cal Fmt.

Lemma first_some_elem {A B : Type} (f : A → option B) (l : list A) (b : B) :
  first_some f l = Some b → ∃ a, a ∈ l ∧ f a = Some b.
Proof.
  induction l as [|a l IH]; [done|].
  simpl. destruct (f a) as [b'|] eqn:Ha.
  - intros [= ->]. exists a. split; [left|done].
  - intros H. destruct (IH H) as (a' & Hin & Hf). exists a'. split; [by right|done].
Qed.

Lemma match_classes_free (c : ascii) (ps : list (ascii → bool))
    (s m rest : string) :
  class_free c ps → match_classes ps s = Some (m, rest) →
  has_char c s = has_char c rest.
Proof.
  intros Hfree. revert s m. induction Hfree as [|p ps Hp _ IH]; intros s m.
  - simpl. by intros [= _ ->].
  - simpl. destruct s as [|x r]; [done|].
    destruct (p x) eqn:Hx; [|done].
    destruct (match_classes ps r) as [[m' rest']|] eqn:Hm; [|done].
    intros [= _ <-]. simpl.
    by rewrite (eqb_class_false p x c), (IH r m').
Qed.

Lemma ws_candidates_free (c : ascii) (s rest : string) :
  isspace c = false → rest ∈ ws_candidates s →
  has_char c s = has_char c rest.
Proof.
  intros Hc. induction s as [|x r IH]; simpl.
  - intros H. by apply elem_of_nil in H.
  - destruct (isspace x) eqn:Hx.
    + rewrite (eqb_class_false isspace x c) by done. simpl.
      intros H. apply elem_of_app in H as [H|H]; [by apply IH|].
      apply list_elem_of_singleton in H. by subst.
    + intros H. by apply elem_of_nil in H.
Qed.

Lemma rx_match_free (c : ascii) (r : list rx) (s : string)
    (caps : list (directive * string)) (rest : string) :
  Forall (rx_free c) r → rx_match r s = Some (caps, rest) →
  has_char c s = has_char c rest.
Proof.
  intros Hfree. revert s caps.
  induction Hfree as [|x r Hx _ IH]; intros s caps.
  - simpl. by intros [= _ ->].
  - destruct x as [l| |d]; simpl in *.
    + destruct s as [|y s']; [done|].
      destruct (ci l y) eqn:Hy; [|done]. intros H. simpl.
      rewrite (eqb_class_false (ci l) y c) by done. by apply (IH s' caps).
    + intros H. apply first_some_elem in H as (rest' & Hin & Hm).
      rewrite (ws_candidates_free c s rest') by done. by apply (IH rest' caps).
    + intros H. apply first_some_elem in H as ([m rest'] & Hin & Hm).
      destruct (rx_match r rest') as [[caps' out]|] eqn:Hr; [|done].
      injection Hm as _ <-.
      unfold candidates in Hin. apply list_elem_of_omap in Hin as (ps & Hps & Hmc).
      rewrite (match_classes_free c ps s m rest'); [by apply (IH rest' caps')| |done].
      rewrite Forall_forall in Hx. by apply Hx.
Qed.

End MatchFacts.

(** ** The interval parser *)

Section IntervalFacts.

Import PyStr Cal Fmt ScheduleParser.

Lemma to_datetime_bare (x : string) :
  to_datetime "%I %p" x =
  if is_null x then Ok NaT
  else match rx_match [RDir dI; RWs; RDir dp] x with
       | None => Raise ValueError
       | Some (caps, rest) =>
           if nonempty rest then Raise ValueError
           else if valid (build caps) then Ok (Ts (build caps)) else Raise ValueError
       end.
Proof. reflexivity. Qed.

Lemma to_datetime_minutes (x : string) :
  to_datetime "%I:%M %p" x =
  if is_null x then Ok NaT
  else match rx_match [RDir dI; RLit ":"; RDir dM; RWs; RDir dp] x with
       | None => Raise ValueError
       | Some (caps, rest) =>
           if nonempty rest then Raise ValueError
           else if valid (build caps) then Ok (Ts (build caps)) else Raise ValueError
       end.
Proof. reflexivity. Qed.

Lemma attempts_cases (fmt : string) :
  fmt ∈ time_format_attempts → fmt = "%I %p" ∨ fmt = "%I:%M %p".
Proof.
  unfold time_format_attempts. intros H.
  apply elem_of_cons in H as [->|H]; [by left|].
  apply list_elem_of_singleton in H. by right.
Qed.

Lemma attempt_null (fmt x : string) :
  fmt ∈ time_format_attempts →
  to_datetime fmt x = if is_null x then Ok NaT else to_datetime fmt x.
Proof.
  intros [->| ->]%attempts_cases.
  - rewrite to_datetime_bare. by destruct (is_null x).
  - rewrite to_datetime_minutes. by destruct (is_null x).
Qed.

Lemma attempt_timestamp (fmt x : string) (t : timestamp) :
  fmt ∈ time_format_attempts → to_datetime fmt x = Ok (Ts t) →
  is_null x = false ∧ has_char "-" x = false.
Proof.
  intros Hfmt H. rewrite (attempt_null fmt x Hfmt) in H.
  destruct (is_null x) eqn:Hnull; [done|]. split; [done|].
  apply attempts_cases in Hfmt as [-> | ->].
  - rewrite to_datetime_bare, Hnull in H.
    destruct (rx_match _ x) as [[caps rest]|] eqn:Hm; [|done].
    destruct rest; [|done].
    apply (rx_match_free "-") in Hm; [done|].
    repeat constructor.
  - rewrite to_datetime_minutes, Hnull in H.
    destruct (rx_match _ x) as [[caps rest]|] eqn:Hm; [|done].
    destruct rest; [|done].
    apply (rx_match_free "-") in Hm; [done|].
    repeat constructor.
Qed.

(** The two [for] loops try the patterns in the order of the list: the
    bare hour first, the hour with minutes second. *)
Lemma first_parsed_order (x : string) :
  first_parsed time_format_attempts x =
  match to_datetime "%I %p" x with
  | Ok d => Some d
  | Raise _ =>
      match to_datetime "%I:%M %p" x with
      | Ok d => Some d
      | Raise _ => None
      end
  end.
Proof. reflexivity. Qed.

Lemma parses_iff (x : string) :
  parses x ↔ ∃ t, first_parsed time_format_attempts x = Some (Ts t).
Proof.
  rewrite first_parsed_order. split.
  - intros (fmt & t & Hfmt & Ht).
    destruct (attempt_timestamp fmt x t Hfmt Ht) as [Hnull _].
    apply attempts_cases in Hfmt as [-> | ->].
    + rewrite Ht. eauto.
    + destruct (to_datetime "%I %p" x) as [[|t']|] eqn:H1.
      * rewrite to_datetime_bare, Hnull in H1.
        destruct (rx_match _ x) as [[caps rest]|]; [|done].
        destruct (nonempty rest); [done|]. by destruct (valid (build caps)).
      * eauto.
      * rewrite Ht. eauto.
  - intros (t & Ht).
    destruct (to_datetime "%I %p" x) as [d|] eqn:H1.
    + injection Ht as ->. exists "%I %p", t. split; [|done].
      unfold time_format_attempts. by left.
    + destruct (to_datetime "%I:%M %p" x) as [d|] eqn:H2; [|done].
      injection Ht as ->. exists "%I:%M %p", t. split; [|done].
      unfold time_format_attempts. right. by left.
Qed.

Lemma parses_no_dash (x : string) : parses x → has_char "-" x = false.
Proof.
  intros (fmt & t & Hfmt & Ht). by destruct (attempt_timestamp fmt x t Hfmt Ht).
Qed.

(** Past its three guards, the function is the [try] block. *)
Lemma parse_guards (cfg : config) (interval : string) :
  _parse_time_and_duration cfg interval =
  if contains "Time" (strip interval) || negb (nonempty (strip interval))
     || negb (has_char "-" (strip interval))
  then None
  else match parse_interval_body cfg (strip interval) with
       | Ok slot => Some slot
       | Raise _ => None
       end.
Proof. unfold _parse_time_and_duration. by rewrite contains_char. Qed.

(** The [try] block, in terms of the text before and after the first "-". *)
Lemma parse_body_halves (cfg : config) (t : string) :
  has_char "-" t = true →
  parse_interval_body cfg t =
  if has_char "-" (after "-" (lower t)) then Raise ValueError
  else
    match first_parsed time_format_attempts (strip (before "-" (lower t))),
          first_parsed time_format_attempts (strip (after "-" (lower t))) with
    | Some (Ts s), Some (Ts e) =>
        Ok (lstrip0 (strftime (Format_Time cfg) s),
            duration_str (duration_seconds s e))
    | _, _ => Raise ValueError
    end.
Proof.
  intros Hdash. rewrite <- has_dash_lower in Hdash. unfold parse_interval_body.
  destruct (has_char "-" (after "-" (lower t))) eqn:Hafter.
  - destruct (split_char_more "-" (lower t) Hdash Hafter) as (x & y & z & l & ->).
    done.
  - rewrite (split_char_two "-" (lower t) Hdash Hafter).
    destruct (first_parsed time_format_attempts (strip (before "-" (lower t)))) as [[|s]|];
      destruct (first_parsed time_format_attempts (strip (after "-" (lower t)))) as [[|e]|]; done.
Qed.

(** A successful call: both halves were read as times, and the result was
    built from them. *)
Lemma parse_some_inv (cfg : config) (interval : string) (slot : string * string) :
  _parse_time_and_duration cfg interval = Some slot →
  ∃ s e,
    first_parsed time_format_attempts
      (strip (before "-" (lower (strip interval)))) = Some (Ts s) ∧
    first_parsed time_format_attempts
      (strip (after "-" (lower (strip interval)))) = Some (Ts e) ∧
    slot = (lstrip0 (strftime (Format_Time cfg) s),
            duration_str (duration_seconds s e)).
Proof.
  rewrite parse_guards.
  destruct (contains "Time" (strip interval)); [done|].
  destruct (nonempty (strip interval)); [|done].
  destruct (has_char "-" (strip interval)) eqn:Hdash; [|done]. cbn [orb negb].
  rewrite parse_body_halves by done.
  destruct (has_char "-" (after "-" (lower (strip interval)))); [done|].
  destruct (first_parsed time_format_attempts (strip (before "-" (lower (strip interval)))))
    as [[|s]|]; try done;
    destruct (first_parsed time_format_attempts (strip (after "-" (lower (strip interval)))))
      as [[|e]|]; try done.
  intros [= <-]. by exists s, e.
Qed.

(** C3: the parser returns [(None, None)] exactly when the trimmed text is
    empty, has no "-", holds "Time", or has a half (the text before, or
    after, the first "-") that neither pattern reads as a time; the
    patterns are tried bare hour first, hour with minutes second, and the
    first that reads the text wins; any other text gives a result built
    from the two times read. *)
Theorem C3_interval_parser (cfg : config) (interval : string) :
  let t := strip interval in
  let start_str := strip (before "-" (lower t)) in
  let end_str := strip (after "-" (lower t)) in
  (_parse_time_and_duration cfg interval = None ↔
     t = "" ∨ contains "-" t = false ∨ contains "Time" t = true ∨
     ¬ parses start_str ∨ ¬ parses end_str) ∧
  (∀ x, first_parsed time_format_attempts x =
        match to_datetime "%I %p" x with
        | Ok d => Some d
        | Raise _ =>
            match to_datetime "%I:%M %p" x with
            | Ok d => Some d
            | Raise _ => None
            end
        end) ∧
  (∀ slot, _parse_time_and_duration cfg interval = Some slot →
     ∃ s e,
       first_parsed time_format_attempts start_str = Some (Ts s) ∧
       first_parsed time_format_attempts end_str = Some (Ts e) ∧
       slot = (lstrip0 (strftime (Format_Time cfg) s),
               duration_str (duration_seconds s e))).
Proof.
  intros t start_str end_str. split; [|split].
  - rewrite parse_guards. fold t. rewrite contains_char.
    destruct (contains "Time" t) eqn:Htime; cbn [orb negb].
    { split; [|done]. intros _. by right; right; left. }
    destruct (nonempty t) eqn:Hne; cbn [orb negb].
    2:{ apply nonempty_false in Hne. split; [|done]. intros _. by left. }
    apply nonempty_true in Hne.
    destruct (has_char "-" t) eqn:Hdash; cbn [orb negb].
    2:{ split; [|done]. intros _. by right; left. }
    rewrite parse_body_halves by done.
    destruct (has_char "-" (after "-" (lower t))) eqn:Hafter.
    { split; [|done]. intros _. right; right; right; right.
      intros Hp. apply parses_no_dash in Hp. subst end_str.
      rewrite has_char_strip in Hp by done. congruence. }
    fold start_str end_str.
    destruct (first_parsed time_format_attempts start_str) as [[|s]|] eqn:Hs.
    + split; [|done]. intros _. right; right; right; left.
      intros [t' Ht']%parses_iff. congruence.
    + destruct (first_parsed time_format_attempts end_str) as [[|e]|] eqn:He.
      * split; [|done]. intros _. right; right; right; right.
        intros [t' Ht']%parses_iff. congruence.
      * split; [done|].
        intros [?|[?|[?|[Hn|Hn]]]]; try done; exfalso; apply Hn, parses_iff; eauto.
      * split; [|done]. intros _. right; right; right; right.
        intros [t' Ht']%parses_iff. congruence.
    + split; [|by destruct (first_parsed time_format_attempts end_str) as [[|?]|]].
      intros _. right; right; right; left.
      intros [t' Ht']%parses_iff. congruence.
  - apply first_parsed_order.
  - apply parse_some_inv.
Qed.

End IntervalFacts.

(** ** The fields of a time read by one of the two patterns *)

Section TimeFields.

Import PyStr Cal Fmt ScheduleParser.

Lemma rx_match_caps (r : list rx) (s : string)
    (caps : list (directive * string)) (rest : string) :
  rx_match r s = Some (caps, rest) → map fst caps = dirs r ∧ Forall cap_ok caps.
Proof.
  revert s caps. induction r as [|x r IH]; intros s caps.
  - simpl. intros [= <- _]. by split.
  - destruct x as [l| |d]; simpl.
    + destruct s as [|y s']; [done|]. destruct (ci l y); [|done]. apply IH.
    + intros (rest' & _ & Hm)%first_some_elem. by apply (IH rest').
    + intros ([m rest'] & Hin & Hm)%first_some_elem.
      destruct (rx_match r rest') as [[caps' out]|] eqn:Hr; [|done].
      injection Hm as <- ->. destruct (IH _ _ Hr) as [Hd Hok].
      split; [simpl; by rewrite Hd|]. constructor; [|done].
      unfold candidates in Hin. apply list_elem_of_omap in Hin as (ps & Hps & Hmc).
      by exists ps, s, rest'.
Qed.

Lemma range_code (lo hi x : ascii) :
  range lo hi x = true → code lo ≤ code x ≤ code hi.
Proof. unfold range. intros [? ?]%andb_true_iff. lia. Qed.

Lemma isdigit_code (x : ascii) : isdigit x = true ↔ 48 ≤ code x ≤ 57.
Proof. unfold isdigit. rewrite andb_true_iff. lia. Qed.

Lemma is_eq (c x : ascii) : is_ c x = true → x = c.
Proof. unfold is_. intros H%Ascii.eqb_eq. done. Qed.

Lemma match_one (p : ascii → bool) (s m rest : string) :
  match_classes [p] s = Some (m, rest) →
  ∃ a, m = String a "" ∧ p a = true.
Proof.
  simpl. destruct s as [|a r]; [done|]. destruct (p a) eqn:Ha; [|done].
  intros [= <- _]. eauto.
Qed.

Lemma match_two (p q : ascii → bool) (s m rest : string) :
  match_classes [p; q] s = Some (m, rest) →
  ∃ a b, m = String a (String b "") ∧ p a = true ∧ q b = true.
Proof.
  simpl. destruct s as [|a [|b r]]; [done| |].
  - by destruct (p a).
  - destruct (p a) eqn:Ha; [|done]. destruct (q b) eqn:Hb; [|done].
    intros [= <- _]. eauto.
Qed.

Lemma int_one (a : ascii) : isdigit a = true → int (String a "") = code a - 48.
Proof. intros Ha. unfold int. simpl. rewrite Ha. unfold digit_val. lia. Qed.

Lemma int_two (a b : ascii) :
  isdigit a = true → isdigit b = true →
  int (String a (String b "")) = 10 * (code a - 48) + (code b - 48).
Proof. intros Ha Hb. unfold int. simpl. rewrite Ha, Hb. unfold digit_val. lia. Qed.

Lemma code_vals :
  code "0" = 48 ∧ code "1" = 49 ∧ code "2" = 50 ∧ code "5" = 53 ∧ code "9" = 57.
Proof. repeat split; reflexivity. Qed.

Ltac char_bounds :=
  repeat match goal with
  | H : range _ _ _ = true |- _ => apply range_code in H
  | H : is_ _ _ = true |- _ => apply is_eq in H; subst
  | H : isdigit _ = true |- _ => apply isdigit_code in H
  end;
  let c0 := fresh in let c1 := fresh in let c2 := fresh in
  let c5 := fresh in let c9 := fresh in
  pose proof code_vals as (c0 & c1 & c2 & c5 & c9);
  rewrite ?c0, ?c1, ?c2, ?c5, ?c9 in *.

Lemma cap_hour (m : string) : cap_ok (dI, m) → 1 ≤ int m ≤ 12.
Proof.
  intros (ps & s & rest & Hps & Hm). simpl in Hps, Hm.
  repeat (apply elem_of_cons in Hps as [->|Hps]).
  - apply match_two in Hm as (a & b & -> & Ha & Hb). char_bounds.
    rewrite int_two; [|reflexivity|apply isdigit_code; lia]. lia.
  - apply match_two in Hm as (a & b & -> & Ha & Hb). char_bounds.
    rewrite int_two; [|reflexivity|apply isdigit_code; lia]. lia.
  - apply match_one in Hm as (a & -> & Ha). char_bounds.
    rewrite int_one by (apply isdigit_code; lia). lia.
  - by apply elem_of_nil in Hps.
Qed.

Lemma cap_minute (m : string) : cap_ok (dM, m) → 0 ≤ int m ≤ 59.
Proof.
  intros (ps & s & rest & Hps & Hm). simpl in Hps, Hm.
  repeat (apply elem_of_cons in Hps as [->|Hps]).
  - apply match_two in Hm as (a & b & -> & Ha & Hb). char_bounds.
    rewrite int_two; [|apply isdigit_code; lia|apply isdigit_code; lia]. lia.
  - apply match_one in Hm as (a & -> & Ha). char_bounds.
    rewrite int_one by (apply isdigit_code; lia). lia.
  - by apply elem_of_nil in Hps.
Qed.

Lemma caps_shape2 (caps : list (directive * string)) (d1 d2 : directive) :
  map fst caps = [d1; d2] → ∃ m1 m2, caps = [(d1, m1); (d2, m2)].
Proof.
  destruct caps as [|[e1 m1] [|[e2 m2] [|? ?]]]; try done.
  simpl. intros [= -> ->]. eauto.
Qed.

Lemma caps_shape3 (caps : list (directive * string)) (d1 d2 d3 : directive) :
  map fst caps = [d1; d2; d3] → ∃ m1 m2 m3, caps = [(d1, m1); (d2, m2); (d3, m3)].
Proof.
  destruct caps as [|[e1 m1] [|[e2 m2] [|[e3 m3] [|? ?]]]]; try done.
  simpl. intros [= -> -> ->]. eauto.
Qed.

Lemma attempt_time_of_day (fmt x : string) (t : timestamp) :
  fmt ∈ time_format_attempts → to_datetime fmt x = Ok (Ts t) → time_of_day t.
Proof.
  intros Hfmt H. destruct (attempt_timestamp fmt x t Hfmt H) as [Hnull _].
  apply attempts_cases in Hfmt as [-> | ->].
  - rewrite to_datetime_bare, Hnull in H.
    destruct (rx_match _ x) as [[caps rest]|] eqn:Hm; [|done].
    destruct (nonempty rest); [done|].
    destruct (valid (build caps)); [|done]. injection H as <-.
    apply rx_match_caps in Hm as [Hd Hok].
    apply caps_shape2 in Hd as (m1 & m2 & ->).
    apply Forall_cons in Hok as [H1 _]. apply cap_hour in H1.
    unfold build, time_of_day. simpl.
    destruct (is_pm _); destruct (int m1 =? 12) eqn:E; lia.
  - rewrite to_datetime_minutes, Hnull in H.
    destruct (rx_match _ x) as [[caps rest]|] eqn:Hm; [|done].
    destruct (nonempty rest); [done|].
    destruct (valid (build caps)); [|done]. injection H as <-.
    apply rx_match_caps in Hm as [Hd Hok].
    apply caps_shape3 in Hd as (m1 & m2 & m3 & ->).
    apply Forall_cons in Hok as [H1 Hok]. apply cap_hour in H1.
    apply Forall_cons in Hok as [H2 _]. apply cap_minute in H2.
    unfold build, time_of_day. simpl.
    destruct (is_pm _); destruct (int m1 =? 12) eqn:E; lia.
Qed.

Lemma first_parsed_time_of_day (x : string) (t : timestamp) :
  first_parsed time_format_attempts x = Some (Ts t) → time_of_day t.
Proof.
  rewrite first_parsed_order. intros H.
  destruct (to_datetime "%I %p" x) as [d|] eqn:H1.
  - injection H as ->. apply (attempt_time_of_day "%I %p" x t); [|done].
    unfold time_format_attempts. by left.
  - destruct (to_datetime "%I:%M %p" x) as [d|] eqn:H2; [|done].
    injection H as ->. apply (attempt_time_of_day "%I:%M %p" x t); [|done].
    unfold time_format_attempts. right. by left.
Qed.

Lemma time_of_day_seconds (t : timestamp) :
  time_of_day t →
  ∃ k, to_seconds t = days_from_civil 1900 1 1 * 86400 + k ∧ 0 ≤ k < 86400.
Proof.
  intros (Hy & Hm & Hd & Hh & Hmin). exists (hour t * 3600 + minute t * 60).
  unfold to_seconds, to_days. rewrite Hy, Hm, Hd. lia.
Qed.

End TimeFields.

(** ** Duration and start time *)

Section DurationFacts.

Import PyStr Cal Fmt ScheduleParser.

Lemma zfill_two_digits (m : Z) :
  0 ≤ m < 60 → zfill 2 (of_Z m) = two_digits m.
Proof.
  intros Hm.
  assert (∃ n : nat, (n < 60)%nat ∧ m = Z.of_nat n) as (n & Hn & ->).
  { exists (Z.to_nat m). lia. }
  do 60 (destruct n as [|n]; [vm_compute; reflexivity|]). lia.
Qed.

Lemma hour12_range (h : Z) : 1 ≤ hour12 h ≤ 12.
Proof.
  unfold hour12. pose proof (Z.mod_pos_bound h 12 ltac:(lia)).
  destruct (h mod 12 =? 0) eqn:E; lia.
Qed.

(** Under the default pattern the formatted start time has one zero at most
    in front, and stripping leaves the hour without it. *)
Lemma start_time_default (s : timestamp) :
  lstrip0 (strftime "%I:%M %p" s) =
  of_Z (hour12 (hour s)) +:+ ":" +:+ zfill 2 (of_Z (minute s)) +:+ " " +:+
  (if hour s <? 12 then "AM" else "PM").
Proof.
  change (strftime "%I:%M %p" s) with
    (zfill 2 (of_Z (hour12 (hour s))) +:+
     String ":" (zfill 2 (of_Z (minute s)) +:+
     String " " ((if hour s <? 12 then "AM" else "PM") +:+ ""))).
  replace ((if hour s <? 12 then "AM" else "PM") +:+ "")
    with (if hour s <? 12 then "AM" else "PM") by (by destruct (hour s <? 12)).
  pose proof (hour12_range (hour s)) as Hr.
  generalize dependent (hour12 (hour s)). intros h Hr.
  generalize (zfill 2 (of_Z (minute s))). intros mm.
  generalize (if hour s <? 12 then "AM" else "PM"). intros ampm.
  assert (∃ n : nat, (n < 12)%nat ∧ h = Z.of_nat (S n)) as (n & Hn & ->).
  { exists (Z.to_nat (h - 1)). lia. }
  do 12 (destruct n as [|n]; [reflexivity|]). lia.
Qed.

(** Under the pattern [%H:%M] the formatted start time of an hour before 10
    has its zero in front, and the midnight hour has two: stripping leaves
    the hour without its zero, and nothing of the midnight hour. *)
Lemma start_time_24h (s : timestamp) :
  0 ≤ hour s ≤ 23 → 0 ≤ minute s ≤ 59 →
  lstrip0 (strftime "%H:%M" s) =
  if hour s =? 0 then ":" +:+ two_digits (minute s)
  else lstrip0 (two_digits (hour s)) +:+ ":" +:+ two_digits (minute s).
Proof.
  intros Hh Hm.
  change (strftime "%H:%M" s) with
    (zfill 2 (of_Z (hour s)) +:+ String ":" (zfill 2 (of_Z (minute s)) +:+ "")).
  rewrite append_empty, !zfill_two_digits by lia.
  generalize (two_digits (minute s)). intros mm.
  assert (∃ n : nat, (n < 24)%nat ∧ hour s = Z.of_nat n) as (n & Hn & ->).
  { exists (Z.to_nat (hour s)). lia. }
  do 24 (destruct n as [|n]; [reflexivity|]). lia.
Qed.

(** C4: for every interval that parses, with start time [s] and end time
    [e] read from its halves: the end counts 24 hours later when it is
    before the start, so the duration is never negative and stays below 24
    hours; the duration is the hours, a colon and the minutes on two
    digits.  The start time is the configured pattern's text without any of
    its leading zeros: for the default pattern that is the hour without its
    zero, but for the pattern [%H:%M] the midnight hour loses both its
    digits and the text starts with the colon, where the hour without its
    leading zero is 0. *)
Theorem C4_duration_and_start (cfg : config) (interval : string)
    (slot : string * string) :
  _parse_time_and_duration cfg interval = Some slot →
  ∃ s e total,
    first_parsed time_format_attempts
      (strip (before "-" (lower (strip interval)))) = Some (Ts s) ∧
    first_parsed time_format_attempts
      (strip (after "-" (lower (strip interval)))) = Some (Ts e) ∧
    total = (if to_seconds e <? to_seconds s then to_seconds e + 24 * 3600
             else to_seconds e) - to_seconds s ∧
    0 ≤ total < 24 * 3600 ∧
    0 ≤ total mod 3600 / 60 < 60 ∧
    slot.2 = of_Z (total / 3600) +:+ ":" +:+ two_digits (total mod 3600 / 60) ∧
    slot.1 = lstrip0 (strftime (Format_Time cfg) s) ∧
    (Format_Time cfg = "%I:%M %p" →
     slot.1 = of_Z (hour12 (hour s)) +:+ ":" +:+ zfill 2 (of_Z (minute s)) +:+ " " +:+
              (if hour s <? 12 then "AM" else "PM")) ∧
    (Format_Time cfg = "%H:%M" →
     slot.1 = if hour s =? 0 then ":" +:+ two_digits (minute s)
              else lstrip0 (two_digits (hour s)) +:+ ":" +:+ two_digits (minute s)).
Proof.
  intros (s & e & Hs & He & ->)%parse_some_inv.
  exists s, e, (duration_seconds s e).
  assert (Hmin : 0 ≤ duration_seconds s e mod 3600 / 60 < 60).
  { pose proof (Z.mod_pos_bound (duration_seconds s e) 3600 ltac:(lia)).
    split; [apply Z.div_pos; lia|apply Z.div_lt_upper_bound; lia]. }
  assert (Hday : 0 ≤ duration_seconds s e < 24 * 3600).
  { destruct (time_of_day_seconds s) as (ks & Hks & ?);
      [by apply (first_parsed_time_of_day _ s Hs)|].
    destruct (time_of_day_seconds e) as (ke & Hke & ?);
      [by apply (first_parsed_time_of_day _ e He)|].
    unfold duration_seconds. rewrite Hks, Hke.
    destruct (_ <? _) eqn:E; lia. }
  repeat split; try done; try lia.
  - simpl. unfold duration_str. by rewrite zfill_two_digits.
  - intros Hfmt. simpl. rewrite Hfmt. apply start_time_default.
  - intros Hfmt. simpl. rewrite Hfmt.
    destruct (first_parsed_time_of_day _ s Hs) as (_ & _ & _ & Hh & Hm).
    by apply start_time_24h.
Qed.

End DurationFacts.

(** The start time under a 24-hour pattern at midnight: both zeros of the
    hour go, and the text starts with the colon. *)
Example start_time_midnight_24h :
  ScheduleParser._parse_time_and_duration config_24h_ex "12 am - 1 am"
  = Some (":00", "1:00") ∧
  ScheduleParser._parse_time_and_duration config_24h_ex "9 am - 10 am"
  = Some ("9:00", "1:00") ∧
  ScheduleParser._parse_time_and_duration ScheduleParser.DEFAULT_CONFIG "11 pm - 1 am"
  = Some ("11:00 PM", "2:00").
Proof. repeat split; vm_compute; reflexivity. Qed.

Lemma C4_duration_and_start_witness :
  ∃ s e total,
    ScheduleParser.first_parsed ScheduleParser.time_format_attempts "12 am" = Some (Cal.Ts s) ∧
    ScheduleParser.first_parsed ScheduleParser.time_format_attempts "1 am" = Some (Cal.Ts e) ∧
    total = (if Cal.to_seconds e <? Cal.to_seconds s then Cal.to_seconds e + 24 * 3600
             else Cal.to_seconds e) - Cal.to_seconds s ∧
    0 ≤ total < 24 * 3600 ∧
    0 ≤ total mod 3600 / 60 < 60 ∧
    "1:00" = PyStr.of_Z (total / 3600) +:+ ":" +:+ two_digits (total mod 3600 / 60) ∧
    ":00" = PyStr.lstrip0 (Fmt.strftime "%H:%M" s) ∧
    ("%H:%M" = "%I:%M %p" →
     ":00" = PyStr.of_Z (Fmt.hour12 (Cal.hour s)) +:+ ":" +:+
             PyStr.zfill 2 (PyStr.of_Z (Cal.minute s)) +:+ " " +:+
             (if Cal.hour s <? 12 then "AM" else "PM")) ∧
    ("%H:%M" = "%H:%M" →
     ":00" = if Cal.hour s =? 0 then ":" +:+ two_digits (Cal.minute s)
             else PyStr.lstrip0 (two_digits (Cal.hour s)) +:+ ":" +:+
                  two_digits (Cal.minute s)).
Proof.
  apply (C4_duration_and_start config_24h_ex "12 am - 1 am" (":00", "1:00")).
  vm_compute. reflexivity.
Defined.

(** ** One participant cell *)

Section CellFacts.

Import PyStr Cal Fmt ScheduleParser.

(** What [cell_entries] returns for a row whose date reads as [d] and whose
    participants are [teams]. *)
Lemma cell_entries_dated (cfg : config) (reference_date : timestamp)
    (start_time duration : string) (date_str team_entry : cell)
    (d : timestamp) (teams : list string) :
  isna date_str = false →
  contains "ice" (lower (str date_str)) = false →
  to_datetime (Format_Date cfg) (str date_str) = Ok (Ts d) →
  team_list cfg team_entry = Some teams →
  cell_entries cfg reference_date start_time duration date_str team_entry
  = Ok (map (λ team,
          mkEntry (week_of reference_date d) (strftime "%A" d)
                  (Str (strftime (Format_Date cfg) d)) start_time duration team)
          teams).
Proof.
  intros Hna Hice Hdate Hteams. unfold cell_entries.
  by rewrite Hna, Hice, Hdate, Hteams.
Qed.

(** C7: with separator "/" and no skipping, the cell "A / B" gives exactly
    two entries, equal in everything but [Team], which is "A" for the first
    and "B" for the second; with skipping, a cell gives one entry whose
    [Team] is the whole trimmed text. *)
Theorem C7_fan_out (cfg : config) (reference_date : timestamp)
    (start_time duration : string) (date_str : cell) (d : timestamp) :
  isna date_str = false →
  contains "ice" (lower (str date_str)) = false →
  to_datetime (Format_Date cfg) (str date_str) = Ok (Ts d) →
  let entry_for team :=
    mkEntry (week_of reference_date d) (strftime "%A" d)
            (Str (strftime (Format_Date cfg) d)) start_time duration team in
  (Split_Separator cfg = "/" → Split_Skip cfg = false →
   cell_entries cfg reference_date start_time duration date_str (Str "A / B")
   = Ok [entry_for "A"; entry_for "B"]) ∧
  (∀ text, Split_Skip cfg = true → strip text ≠ "" →
   cell_entries cfg reference_date start_time duration date_str (Str text)
   = Ok [entry_for (strip text)]).
Proof.
  intros Hna Hice Hdate entry_for. split.
  - intros Hsep Hskip.
    rewrite (cell_entries_dated cfg reference_date start_time duration date_str
               (Str "A / B") d ["A"; "B"]); try done.
    unfold team_list. rewrite Hsep, Hskip. reflexivity.
  - intros text Hskip Hne.
    rewrite (cell_entries_dated cfg reference_date start_time duration date_str
               (Str text) d [strip text]); try done.
    unfold team_list. rewrite Hskip. simpl.
    destruct (strip text) eqn:Hs; [done|reflexivity].
Qed.

(** C5: the week of an emitted entry is the floor of a seventh of the whole
    days from the reference date to the entry's date, so it is negative for a
    date before the reference date; with the reference date 2025-09-02 the
    dates 2025-09-02, 2025-08-26 and 2025-09-09 are in weeks 0, -1 and 1. *)
Theorem C5_week_floor :
  (∀ (cfg : config) (reference_date : timestamp) (start_time duration : string)
     (date_str team_entry : cell) (es : list entry) (e : entry),
     cell_entries cfg reference_date start_time duration date_str team_entry = Ok es →
     e ∈ es →
     ∃ d days,
       to_datetime (Format_Date cfg) (str date_str) = Ok (Ts d) ∧
       86400 * days ≤ to_seconds d - to_seconds reference_date < 86400 * days + 86400 ∧
       7 * Week e ≤ days < 7 * Week e + 7 ∧
       (days < 0 → Week e < 0) ∧
       (hour d = hour reference_date → minute d = minute reference_date →
        days = to_days d - to_days reference_date)) ∧
  (let week_at date :=
     map Week <$>
       _parse_block DEFAULT_CONFIG (mkTs 2025 9 2 0 0)
         (frame_of_grid [[NaN; NaN]; [Str "Date"; Str "Time"];
                         [NaN; Str "6 pm - 7 pm"]; [Str date; Str "16U"]]) in
   week_at "9/2/2025" = Ok [0] ∧ week_at "8/26/2025" = Ok [-1] ∧
   week_at "9/9/2025" = Ok [1]).
Proof.
  split.
  - intros cfg reference_date start_time duration date_str team_entry es e Hes He.
    unfold cell_entries in Hes.
    destruct (isna date_str || contains "ice" (lower (str date_str))).
    { injection Hes as <-. by apply elem_of_nil in He. }
    destruct (to_datetime (Format_Date cfg) (str date_str)) as [[|d]|] eqn:Hd.
    + destruct (team_list cfg team_entry) as [[|t ts]|]; try done;
        injection Hes as <-; by apply elem_of_nil in He.
    + exists d, ((to_seconds d - to_seconds reference_date) / 86400).
      destruct (team_list cfg team_entry) as [teams|].
      2:{ injection Hes as <-. by apply elem_of_nil in He. }
      injection Hes as <-. apply list_elem_of_fmap in He as (team & -> & _).
      simpl. unfold week_of.
      set (secs := to_seconds d - to_seconds reference_date).
      pose proof (Z.div_mod secs 86400 ltac:(lia)) as Hs.
      pose proof (Z.mod_pos_bound secs 86400 ltac:(lia)) as Hsb.
      pose proof (Z.div_mod (secs / 86400) 7 ltac:(lia)) as Hw.
      pose proof (Z.mod_pos_bound (secs / 86400) 7 ltac:(lia)) as Hwb.
      repeat split; try lia.
      intros Hh Hm. subst secs. unfold to_seconds in *. rewrite Hh, Hm in *.
      lia.
    + injection Hes as <-. by apply elem_of_nil in He.
  - repeat split; vm_compute; reflexivity.
Qed.

End CellFacts.

Lemma C7_fan_out_witness :
  let entry_for team :=
    ScheduleParser.mkEntry 0 "Monday" (Str "07/21/2025") "6:00 PM" "1:15" team in
  ScheduleParser.cell_entries ScheduleParser.DEFAULT_CONFIG (Cal.mkTs 2025 7 21 0 0)
    "6:00 PM" "1:15" (Str "7/21/2025") (Str "A / B")
  = Ok [entry_for "A"; entry_for "B"].
Proof.
  intros entry_for.
  apply (C7_fan_out ScheduleParser.DEFAULT_CONFIG (Cal.mkTs 2025 7 21 0 0)
           "6:00 PM" "1:15" (Str "7/21/2025") (Cal.mkTs 2025 7 21 0 0));
    reflexivity.
Defined.

(** ** Which cells give entries *)

Section BlockFacts.

Import PyStr Cal Fmt ScheduleParser.

Lemma collect_ok_elem {A B : Type} (f : A → result (list B)) (l : list A)
    (ys : list B) (y : B) :
  collect f l = Ok ys → y ∈ ys → ∃ a xs, a ∈ l ∧ f a = Ok xs ∧ y ∈ xs.
Proof.
  revert ys. induction l as [|a l IH]; intros ys; simpl.
  - intros [= <-] Hy. by apply elem_of_nil in Hy.
  - destruct (f a) as [xs|] eqn:Ha; [|done]. simpl.
    destruct (collect f l) as [zs|] eqn:Hl; [|done]. simpl.
    intros [= <-] Hy. apply elem_of_app in Hy as [Hy|Hy].
    + exists a, xs. split; [left|done].
    + destruct (IH zs eq_refl Hy) as (a' & xs' & Hin & Hf & Hy').
      exists a', xs'. split; [by right|done].
Qed.

Lemma elem_of_drop_lookup {A : Type} (n : nat) (l : list A) (x : A) :
  x ∈ drop n l → ∃ i, (n ≤ i)%nat ∧ l !! i = Some x.
Proof.
  intros [i Hi]%list_elem_of_lookup. rewrite lookup_drop in Hi.
  exists (n + i)%nat. split; [lia|done].
Qed.

Lemma elem_of_enumerate {A : Type} (l : list A) (i : nat) (a : A) :
  (i, a) ∈ enumerate l ↔ l !! i = Some a.
Proof.
  unfold enumerate. split.
  - intros [j Hj]%list_elem_of_lookup. rewrite list_lookup_imap in Hj.
    destruct (l !! j) as [b|] eqn:Hb; [|done]. simpl in Hj. by injection Hj as -> ->.
  - intros H. apply list_elem_of_lookup. exists i.
    by rewrite list_lookup_imap, H.
Qed.

Lemma team_list_omit (cfg : config) (team_entry : cell) (teams : list string) :
  team_list cfg team_entry = Some teams → Missing_Omit cfg = true →
  isna team_entry = false ∧ strip (str team_entry) ≠ "".
Proof.
  unfold team_list. intros H Homit. rewrite Homit in H.
  destruct (isna team_entry); [done|].
  destruct (strip (str team_entry)); [done|]. done.
Qed.

(** An entry of [cell_entries] comes from a dated row that is not a meta
    row, and from a participant the cell holds. *)
Lemma cell_entries_inv (cfg : config) (reference_date : timestamp)
    (start_time duration : string) (date_str team_entry : cell)
    (es : list entry) (e : entry) :
  cell_entries cfg reference_date start_time duration date_str team_entry = Ok es →
  e ∈ es →
  isna date_str = false ∧
  contains "ice" (lower (str date_str)) = false ∧
  ∃ d teams,
    to_datetime (Format_Date cfg) (str date_str) = Ok (Ts d) ∧
    team_list cfg team_entry = Some teams ∧
    Team e ∈ teams ∧
    e = mkEntry (week_of reference_date d) (strftime "%A" d)
                (Str (strftime (Format_Date cfg) d)) start_time duration (Team e).
Proof.
  unfold cell_entries. intros Hes He.
  destruct (isna date_str) eqn:Hna; simpl in Hes.
  { injection Hes as <-. by apply elem_of_nil in He. }
  destruct (contains "ice" (lower (str date_str))) eqn:Hice.
  { injection Hes as <-. by apply elem_of_nil in He. }
  destruct (to_datetime (Format_Date cfg) (str date_str)) as [[|d]|] eqn:Hd.
  - destruct (team_list cfg team_entry) as [[|t ts]|]; try done;
      injection Hes as <-; by apply elem_of_nil in He.
  - destruct (team_list cfg team_entry) as [teams|] eqn:Ht.
    2:{ injection Hes as <-. by apply elem_of_nil in He. }
    injection Hes as <-. apply list_elem_of_fmap in He as (team & -> & Hteam).
    repeat split; try done. by exists d, teams.
  - injection Hes as <-. by apply elem_of_nil in He.
Qed.

(** Where an entry of a block's trace comes from. *)
Lemma block_trace_inv (cfg : config) (reference_date : timestamp)
    (block : DataFrame) (tr : list ((nat * nat) * entry))
    (col r : nat) (e : entry) :
  block_trace cfg reference_date block = Ok tr →
  ((col, r), e) ∈ tr →
  ∃ pos label header interval slot i cells,
    (1 ≤ pos)%nat ∧ columns block !! pos = Some col ∧
    rows block !! 2%nat = Some (label, header) ∧
    at_pos header pos = Str interval ∧
    _parse_time_and_duration cfg interval = Some slot ∧
    (3 ≤ i)%nat ∧ rows block !! i = Some (r, cells) ∧
    isna (at_pos cells 0) = false ∧
    contains "ice" (lower (str (at_pos cells 0))) = false ∧
    (Missing_Omit cfg = true →
     isna (at_pos cells pos) = false ∧ strip (str (at_pos cells pos)) ≠ "").
Proof.
  unfold block_trace. intros Htr He.
  destruct (columns block) as [|date_col cols] eqn:Hcols; [done|].
  destruct (collect_ok_elem _ _ _ _ Htr He) as ([pos col'] & xs & Hpc & Hcol & Hx).
  apply elem_of_drop_lookup in Hpc as (k & Hk & Hlk).
  assert (Hpos : (pos, col') ∈ enumerate (date_col :: cols)).
  { apply list_elem_of_lookup. eauto. }
  assert (k = pos) as ->.
  { unfold enumerate in Hlk. rewrite list_lookup_imap in Hlk.
    destruct ((date_col :: cols) !! k); [|done]. simpl in Hlk. congruence. }
  apply elem_of_enumerate in Hpos.
  simpl in Hcol. unfold column_trace in Hcol.
  destruct (rows block !! 2%nat) as [[label header]|] eqn:Hrow2; [|done].
  destruct (at_pos header pos) as [|interval|] eqn:Hcell; try done.
  { injection Hcol as <-. by apply elem_of_nil in Hx. }
  destruct (_parse_time_and_duration cfg interval) as [[start_time duration]|] eqn:Hslot.
  2:{ injection Hcol as <-. by apply elem_of_nil in Hx. }
  destruct (negb (nonempty start_time && nonempty duration)).
  { injection Hcol as <-. by apply elem_of_nil in Hx. }
  destruct (collect_ok_elem _ _ _ _ Hcol Hx) as ([r0 cells] & ys & Hr0 & Hys & Hy).
  apply elem_of_drop_lookup in Hr0 as (i & Hi & Hrow).
  simpl in Hys.
  destruct (cell_entries cfg reference_date start_time duration
              (at_pos cells 0) (at_pos cells pos)) as [es|] eqn:Hes; [|done].
  injection Hys as <-. apply list_elem_of_fmap in Hy as (e' & Heq & He').
  injection Heq as -> -> ->.
  destruct (cell_entries_inv _ _ _ _ _ _ _ _ Hes He')
    as (Hna & Hice & d & teams & Hd & Hteams & _ & _).
  exists pos, label, header, interval, (start_time, duration), i, cells.
  repeat split; try done.
  - by apply (team_list_omit cfg _ teams).
  - by apply (team_list_omit cfg _ teams).
Qed.

(** C6: an entry is emitted only for a column whose time cell (row 2) gives
    a time slot, and only from a row at position 3 or later whose date cell
    is neither empty nor a text holding "ice" in any case; when empty
    participants are omitted, only from a participant cell that is not
    empty.  So a row without a date, or a meta row such as "Ice Time", gives
    no entry in any column of its block. *)
Theorem C6_emitted_only_for (cfg : config) (reference_date : timestamp)
    (block : DataFrame) (tr : list ((nat * nat) * entry)) :
  block_trace cfg reference_date block = Ok tr →
  (∀ col r e, ((col, r), e) ∈ tr →
     ∃ pos label header interval slot i cells,
       (1 ≤ pos)%nat ∧ columns block !! pos = Some col ∧
       rows block !! 2%nat = Some (label, header) ∧
       at_pos header pos = Str interval ∧
       _parse_time_and_duration cfg interval = Some slot ∧
       (3 ≤ i)%nat ∧ rows block !! i = Some (r, cells) ∧
       isna (at_pos cells 0) = false ∧
       contains "ice" (lower (str (at_pos cells 0))) = false ∧
       (Missing_Omit cfg = true →
        isna (at_pos cells pos) = false ∧ strip (str (at_pos cells pos)) ≠ "")) ∧
  (∀ i r cells,
     NoDup (map fst (rows block)) →
     rows block !! i = Some (r, cells) →
     isna (at_pos cells 0) = true ∨
       contains "ice" (lower (str (at_pos cells 0))) = true →
     ∀ col e, ((col, r), e) ∉ tr).
Proof.
  intros Htr. split.
  - intros col r e He. by apply (block_trace_inv cfg reference_date block tr col r e).
  - intros i r cells Hnd Hrow Hbad col e He.
    destruct (block_trace_inv cfg reference_date block tr col r e Htr He)
      as (pos & label & header & interval & slot & i' & cells' & _ & _ & _ & _ & _
          & _ & Hrow' & Hna & Hice & _).
    assert (i' = i) as ->.
    { apply (NoDup_lookup (map fst (rows block)) i' i r Hnd);
        rewrite list_lookup_fmap; [by rewrite Hrow'|by rewrite Hrow]. }
    rewrite Hrow in Hrow'. injection Hrow' as <-.
    destruct Hbad; congruence.
Qed.

End BlockFacts.

(** Column 2 has a label for a time, row 4 is a meta row, row 5 has no date,
    and two participant cells are empty: the other three cells give the
    entries. *)
Example block_trace_ex :
  (map (λ x, (x.1, ScheduleParser.Team x.2)))
    <$> ScheduleParser.block_trace ScheduleParser.DEFAULT_CONFIG
          (Cal.mkTs 2025 7 21 0 0) block_ex
  = Ok [((1, 3), "16U"); ((1, 3), "18U"); ((3, 6), "14U")]%nat.
Proof. vm_compute. reflexivity. Qed.

Lemma block_trace_ex_value :
  { tr | ScheduleParser.block_trace ScheduleParser.DEFAULT_CONFIG
           (Cal.mkTs 2025 7 21 0 0) block_ex = Ok tr }.
Proof. eexists. vm_compute. reflexivity. Defined.

(** The entry of [block_ex] for "14U" comes from column 3 and row 6. *)
Lemma C6_emitted_only_for_witness :
  ∃ pos label header interval slot i cells,
    (1 ≤ pos)%nat ∧ columns block_ex !! pos = Some 3%nat ∧
    rows block_ex !! 2%nat = Some (label, header) ∧
    at_pos header pos = Str interval ∧
    ScheduleParser._parse_time_and_duration ScheduleParser.DEFAULT_CONFIG interval
      = Some slot ∧
    (3 ≤ i)%nat ∧ rows block_ex !! i = Some (6%nat, cells) ∧
    isna (at_pos cells 0) = false ∧
    PyStr.contains "ice" (PyStr.lower (str (at_pos cells 0))) = false ∧
    (ScheduleParser.Missing_Omit ScheduleParser.DEFAULT_CONFIG = true →
     isna (at_pos cells pos) = false ∧ PyStr.strip (str (at_pos cells pos)) ≠ "").
Proof.
  apply (proj1 (C6_emitted_only_for ScheduleParser.DEFAULT_CONFIG
                  (Cal.mkTs 2025 7 21 0 0) block_ex
                  (proj1_sig block_trace_ex_value)
                  (proj2_sig block_trace_ex_value))
           3%nat 6%nat
           (ScheduleParser.mkEntry 1 "Monday" (Str "07/28/2025") "8:00 PM" "1:00" "14U")).
  vm_compute. do 2 apply list_elem_of_further. apply list_elem_of_here.
Defined.

(** The meta row of [block_ex] (label 4, "Ice Time") gives no entry. *)
Example ice_row_no_entry :
  Forall (λ x, x.1.2 ≠ 4%nat) (proj1_sig block_trace_ex_value).
Proof. vm_compute. repeat constructor; discriminate. Qed.

(** ** Blocks and the whole sheet *)

Section ScheduleFacts.

Import PyStr Cal Fmt ScheduleParser.

(** One marker gives one block, from the marker's column to the last. *)
Lemma single_marker_block (df : DataFrame) (c : nat) :
  make_blocks df [c] = [drop_undated (iloc_cols df c (length (columns df)))] ∧
  columns (drop_undated (iloc_cols df c (length (columns df)))) = drop c (columns df).
Proof.
  split; [reflexivity|]. simpl.
  apply take_ge. rewrite length_drop. lia.
Qed.

(** C1: a sheet whose row 1 holds no marker is not an error for
    [parse_schedule], which returns the empty frame; a sheet with one marker
    has one block, from the marker's column to the last column. *)
Theorem C1_markers (cfg : config) (reference_date : timestamp) (df : DataFrame)
    (label : nat) (row1 : list cell) :
  rows df !! 1%nat = Some (label, row1) →
  (find_date_cols row1 = [] → parse_schedule cfg reference_date df = Ok []) ∧
  (∀ c, find_date_cols row1 = [c] →
     ∃ block, make_blocks df (find_date_cols row1) = [block] ∧
              columns block = drop c (columns df)).
Proof.
  intros Hrow. split.
  - intros Hnone. unfold parse_schedule. rewrite Hrow, Hnone. reflexivity.
  - intros c ->. destruct (single_marker_block df c) as [Hb Hc]. eauto.
Qed.

End ScheduleFacts.

Lemma C1_markers_witness :
  (ScheduleParser.find_date_cols
     [Str "Day"; Str "Time"; Str "Day"; Str "Time"; NaN; NaN] = [] →
   ScheduleParser.parse_schedule ScheduleParser.DEFAULT_CONFIG
     (Cal.mkTs 2025 7 21 0 0) sheet_no_marker = Ok []) ∧
  (∀ c, ScheduleParser.find_date_cols
          [Str "Day"; Str "Time"; Str "Day"; Str "Time"; NaN; NaN] = [c] →
     ∃ block,
       ScheduleParser.make_blocks sheet_no_marker
         (ScheduleParser.find_date_cols
            [Str "Day"; Str "Time"; Str "Day"; Str "Time"; NaN; NaN]) = [block] ∧
       columns block = drop c (columns sheet_no_marker)).
Proof.
  apply (C1_markers ScheduleParser.DEFAULT_CONFIG (Cal.mkTs 2025 7 21 0 0)
           sheet_no_marker 1%nat
           [Str "Day"; Str "Time"; Str "Day"; Str "Time"; NaN; NaN]).
  reflexivity.
Defined.

Example no_marker_empty_frame :
  ScheduleParser.parse_schedule ScheduleParser.DEFAULT_CONFIG
    (Cal.mkTs 2025 7 21 0 0) sheet_no_marker = Ok [].
Proof. vm_compute. reflexivity. Qed.

Example one_marker_one_block :
  ScheduleParser.block_ranges
    (ScheduleParser.find_date_cols [Str "x"; Str " DATE "; Str "Time"; NaN]) 4
  = [(1, 4)]%nat.
Proof. vm_compute. reflexivity. Qed.

(** ** The final order *)

Section SortFacts.

Import PyStr Cal Fmt ScheduleParser.

Lemma ltb_asym (a b : string) : ltb a b = true → ltb b a = false.
Proof.
  revert b. induction a as [|x a IH]; intros [|y b]; simpl; try done.
  destruct (Z.ltb_spec (code x) (code y)), (Z.ltb_spec (code y) (code x));
    try done; try lia. apply IH.
Qed.

Lemma ltb_neg_trans (c a b : string) :
  ltb c a = true → ltb c b = true ∨ ltb b a = true.
Proof.
  revert a b. induction c as [|x c IH]; intros [|y a] [|z b]; simpl; try done;
    try (by left); try (by right).
  destruct (Z.ltb_spec (code x) (code y)), (Z.ltb_spec (code y) (code x)),
           (Z.ltb_spec (code x) (code z)), (Z.ltb_spec (code z) (code x)),
           (Z.ltb_spec (code z) (code y)), (Z.ltb_spec (code y) (code z));
    try done; try lia; try (by left); try (by right).
  apply IH.
Qed.

Lemma key_ltb_asym (a b : datetime * string) :
  key_ltb a b = true → key_ltb b a = false.
Proof.
  destruct a as [[|ta] sa], b as [[|tb] sb]; unfold key_ltb; simpl; try done.
  - rewrite ?orb_false_r. apply ltb_asym.
  - destruct (Z.ltb_spec (to_seconds ta) (to_seconds tb)),
             (Z.ltb_spec (to_seconds tb) (to_seconds ta)); simpl; try done; try lia.
    apply ltb_asym.
Qed.

Lemma key_ltb_neg_trans (c a b : datetime * string) :
  key_ltb c a = true → key_ltb c b = true ∨ key_ltb b a = true.
Proof.
  destruct a as [[|ta] sa], b as [[|tb] sb], c as [[|tc] sc];
    unfold key_ltb; simpl; try done; try (by left); try (by right);
    rewrite ?orb_false_r.
  - apply ltb_neg_trans.
  - destruct (Z.ltb_spec (to_seconds tc) (to_seconds ta)),
             (Z.ltb_spec (to_seconds ta) (to_seconds tc)),
             (Z.ltb_spec (to_seconds tc) (to_seconds tb)),
             (Z.ltb_spec (to_seconds tb) (to_seconds tc)),
             (Z.ltb_spec (to_seconds tb) (to_seconds ta)),
             (Z.ltb_spec (to_seconds ta) (to_seconds tb));
      simpl; intros Hlt; try done; try (exfalso; lia);
      try (by left); try (by right).
    by apply ltb_neg_trans.
Qed.

Lemma key_leb_total (a b : datetime * string) :
  key_leb a b = false → key_leb b a = true.
Proof.
  unfold key_leb. intros H%negb_false_iff. by rewrite (key_ltb_asym b a).
Qed.

Lemma key_leb_trans (a b c : datetime * string) :
  key_leb a b = true → key_leb b c = true → key_leb a c = true.
Proof.
  unfold key_leb. intros Hab%negb_true_iff Hbc%negb_true_iff.
  apply negb_true_iff. destruct (key_ltb c a) eqn:Hca; [|done].
  destruct (key_ltb_neg_trans c a b Hca); congruence.
Qed.

Context {A : Type} (key : A → datetime * string).

Lemma insert_sorted_ascending (x : A) (l : list A) :
  ascending key l → ascending key (insert_sorted key x l).
Proof.
  induction l as [|y r IH]; [done|].
  intros Hl. simpl. destruct (key_leb (key x) (key y)) eqn:Hxy.
  - split; done.
  - apply key_leb_total in Hxy.
    destruct r as [|z r']; simpl; [done|].
    destruct Hl as [Hyz Hr]. specialize (IH Hr). simpl in IH.
    destruct (key_leb (key x) (key z)); split; done.
Qed.

Lemma sort_values_ascending (l : list A) : ascending key (sort_values key l).
Proof.
  induction l as [|x r IH]; [done|]. simpl. by apply insert_sorted_ascending.
Qed.

Lemma insert_sorted_perm (x : A) (l : list A) : insert_sorted key x l ≡ₚ x :: l.
Proof.
  induction l as [|y r IH]; [done|].
  simpl. destruct (key_leb (key x) (key y)); [done|].
  rewrite IH. apply Permutation_swap.
Qed.

Lemma sort_values_perm (l : list A) : sort_values key l ≡ₚ l.
Proof.
  induction l as [|x r IH]; [done|].
  simpl. by rewrite insert_sorted_perm, IH.
Qed.

Lemma insert_sorted_stable (k : datetime * string) (x : A) (l : list A) :
  filter (λ y, tied key k y = true) (insert_sorted key x l)
  = filter (λ y, tied key k y = true) (x :: l).
Proof.
  induction l as [|y r IH]; [done|].
  simpl. destruct (key_leb (key x) (key y)) eqn:Hxy; [done|].
  rewrite filter_cons, IH, !filter_cons.
  destruct (decide (tied key k y = true)) as [Hy|Hy]; [|done].
  destruct (decide (tied key k x = true)) as [Hx|Hx]; [|done].
  exfalso. unfold tied in Hx, Hy.
  apply andb_true_iff in Hx as [Hx1 Hx2]. apply andb_true_iff in Hy as [Hy1 Hy2].
  rewrite (key_leb_trans _ _ _ Hx1 Hy2) in Hxy. done.
Qed.

(** The sort is stable: rows with equal keys keep the order they had. *)
Lemma sort_values_stable (k : datetime * string) (l : list A) :
  filter (λ y, tied key k y = true) (sort_values key l)
  = filter (λ y, tied key k y = true) l.
Proof.
  induction l as [|x r IH]; [done|].
  simpl. rewrite insert_sorted_stable, !filter_cons, IH. done.
Qed.

End SortFacts.

Section MergeFacts.

Import PyStr Cal Fmt ScheduleParser.

(** [Index] is the position of the row in the sorted frame. *)
Lemma merge_index_is_position (cfg : config) (entries : list entry)
    (out : list row) (i : nat) (r : row) :
  merge_and_order cfg entries = Ok out → out !! i = Some r →
  Index r = Z.of_nat i.
Proof.
  unfold merge_and_order.
  destruct (collect _ entries) as [keyed|]; [|done]. simpl.
  intros [= <-]. rewrite list_lookup_imap.
  destruct (sort_values _ keyed !! i); [|done]. simpl. by intros [= <-].
Qed.

Lemma collect_single {A B : Type} (f : A → result B) (l : list A) (ys : list B) :
  collect (λ a, x ← f a; Ok [x]) l = Ok ys → Forall2 (λ a y, f a = Ok y) l ys.
Proof.
  revert ys. induction l as [|a l IH]; intros ys; simpl.
  - intros [= <-]. constructor.
  - destruct (f a) as [y|] eqn:Ha; simpl; [|done].
    destruct (collect _ l) as [zs|]; simpl; [|done].
    intros [= <-]. constructor; [done|]. by apply IH.
Qed.

(** The rows are in ascending order of the date read again and of the start
    time as text. *)
Lemma merge_sorted (cfg : config) (entries : list entry) (out : list row) :
  merge_and_order cfg entries = Ok out →
  ∃ keyed : list (datetime * entry),
    Forall2 (λ e de, de.2 = e ∧
                     to_datetime (Format_Date cfg) (str (Date e)) = Ok de.1)
            entries keyed ∧
    let sorted := sort_values (λ de, (de.1, Start_Time de.2)) keyed in
    ascending (λ de : datetime * entry, (de.1, Start_Time de.2)) sorted ∧
    sorted ≡ₚ keyed ∧
    out = imap (λ i de, mkRow (Z.of_nat i) (reformat_date cfg de)) sorted.
Proof.
  unfold merge_and_order.
  destruct (collect _ entries) as [keyed|] eqn:Hk; [|done]. simpl.
  intros [= <-]. exists keyed. split.
  - apply collect_single in Hk. eapply Forall2_impl; [exact Hk|].
    intros e de. unfold reparse_date.
    destruct (to_datetime (Format_Date cfg) (str (Date e))) as [d|]; simpl; [|done].
    by intros [= <-].
  - split; [apply sort_values_ascending|]. split; [apply sort_values_perm|done].
Qed.

End MergeFacts.

Section TraceFacts.

Import PyStr Cal Fmt ScheduleParser.

(** Lines 137-139: the first three rows of a block are kept as they are, and
    every later row of the block has a date cell. *)
Lemma drop_undated_rows (subset : DataFrame) (i : nat) (r : nat * list cell) :
  rows (drop_undated subset) !! i = Some r →
  if decide (i < 3)%nat then rows subset !! i = Some r
  else isna (at_pos r.2 0) = false ∧ r ∈ drop 3 (rows subset).
Proof.
  unfold drop_undated. simpl. intros H.
  destruct (decide (i < 3)%nat) as [Hi|Hi].
  - destruct (decide (i < length (take 3 (rows subset)))%nat) as [Hl|Hl].
    + rewrite lookup_app_l in H by done. by rewrite lookup_take_lt in H.
    + rewrite lookup_app_r in H by lia.
      rewrite length_take in Hl, H.
      assert (Hlen : (length (rows subset) ≤ i)%nat) by lia.
      rewrite drop_ge in H by lia. done.
  - assert (Hin : r ∈ take 3 (rows subset) ++
                    filter (λ r, isna (at_pos r.2 0) = false) (drop 3 (rows subset))).
    { apply list_elem_of_lookup. eauto. }
    rewrite lookup_app_r in H by (rewrite length_take; lia).
    apply list_elem_of_lookup_2 in H. apply list_elem_of_filter in H. done.
Qed.

Lemma Forall2_elem_r {A B : Type} (P : A → B → Prop) (l : list A) (k : list B)
    (y : B) :
  Forall2 P l k → y ∈ k → ∃ x, x ∈ l ∧ P x y.
Proof.
  intros HF [i Hi]%list_elem_of_lookup.
  destruct (Forall2_lookup_r _ _ _ _ _ HF Hi) as (x & Hx & HP).
  exists x. split; [|done]. apply list_elem_of_lookup. eauto.
Qed.

(** Every row of the returned frame is an entry emitted by one block of the
    sheet, with its date written again. *)
Lemma parse_schedule_rows_traced (cfg : config) (reference_date : timestamp)
    (df : DataFrame) (out : list row) (r : row) :
  parse_schedule cfg reference_date df = Ok out → r ∈ out →
  ∃ label row1 block tr c i e d,
    rows df !! 1%nat = Some (label, row1) ∧
    block ∈ make_blocks df (find_date_cols row1) ∧
    block_trace cfg reference_date block = Ok tr ∧
    ((c, i), e) ∈ tr ∧
    fields r = reformat_date cfg (d, e).
Proof.
  unfold parse_schedule. intros Hout Hr.
  destruct (rows df !! 1%nat) as [[label row1]|] eqn:Hrow1; [|done].
  destruct (collect _ (make_blocks df (find_date_cols row1))) as [parsed|] eqn:Hp;
    simpl in Hout; [|done].
  apply collect_single in Hp.
  destruct (filter _ parsed) as [|es0 dfs0] eqn:Hdfs.
  { injection Hout as <-. by apply elem_of_nil in Hr. }
  rewrite <- Hdfs in Hout. clear es0 dfs0 Hdfs.
  destruct (merge_sorted cfg _ out Hout) as (keyed & Hk & _ & Hperm & ->).
  apply list_elem_of_lookup in Hr as [n Hn]. rewrite list_lookup_imap in Hn.
  destruct (sort_values _ keyed !! n) as [[d e]|] eqn:Hde; [|done].
  simpl in Hn. injection Hn as <-.
  apply list_elem_of_lookup_2 in Hde. rewrite Hperm in Hde.
  destruct (Forall2_elem_r _ _ _ _ Hk Hde) as (e' & He' & Heq & _).
  simpl in Heq. subst e'.
  apply list_elem_of_In, in_concat in He' as (es & Hes & He).
  apply list_elem_of_In, list_elem_of_filter in Hes as [_ Hes].
  destruct (Forall2_elem_r _ _ _ _ Hp Hes) as (block & Hb & Hblock).
  unfold _parse_block in Hblock.
  destruct (block_trace cfg reference_date block) as [tr|] eqn:Htr; [|done].
  simpl in Hblock. injection Hblock as <-.
  apply list_elem_of_In, list_elem_of_fmap in He as ([[c i] e''] & -> & Hin).
  exists label, row1, block, tr, c, i, e'', d. done.
Qed.

End TraceFacts.

(** C2: the rows come out in the order of the date read as a date and of
    the start time read as text.  On [sheet_mornings] the slot of 10:00 AM is
    given index 0 and the slot of 9:00 AM index 1, although 9:00 is the
    earlier time. *)
Theorem C2_start_time_sorted_as_text :
  ScheduleParser.parse_schedule ScheduleParser.DEFAULT_CONFIG
    (Cal.mkTs 2025 7 21 0 0) sheet_mornings
  = Ok [ ScheduleParser.mkRow 0
           (ScheduleParser.mkEntry 0 "Saturday" (Str "07/26/2025") "10:00 AM" "1:00" "B");
         ScheduleParser.mkRow 1
           (ScheduleParser.mkEntry 0 "Saturday" (Str "07/26/2025") "9:00 AM" "1:00" "A") ] ∧
  Fmt.to_datetime "%I:%M %p" "10:00 AM" = Ok (Cal.Ts (Cal.mkTs 1900 1 1 10 0)) ∧
  Fmt.to_datetime "%I:%M %p" "9:00 AM" = Ok (Cal.Ts (Cal.mkTs 1900 1 1 9 0)) ∧
  Cal.to_seconds (Cal.mkTs 1900 1 1 9 0) < Cal.to_seconds (Cal.mkTs 1900 1 1 10 0) ∧
  PyStr.ltb "10:00 AM" "9:00 AM" = true.
Proof. repeat split; vm_compute; reflexivity. Qed.

(** The end-to-end scenario: two blocks on one sheet. *)
Example parse_schedule_ex :
  map (λ r, (ScheduleParser.Index r, ScheduleParser.Date (ScheduleParser.fields r),
             ScheduleParser.Team (ScheduleParser.fields r),
             ScheduleParser.Start_Time (ScheduleParser.fields r),
             ScheduleParser.Duration (ScheduleParser.fields r)))
  <$> ScheduleParser.parse_schedule ScheduleParser.DEFAULT_CONFIG
        (Cal.mkTs 2025 7 21 0 0) sheet_ex
  = Ok [ (0, Str "07/21/2025", "16U", "6:00 PM", "1:15");
         (1, Str "07/21/2025", "18U", "6:00 PM", "1:15");
         (2, Str "07/21/2025", "12U", "6:00 PM", "1:00") ].
Proof. vm_compute. reflexivity. Qed.

(** ** Where the configuration comes from *)

Section InitFacts.

Import ScheduleParser.

(** C8: a non-empty explicit path is the only source looked
    at: its file is loaded, and a missing file is an error, not a reason to
    go on to the next source.  Without an explicit path the file
    [parser_config.json] beside the schedule is loaded when it exists, and
    the built-in default is used otherwise. *)
Theorem C8_resolve_config (fs : gmap string string)
    (json_load : string → result config)
    (schedule_path : string) (config_path : option string) :
  let fallback_path := path_join (dirname schedule_path) "parser_config.json" in
  let absent := config_path = None ∨ config_path = Some "" in
  (∀ p text, config_path = Some p → p ≠ "" → fs !! p = Some text →
     resolve_config fs json_load schedule_path config_path = json_load text) ∧
  (∀ p, config_path = Some p → p ≠ "" → fs !! p = None →
     resolve_config fs json_load schedule_path config_path = Raise FileNotFoundError) ∧
  (∀ text, absent → fs !! fallback_path = Some text →
     resolve_config fs json_load schedule_path config_path = json_load text) ∧
  (absent → fs !! fallback_path = None →
     resolve_config fs json_load schedule_path config_path = Ok DEFAULT_CONFIG).
Proof.
  intros fallback_path absent. subst absent. unfold resolve_config, load_json.
  fold fallback_path. repeat split.
  - intros p text -> Hp Hfs. destruct p; [done|]. simpl. by rewrite Hfs.
  - intros p -> Hp Hfs. destruct p; [done|]. simpl. by rewrite Hfs.
  - intros text [->| ->] Hfs; simpl;
      (rewrite bool_decide_eq_true_2 by (rewrite Hfs; eauto)); by rewrite Hfs.
  - intros [->| ->] Hfs; simpl;
      (rewrite bool_decide_eq_false_2; [done|]); rewrite Hfs; by intros [? ?].
Qed.

End InitFacts.

(** C8 does not hold for an explicit path that names no file: the next
    source in the order exists, and it is not used. *)
Lemma C8_counterexample :
  fs_ex !! "data/custom.json" = None ∧
  fs_ex !! ScheduleParser.path_join (ScheduleParser.dirname "data/schedule.txt")
             "parser_config.json" = Some "sibling" ∧
  ScheduleParser.resolve_config fs_ex json_load_ex "data/schedule.txt"
    (Some "data/custom.json") = Raise FileNotFoundError ∧
  ScheduleParser.resolve_config fs_ex json_load_ex "data/schedule.txt" None
    = Ok sibling_config_ex ∧
  ScheduleParser.resolve_config fs_ex json_load_ex "data/schedule.txt"
    (Some "data/custom.json")
  ≠ ScheduleParser.resolve_config fs_ex json_load_ex "data/schedule.txt" None.
Proof. repeat split; try (vm_compute; reflexivity). vm_compute. discriminate. Qed.

(** ** The expander's column priority *)

Section ExpanderFacts.

Import ScheduleExpander.

Lemma foldl_insert_lookup {V : Type} (f : string → V) (l : list string)
    (m : gmap string V) (col : string) :
  col ∈ l → foldl (λ out c, <[c := f c]> out) m l !! col = Some (f col).
Proof.
  revert m. induction l as [|x l IH] using rev_ind; intros m Hin.
  - by apply elem_of_nil in Hin.
  - rewrite foldl_app. simpl.
    destruct (decide (x = col)) as [->|Hne].
    + by rewrite lookup_insert_eq.
    + rewrite lookup_insert_ne by done. apply IH.
      apply elem_of_app in Hin as [Hin|Hin]; [done|].
      apply list_elem_of_singleton in Hin. congruence.
Qed.

Lemma reverse_of_sound (mapping : list (string * string)) (col src : string) :
  reverse_of mapping !! col = Some src → (src, col) ∈ mapping.
Proof.
  unfold reverse_of. induction mapping as [|[k v] l IH] using rev_ind.
  - simpl. by rewrite lookup_empty.
  - rewrite foldl_app. simpl. intros H.
    destruct (decide (v = col)) as [->|Hne].
    + rewrite lookup_insert_eq in H. injection H as ->.
      apply elem_of_app. right. by apply list_elem_of_singleton.
    + rewrite lookup_insert_ne in H by done.
      apply elem_of_app. left. by apply IH.
Qed.

Lemma reverse_of_complete (mapping : list (string * string)) (col src : string) :
  (src, col) ∈ mapping → is_Some (reverse_of mapping !! col).
Proof.
  unfold reverse_of. induction mapping as [|[k v] l IH] using rev_ind.
  - intros H. by apply elem_of_nil in H.
  - rewrite foldl_app. simpl. intros H.
    destruct (decide (v = col)) as [->|Hne].
    + rewrite lookup_insert_eq. eauto.
    + rewrite lookup_insert_ne by done. apply IH.
      apply elem_of_app in H as [H|H]; [done|].
      apply list_elem_of_singleton in H. congruence.
Qed.

Lemma index_of_elem (name : string) (cols : list string) :
  name ∈ cols ↔ is_Some (index_of name cols).
Proof.
  induction cols as [|c r IH]; simpl.
  - split; intros H; [by apply elem_of_nil in H|by destruct H].
  - rewrite elem_of_cons, IH. destruct (String.eqb_spec c name) as [->|Hne].
    + split; [eauto|by left].
    + rewrite fmap_is_Some. split; [intros [Heq|H]; [congruence|done]|by right].
Qed.

(** The row series holds, under a column name, the cell at the position of
    the first column of that name. *)
Lemma zip_lookup {V : Type} (cols : list string) (vals : list V) (name : string) :
  length vals = length cols →
  (list_to_map (zip cols vals) : gmap string V) !! name
  = index_of name cols ≫= (vals !!.).
Proof.
  revert vals. induction cols as [|c r IH]; intros [|v vals] Hlen; try done.
  cbn [zip zip_with list_to_map foldr index_of].
  change (foldr (λ kv, <[kv.1:=kv.2]>) ∅ (zip r vals))
    with (list_to_map (zip r vals) : gmap string V).
  destruct (String.eqb_spec c name) as [->|Hne].
  - by rewrite lookup_insert_eq.
  - rewrite lookup_insert_ne by done. rewrite IH by (simpl in Hlen; lia).
    by destruct (index_of name r).
Qed.

Lemma index_of_lt (name : string) (cols : list string) (j : nat) :
  index_of name cols = Some j → (j < length cols)%nat.
Proof.
  revert j. induction cols as [|c r IH]; intros j; [done|]. simpl.
  destruct (String.eqb c name); [intros [= <-]; lia|].
  destruct (index_of name r) as [k|]; [|done]. intros [= <-].
  specialize (IH k eq_refl). lia.
Qed.

Lemma series_input_value (df : Frame) (cells : list cell) (name : string) :
  length cells = length (frame_columns df) →
  series df cells !! name = input_value df cells name.
Proof.
  intros Hlen. unfold series, input_value.
  rewrite zip_lookup by (by rewrite length_map).
  destruct (index_of name (frame_columns df)) as [j|] eqn:Hj; [|done]. cbn.
  destruct (lookup_lt_is_Some_2 cells j) as [c Hc].
  { rewrite Hlen. by apply (index_of_lt name). }
  change (map (iterrows_cell df) cells) with (iterrows_cell df <$> cells).
  by rewrite list_lookup_fmap, Hc.
Qed.

Lemma series_present (df : Frame) (cells : list cell) (name : string) :
  length cells = length (frame_columns df) → name ∈ frame_columns df →
  ∃ j c, index_of name (frame_columns df) = Some j ∧ cells !! j = Some c ∧
         series df cells !! name = Some (iterrows_cell df c).
Proof.
  intros Hlen [j Hj]%index_of_elem.
  destruct (lookup_lt_is_Some_2 cells j) as [c Hc].
  { rewrite Hlen. by apply (index_of_lt name). }
  exists j, c. split; [done|]. split; [done|].
  rewrite series_input_value by done. unfold input_value. by rewrite Hj, Hc.
Qed.

Lemma sources_of_snoc (mapping : list (string * string)) (k v col : string) :
  sources_of (mapping ++ [(k, v)]) col
  = sources_of mapping col ++ (if decide (v = col) then [k] else []).
Proof.
  unfold sources_of. rewrite filter_app, map_app. f_equal.
  rewrite filter_cons. simpl. by destruct (decide (v = col)).
Qed.

(** The reversed mapping keeps, for a target, the source of the last entry
    of [Mapping] with that target. *)
Lemma reverse_of_last (mapping : list (string * string)) (col : string) :
  reverse_of mapping !! col = last (sources_of mapping col).
Proof.
  unfold reverse_of. induction mapping as [|[k v] l IH] using rev_ind; [done|].
  rewrite foldl_app, sources_of_snoc. simpl.
  destruct (decide (v = col)) as [->|Hne].
  - by rewrite lookup_insert_eq, last_snoc.
  - by rewrite lookup_insert_ne, app_nil_r.
Qed.

Lemma column_value_amended (df : Frame) (defaults : gmap string cell)
    (mapping : list (string * string)) (cells : list cell) (col : string) :
  length cells = length (frame_columns df) →
  column_value df defaults (reverse_of mapping) (series df cells) col
  = amended_value df defaults mapping cells col.
Proof.
  intros Hlen. unfold column_value, amended_value.
  rewrite reverse_of_last. destruct (decide (col ∈ frame_columns df)) as [Hin|Hnin].
  - rewrite bool_decide_eq_true_2 by done.
    destruct (series_present df cells col Hlen Hin) as (j & c & Hj & Hc & Hs).
    rewrite Hs. unfold input_value. by rewrite Hj, Hc.
  - rewrite bool_decide_eq_false_2 by done.
    assert (input_value df cells col = None) as ->.
    { unfold input_value. destruct (index_of col (frame_columns df)) eqn:Hj; [|done].
      destruct Hnin. apply index_of_elem. eauto. }
    destruct (last (sources_of mapping col)) as [src|]; cbn.
    + rewrite series_input_value by done.
      destruct (input_value df cells src); [done|]. by destruct (defaults !! col).
    + by destruct (defaults !! col).
Qed.

(** C9, amended: each required column of an output row holds, in this order
    of preference, the row's value in the input column of the same name,
    else the row's value in the source of the last entry of [Mapping] whose
    target is the required column, when that source is an input column,
    else the default configured for the column, else the empty text.  When
    [Mapping] has one entry at most for the column, this is the value the
    claim states.  The row's values are those of the row iteration. *)
Theorem C9_expand_priority (df : Frame) (required_columns : list string)
    (defaults : gmap string cell) (mapping : list (string * string))
    (i : nat) (cells : list cell) (col : string) :
  frame_rows df !! i = Some cells →
  length cells = length (frame_columns df) →
  col ∈ required_columns →
  ∃ out : gmap string cell,
    expand_columns df required_columns defaults mapping !! i = Some out ∧
    out !! col = Some (amended_value df defaults mapping cells col) ∧
    ((length (sources_of mapping col) ≤ 1)%nat →
     amended_value df defaults mapping cells col
     = claimed_value df defaults mapping cells col).
Proof.
  intros Hrow Hlen Hreq.
  exists (output_row df required_columns defaults (reverse_of mapping)
            (series df cells)).
  split.
  { unfold expand_columns. rewrite list_lookup_fmap, Hrow. done. }
  split.
  - unfold output_row.
    rewrite (foldl_insert_lookup
               (column_value df defaults (reverse_of mapping) (series df cells)))
      by done.
    by rewrite column_value_amended.
  - intros Hone. unfold amended_value, claimed_value.
    destruct (sources_of mapping col) as [|src [|? ?]]; [done| |simpl in Hone; lia].
    cbn. by destruct (input_value df cells src).
Qed.

End ExpanderFacts.

Example expand_columns_ex :
  (λ out : gmap string cell,
     (out !! "Date", out !! "Time", out !! "Team", out !! "Location",
      out !! "Status", out !! "Notes"))
  <$> ScheduleExpander.expand_columns expander_frame_ex
        ["Date"; "Time"; "Team"; "Location"; "Status"; "Notes"]
        expander_defaults_ex [("Start Time", "Time")]
  = [ (Some (Str "2025-01-01"), Some (Str "7:00 PM"), Some (Str "A"),
       Some (Str "Main Arena"), Some (Str "Scheduled"), Some (Str ""));
      (Some (Str "2025-01-02"), Some (Str "8:00 PM"), Some (Str "B"),
       Some (Str "Main Arena"), Some (Str "Scheduled"), Some (Str "")) ].
Proof. vm_compute. reflexivity. Qed.

(** When two input columns are mapped to one required column, only the last
    of them in the mapping is looked at. *)
Example expand_columns_last_source :
  (λ out : gmap string cell, out !! "Time")
  <$> ScheduleExpander.expand_columns expander_frame_ex ["Time"] ∅
        [("Start Time", "Time"); ("Begin", "Time")]
  = [Some (Str ""); Some (Str "")].
Proof. vm_compute. reflexivity. Qed.

Lemma C9_expand_priority_witness :
  ∃ out : gmap string cell,
    ScheduleExpander.expand_columns expander_frame_ex
      ["Date"; "Time"; "Team"; "Location"; "Status"; "Notes"]
      expander_defaults_ex [("Begin", "Time"); ("Start Time", "Time")] !! 1%nat
    = Some out ∧
    out !! "Time" = Some (Str "8:00 PM") ∧
    out !! "Time"
    = Some (amended_value expander_frame_ex expander_defaults_ex
              [("Begin", "Time"); ("Start Time", "Time")]
              [Str "2025-01-02"; Str "8:00 PM"; Str "B"] "Time").
Proof.
  destruct (C9_expand_priority expander_frame_ex
              ["Date"; "Time"; "Team"; "Location"; "Status"; "Notes"]
              expander_defaults_ex [("Begin", "Time"); ("Start Time", "Time")] 1
              [Str "2025-01-02"; Str "8:00 PM"; Str "B"] "Time")
    as (out & Hout & Hval & _).
  - reflexivity.
  - reflexivity.
  - apply (bool_decide_unpack _). vm_compute. exact I.
  - exists out. split; [done|]. split; [|done]. rewrite Hval. vm_compute. reflexivity.
Defined.

(** C9 as stated fails when [Mapping] has two entries for one required
    column and the source of the last is not an input column: the input
    column [Start Time] is mapped to [Time] and holds a value in every row,
    yet [Time] comes out empty. *)
Lemma C9_counterexample :
  sources_of [("Start Time", "Time"); ("Begin", "Time")] "Time"
  = ["Start Time"; "Begin"] ∧
  ("Time" ∉ ScheduleExpander.frame_columns expander_frame_ex) ∧
  ("Start Time" ∈ ScheduleExpander.frame_columns expander_frame_ex) ∧
  ("Begin" ∉ ScheduleExpander.frame_columns expander_frame_ex) ∧
  claimed_value expander_frame_ex ∅ [("Start Time", "Time"); ("Begin", "Time")]
    [Str "2025-01-01"; Str "7:00 PM"; Str "A"] "Time" = Str "7:00 PM" ∧
  ((λ out : gmap string cell, out !! "Time")
   <$> ScheduleExpander.expand_columns expander_frame_ex ["Time"] ∅
         [("Start Time", "Time"); ("Begin", "Time")])
  = [Some (Str ""); Some (Str "")] ∧
  ((ScheduleExpander.expand_columns expander_frame_ex ["Time"] ∅
      [("Start Time", "Time"); ("Begin", "Time")] !! 0%nat)
   ≫= (λ out, out !! "Time"))
  ≠ Some (claimed_value expander_frame_ex ∅
            [("Start Time", "Time"); ("Begin", "Time")]
            [Str "2025-01-01"; Str "7:00 PM"; Str "A"] "Time").
Proof.
  split; [reflexivity|].
  split; [apply (bool_decide_unpack _); vm_compute; exact I|].
  split; [apply (bool_decide_unpack _); vm_compute; exact I|].
  split; [apply (bool_decide_unpack _); vm_compute; exact I|].
  split; [vm_compute; reflexivity|].
  split; [vm_compute; reflexivity|].
  vm_compute. discriminate.
Qed.

(** In a table of numbers with a float column the rows are float series: an
    integer comes out of the expander as a float. *)
Example expand_columns_upcast :
  (λ out : gmap string cell, (out !! "Week", out !! "Score"))
  <$> ScheduleExpander.expand_columns expander_numeric_ex ["Week"; "Score"] ∅ []
  = [ (Some (Num "1.0"), Some (Num "2.5")); (Some (Num "2.0"), Some NaN) ].
Proof. vm_compute. reflexivity. Qed.

(** ** The splitter's filter *)

Section SplitterFacts.

Import CSVSplitter.

Lemma any_in_spec (keys : list string) (values : option (list string)) :
  any_in keys values = true ↔ ∃ k, k ∈ keys ∧ k ∈ default [] values.
Proof.
  unfold any_in. rewrite existsb_exists. split.
  - intros (k & Hin & Hk). exists k. split.
    + by apply list_elem_of_In.
    + by apply bool_decide_eq_true in Hk.
  - intros (k & Hin & Hk). exists k. split.
    + by apply list_elem_of_In.
    + by apply bool_decide_eq_true.
Qed.

Lemma any_in_false (keys : list string) (values : option (list string)) :
  any_in keys values = false ↔ ∀ k, k ∈ keys → k ∉ default [] values.
Proof.
  rewrite <- not_true_iff_false, any_in_spec. split.
  - intros H k Hk Hv. apply H. eauto.
  - intros H (k & Hk & Hv). by apply (H k).
Qed.

Lemma key_strings_components (group_keys : group_key) :
  key_strings group_keys = map str (components group_keys).
Proof. by destruct group_keys. Qed.

Lemma any_in_matches (group_keys : group_key) (l : list string) :
  any_in (key_strings group_keys) (Some l) = true ↔ key_matches group_keys l.
Proof.
  rewrite any_in_spec, key_strings_components. unfold key_matches. simpl. split.
  - intros (k & Hk & Hl). apply list_elem_of_fmap in Hk as (c & -> & Hc). eauto.
  - intros (c & Hc & Hl). exists (str c). split; [|done].
    apply list_elem_of_fmap. eauto.
Qed.

Lemma include_test (include_values : option (list string)) (group_keys : group_key) :
  given include_values && negb (any_in (key_strings group_keys) include_values) = false
  ↔ ∀ l, include_values = Some l → l ≠ [] → key_matches group_keys l.
Proof.
  destruct include_values as [[|x l]|]; cbn [given andb].
  - split; [|done]. by intros _ l [= <-].
  - rewrite negb_false_iff, any_in_matches. split.
    + by intros H l' [= <-] _.
    + intros H. by apply H.
  - split; [|done]. by intros _ l.
Qed.

Lemma exclude_test (exclude_values : option (list string)) (group_keys : group_key) :
  given exclude_values && any_in (key_strings group_keys) exclude_values = false
  ↔ ∀ l, exclude_values = Some l → ¬ key_matches group_keys l.
Proof.
  destruct exclude_values as [[|x l]|]; cbn [given andb].
  - split; [|done]. intros _ l [= <-] (k & _ & Hk). by apply elem_of_nil in Hk.
  - rewrite <- not_true_iff_false, any_in_matches. split.
    + by intros H l' [= <-].
    + intros H. by apply H.
  - split; [|done]. by intros _ l.
Qed.

Lemma should_include_exported
    (include_values exclude_values : option (list string))
    (group_keys : group_key) :
  _should_include include_values exclude_values group_keys = true
  ↔ exported include_values exclude_values group_keys.
Proof.
  unfold exported. rewrite <- include_test, <- exclude_test.
  unfold _should_include.
  destruct (given include_values
            && negb (any_in (key_strings group_keys) include_values));
    [by split; [|intros [? _]]|].
  destruct (given exclude_values && any_in (key_strings group_keys) exclude_values);
    [by split; [|intros [_ ?]]|]. done.
Qed.

(** C10: a group is exported if and only if, when an include list is given
    (a list that is not empty), one component of its key, written as text,
    is in the list, and, when an exclude list is given, no component of the
    key is in that list; a key that matches both lists is dropped.  The
    files [split_and_export] writes are those of the groups so accepted. *)
Theorem C10_should_include_iff
    (include_values exclude_values : option (list string))
    (group_keys : group_key) :
  (_should_include include_values exclude_values group_keys = true
   ↔ exported include_values exclude_values group_keys) ∧
  (∀ li le, include_values = Some li → exclude_values = Some le →
            key_matches group_keys li → key_matches group_keys le →
            _should_include include_values exclude_values group_keys = false) ∧
  (∀ (G : Type) (output_dir base_name : string) (grouped : list (group_key * G))
     (path : string) (g : G),
     (path, g) ∈ split_and_export include_values exclude_values output_dir
                   base_name grouped
     ↔ ∃ gk, (gk, g) ∈ grouped ∧ exported include_values exclude_values gk ∧
             path = output_path output_dir base_name gk).
Proof.
  split; [apply should_include_exported|]. split.
  - intros li le Hi He _ Hle. apply not_true_iff_false.
    intros [_ H]%should_include_exported. by apply (H le).
  - intros G output_dir base_name grouped path g. unfold split_and_export.
    change (map ?f ?l) with (f <$> l). rewrite list_elem_of_fmap. split.
    + intros ([gk g'] & [= -> ->] & [Hinc Hin]%list_elem_of_filter).
      exists gk. by rewrite <- should_include_exported.
    + intros (gk & Hin & Hex & ->). exists (gk, g). split; [done|].
      apply list_elem_of_filter. by rewrite should_include_exported.
Qed.

End SplitterFacts.

Example splitter_ex :
  CSVSplitter._should_include (CSVSplitter.parse_values (Some "16U, 18U"))
    (CSVSplitter.parse_values (Some "1")) (CSVSplitter.Tuple [Num "1"; Str "16U"]) = false ∧
  CSVSplitter._should_include (CSVSplitter.parse_values (Some "16U, 18U"))
    (CSVSplitter.parse_values (Some "1")) (CSVSplitter.Tuple [Num "2"; Str "18U"]) = true ∧
  CSVSplitter._should_include (CSVSplitter.parse_values (Some "16U, 18U"))
    (CSVSplitter.parse_values None) (CSVSplitter.Scalar (Str "12U")) = false ∧
  CSVSplitter.output_path "out" "sched" (CSVSplitter.Tuple [Num "2"; Str "U 18/A"])
    = "out/sched_2_U_18_A.csv".
Proof. repeat split; vm_compute; reflexivity. Qed.

(** * Further properties *)

(** ** File names of the splitter *)

Section FileNameFacts.

Import PyStr CSVSplitter CSVSplitterFile.

Lemma has_char_app (c : ascii) (a b : string) :
  has_char c (a +:+ b) = has_char c a || has_char c b.
Proof.
  induction a as [|x a IH]; [reflexivity|].
  change (String x a +:+ b) with (String x (a +:+ b)). simpl.
  by rewrite IH, orb_assoc.
Qed.

Lemma sanitize_free (c : ascii) (name : string) :
  reserved c = true → has_char c (_sanitize_filename name) = false.
Proof.
  intros Hc. induction name as [|x r IH]; [reflexivity|].
  simpl. rewrite IH, orb_false_r. apply Ascii.eqb_neq.
  destruct (reserved x) eqn:Hx; intros <-; [|congruence].
  by vm_compute in Hc.
Qed.

Lemma sanitize_keeps_free (c : ascii) (name : string) :
  Ascii.eqb c "_" = false → has_char c name = false →
  has_char c (_sanitize_filename name) = false.
Proof.
  intros Hc. induction name as [|x r IH]; [reflexivity|].
  cbn [_sanitize_filename has_char]. intros [Hx Hr]%orb_false_iff.
  rewrite (IH Hr), orb_false_r.
  destruct (reserved x); [|done].
  apply Ascii.eqb_neq. intros <-. by vm_compute in Hc.
Qed.

Lemma replace_spaces_free (s : string) : has_char " " (replace_spaces s) = false.
Proof.
  induction s as [|x r IH]; [reflexivity|].
  simpl. rewrite IH, orb_false_r.
  destruct (Ascii.eqb x " ") eqn:Hx; [reflexivity|done].
Qed.

Lemma join_underscore_free (c : ascii) (parts : list string) :
  Ascii.eqb c "_" = false → Forall (λ p, has_char c p = false) parts →
  has_char c (join_underscore parts) = false.
Proof.
  intros Hc. induction 1 as [|p ps Hp Hps IH]; [reflexivity|].
  destruct ps as [|q ps]; [done|].
  change (join_underscore (p :: q :: ps))
    with (p +:+ "_" +:+ join_underscore (q :: ps)).
  rewrite !has_char_app, Hp, IH by done. cbn [has_char orb].
  assert (Ascii.eqb "_" c = false) as -> by (by rewrite Ascii.eqb_sym). done.
Qed.

Lemma basename_no_slash (p : string) : has_char "/" (Paths.basename p) = false.
Proof.
  induction p as [|x r IH]; [reflexivity|].
  cbn [Paths.basename]. destruct (has_char "/" (String x r)) eqn:H; done.
Qed.

Lemma before_last_free (c d : ascii) (s : string) :
  has_char d s = false → has_char d (Paths.before_last c s) = false.
Proof.
  induction s as [|x r IH]; [reflexivity|].
  intros H. cbn [Paths.before_last]. destruct (has_char c r).
  - simpl in *. apply orb_false_iff in H as [Hx Hr]. by rewrite Hx, IH.
  - by destruct (Ascii.eqb x c).
Qed.

Lemma base_name_no_slash (input_file : string) :
  has_char "/" (base_name_of input_file) = false.
Proof.
  unfold base_name_of, Paths.splitext_root.
  pose proof (basename_no_slash input_file) as H.
  destruct (_ && _); [by apply before_last_free|done].
Qed.

(** X1: [_sanitize_filename] keeps the length of a name, leaves none of the
    nine reserved characters in it, changes nothing in a name that has none,
    and gives the same name when applied twice. *)
Theorem X1_sanitize_filename (name : string) :
  String.length (_sanitize_filename name) = String.length name ∧
  (∀ c, reserved c = true → has_char c (_sanitize_filename name) = false) ∧
  ((∀ c, reserved c = true → has_char c name = false) →
   _sanitize_filename name = name) ∧
  _sanitize_filename (_sanitize_filename name) = _sanitize_filename name.
Proof.
  assert (Hfix : ∀ s, (∀ c, reserved c = true → has_char c s = false) →
                      _sanitize_filename s = s).
  { induction s as [|x r IH]; [done|]. intros H. simpl.
    destruct (reserved x) eqn:Hx.
    - specialize (H x Hx). simpl in H. by rewrite Ascii.eqb_refl in H.
    - f_equal. apply IH. intros c Hc. specialize (H c Hc). simpl in H.
      by apply orb_false_iff in H as [_ ?]. }
  repeat split.
  - induction name as [|x r IH]; [done|]. simpl. by rewrite IH.
  - intros c Hc. by apply sanitize_free.
  - apply Hfix.
  - apply Hfix. intros c Hc. by apply sanitize_free.
Qed.

(** X2: whatever the input path and the values of a group key, the name of
    the file written for the group holds no "/" (so the file lands in the
    output directory itself), and the part made from the key holds no space
    and none of the reserved characters. *)
Theorem X2_output_filename (output_dir input_file : string) (group_keys : group_key) :
  output_path output_dir (base_name_of input_file) group_keys
  = ScheduleParser.path_join output_dir (output_filename input_file group_keys) ∧
  has_char "/" (output_filename input_file group_keys) = false ∧
  ∃ suffix,
    output_filename input_file group_keys
    = base_name_of input_file +:+ "_" +:+ suffix +:+ ".csv" ∧
    has_char " " suffix = false ∧
    ∀ c, reserved c = true → has_char c suffix = false.
Proof.
  split; [reflexivity|].
  assert (Hkeys : ∀ c, Ascii.eqb c "_" = false → (reserved c = true ∨ c = " "%char) →
            has_char c (join_underscore
              (map (λ k, _sanitize_filename (replace_spaces (str k)))
                   (key_cells group_keys))) = false).
  { intros c Hc Hr. apply join_underscore_free; [done|].
    apply Forall_fmap, Forall_forall. intros k _. simpl.
    destruct Hr as [Hr| ->]; [by apply sanitize_free|].
    apply sanitize_keeps_free; [done|apply replace_spaces_free]. }
  split.
  - unfold output_filename. rewrite !has_char_app, base_name_no_slash.
    rewrite Hkeys; [done|done|]. by left.
  - eexists. split; [reflexivity|]. split.
    + apply Hkeys; [done|by right].
    + intros c Hc. apply Hkeys; [|by left].
      apply Ascii.eqb_neq. intros ->. by vm_compute in Hc.
Qed.

End FileNameFacts.

Example output_filename_ex :
  CSVSplitterFile.output_filename "data/out/schedule.v2.csv"
    (CSVSplitter.Tuple [Num "3"; Str "U 18/A"]) = "schedule.v2_3_U_18_A.csv" ∧
  CSVSplitterFile.base_name_of ".hidden" = ".hidden" ∧
  CSVSplitterFile.base_name_of "a/b.tar.gz" = "b.tar".
Proof. repeat split; vm_compute; reflexivity. Qed.

(** ** The shape of the expander's output *)

Section ExpanderShape.

Import ScheduleExpander.

Lemma foldl_insert_dom {V : Type} (f : string → V) (l : list string)
    (m : gmap string V) :
  dom (foldl (λ out c, <[c := f c]> out) m l) = list_to_set l ∪ dom m.
Proof.
  revert m. induction l as [|x l IH]; intros m; simpl.
  - symmetry. apply (left_id_L ∅ (∪)).
  - rewrite IH, dom_insert_L.
    by rewrite (assoc_L (∪)), (comm_L (∪) (list_to_set l)).
Qed.

Lemma foldl_insert_lookup_other {V : Type} (f : string → V) (l : list string)
    (m : gmap string V) (col : string) :
  col ∉ l → foldl (λ out c, <[c := f c]> out) m l !! col = m !! col.
Proof.
  revert m. induction l as [|x l IH]; intros m Hnin; simpl; [done|].
  apply not_elem_of_cons in Hnin as [Hne Hnin].
  rewrite IH by done. by apply lookup_insert_ne.
Qed.

(** X3: the expanded table has one row per input row, and every row has
    exactly the required columns, whatever columns the input has. *)
Theorem X3_expand_shape (df : Frame) (required_columns : list string)
    (defaults : gmap string cell) (mapping : list (string * string)) :
  length (expand_columns df required_columns defaults mapping)
  = length (frame_rows df) ∧
  Forall (λ out : gmap string cell, dom out = list_to_set required_columns)
         (expand_columns df required_columns defaults mapping).
Proof.
  unfold expand_columns. split; [by rewrite length_map|].
  apply Forall_fmap, Forall_forall. intros cells _. simpl.
  unfold output_row. rewrite foldl_insert_dom, dom_empty_L.
  apply (right_id_L ∅ (∪)).
Qed.

Lemma series_lookup (df : Frame) (cells : list cell) (col : string) :
  length cells = length (frame_columns df) →
  col ∈ frame_columns df ↔ is_Some (series df cells !! col).
Proof.
  intros Hlen. unfold series. split.
  - intros Hin. apply not_eq_None_Some. intros Hnone.
    apply not_elem_of_list_to_map in Hnone. apply Hnone.
    by rewrite fst_zip by (rewrite length_map; lia).
  - intros [v Hv]. apply elem_of_list_to_map_2 in Hv.
    apply elem_of_zip_l in Hv. done.
Qed.

Lemma expand_own_columns (df : Frame) (defaults : gmap string cell)
    (mapping : list (string * string)) :
  Forall (λ cells, length cells = length (frame_columns df)) (frame_rows df) →
  expand_columns df (frame_columns df) defaults mapping
  = map (series df) (frame_rows df).
Proof.
  intros Hwf. unfold expand_columns. apply map_ext_Forall.
  eapply Forall_impl; [exact Hwf|]. intros cells Hlen. simpl.
  apply map_eq. intros col. unfold output_row.
  destruct (decide (col ∈ frame_columns df)) as [Hin|Hnin].
  - rewrite (foldl_insert_lookup
               (column_value df defaults (reverse_of mapping) (series df cells)))
      by done.
    unfold column_value. rewrite bool_decide_eq_true_2 by done.
    destruct (proj1 (series_lookup df cells col Hlen) Hin) as [v Hv].
    by rewrite Hv.
  - rewrite foldl_insert_lookup_other by done. rewrite lookup_empty.
    symmetry. apply eq_None_not_Some. intros Hs.
    by apply (series_lookup df cells col Hlen) in Hs.
Qed.

(** X4: when the required columns are the columns of the input (every row
    as long as the header), each output row is the input row as the row
    iteration hands it out, whatever the defaults and the mapping: every
    cell under its column name, unchanged in a table that has a text or
    holds integers only, and with every integer turned into a float in a
    table of numbers that has a float or a missing value. *)
Theorem X4_expand_identity (df : Frame) (defaults : gmap string cell)
    (mapping : list (string * string)) :
  Forall (λ cells, length cells = length (frame_columns df)) (frame_rows df) →
  expand_columns df (frame_columns df) defaults mapping
  = map (λ cells, list_to_map (zip (frame_columns df)
                                   (if bool_decide (values_dtype df = Float64)
                                    then map to_float cells else cells)))
        (frame_rows df).
Proof.
  intros Hwf. rewrite (expand_own_columns df defaults mapping Hwf).
  apply map_ext. intros cells. unfold series. do 2 f_equal.
  unfold iterrows_cell. destruct (values_dtype df);
    [rewrite bool_decide_eq_false_2 by done; apply map_id
    |by rewrite bool_decide_eq_true_2
    |rewrite bool_decide_eq_false_2 by done; apply map_id].
Qed.

(** X5: when several entries of the mapping have the same target, the last
    of them decides: the entries before it, and every entry for another
    target, change nothing for that column. *)
Theorem X5_last_mapping_wins (df : Frame) (defaults : gmap string cell)
    (before after : list (string * string)) (src col : string)
    (row : gmap string cell) :
  (∀ s, (s, col) ∉ after) →
  reverse_of (before ++ (src, col) :: after) !! col = Some src ∧
  column_value df defaults (reverse_of (before ++ (src, col) :: after)) row col
  = column_value df defaults (reverse_of [(src, col)]) row col.
Proof.
  intros Hafter.
  assert (H : reverse_of (before ++ (src, col) :: after) !! col = Some src).
  { unfold reverse_of. rewrite foldl_app. simpl.
    generalize (foldl (λ m kv, <[kv.2:=kv.1]> m) (∅ : gmap string string) before).
    intros m. revert m.
    induction after as [|[k v] l IH] using rev_ind; intros m; simpl.
    - by rewrite lookup_insert_eq.
    - rewrite foldl_app. simpl. rewrite lookup_insert_ne.
      + apply IH. intros s Hs. apply (Hafter s). apply elem_of_app. by left.
      + intros ->. apply (Hafter k). apply elem_of_app. right.
        by apply list_elem_of_singleton. }
  split; [done|]. unfold column_value. rewrite H.
  unfold reverse_of. simpl. by rewrite lookup_insert_eq.
Qed.

End ExpanderShape.

Lemma X4_expand_identity_witness :
  ScheduleExpander.expand_columns expander_numeric_ex
    (ScheduleExpander.frame_columns expander_numeric_ex) expander_defaults_ex
    [("Start Time", "Time")]
  = map (λ cells, list_to_map
                    (zip (ScheduleExpander.frame_columns expander_numeric_ex)
                         (if bool_decide
                               (ScheduleExpander.values_dtype expander_numeric_ex
                                = ScheduleExpander.Float64)
                          then map ScheduleExpander.to_float cells else cells)))
        (ScheduleExpander.frame_rows expander_numeric_ex) ∧
  ScheduleExpander.expand_columns expander_numeric_ex
    (ScheduleExpander.frame_columns expander_numeric_ex) expander_defaults_ex
    [("Start Time", "Time")]
  = [ list_to_map [("Week", Num "1.0"); ("Score", Num "2.5")];
      list_to_map [("Week", Num "2.0"); ("Score", NaN)] ].
Proof.
  split; [|vm_compute; reflexivity].
  apply (X4_expand_identity expander_numeric_ex expander_defaults_ex
           [("Start Time", "Time")]).
  repeat constructor.
Defined.

Lemma X5_last_mapping_wins_witness :
  ScheduleExpander.reverse_of
    ([("Start Time", "Time")] ++ ("Begin", "Time") :: [("Team", "Club")]) !! "Time"
  = Some "Begin" ∧
  ScheduleExpander.column_value expander_frame_ex expander_defaults_ex
    (ScheduleExpander.reverse_of
       ([("Start Time", "Time")] ++ ("Begin", "Time") :: [("Team", "Club")]))
    (ScheduleExpander.series expander_frame_ex
       [Str "2025-01-01"; Str "7:00 PM"; Str "A"]) "Time"
  = ScheduleExpander.column_value expander_frame_ex expander_defaults_ex
      (ScheduleExpander.reverse_of [("Begin", "Time")])
      (ScheduleExpander.series expander_frame_ex
         [Str "2025-01-01"; Str "7:00 PM"; Str "A"]) "Time".
Proof.
  apply (X5_last_mapping_wins expander_frame_ex expander_defaults_ex
           [("Start Time", "Time")] [("Team", "Club")] "Begin" "Time").
  intros s Hs. apply list_elem_of_singleton in Hs. discriminate.
Defined.

(** ** Markers and blocks *)

Section MarkerFacts.

Import PyStr Cal Fmt ScheduleParser.

(** The positions kept from an enumeration that starts at [k]. *)
Lemma kept_positions {A : Type} (P : A → bool) (k : nat) (l : list A) :
  let kept := map fst (filter (λ p, P p.2 = true) (imap (λ i a, (k + i, a)%nat) l)) in
  (∀ i, i ∈ kept ↔ ∃ a, (k ≤ i)%nat ∧ l !! (i - k)%nat = Some a ∧ P a = true) ∧
  StronglySorted lt kept.
Proof.
  revert k. induction l as [|a l IH]; intros k; simpl.
  - split; [|constructor]. intros i. split.
    + intros H. by apply elem_of_nil in H.
    + intros (? & _ & H & _). done.
  - assert (Himap : imap ((λ i a, (k + i, a)%nat) ∘ S) l
                    = imap (λ i a, (S k + i, a)%nat) l).
    { apply imap_ext. intros i x _. simpl. f_equal. lia. }
    rewrite Himap. destruct (IH (S k)) as [Hmem Hsorted].
    assert (Hge : ∀ i, i ∈ map fst (filter (λ p, P p.2 = true)
                         (imap (λ i a, (S k + i, a)%nat) l)) → (k < i)%nat).
    { intros i (x & Hk & _)%Hmem. lia. }
    rewrite filter_cons. simpl. rewrite Nat.add_0_r.
    destruct (decide (P a = true)) as [Ha|Ha]; simpl.
    + split.
      * intros i. rewrite elem_of_cons, Hmem. split.
        -- intros [->|(x & Hk & Hx & HP)].
           ++ exists a. rewrite Nat.sub_diag. done.
           ++ exists x. split; [lia|]. split; [|done].
              replace (i - k)%nat with (S (i - S k)) by lia. done.
        -- intros (x & Hk & Hx & HP).
           destruct (decide (i = k)) as [->|Hne]; [by left|right].
           exists x. split; [lia|]. split; [|done].
           replace (i - k)%nat with (S (i - S k)) in Hx by lia. done.
      * constructor; [done|]. apply Forall_forall. intros i Hi. by apply Hge.
    + split; [|done].
      intros i. rewrite Hmem. split.
      * intros (x & Hk & Hx & HP). exists x. split; [lia|]. split; [|done].
        replace (i - k)%nat with (S (i - S k)) by lia. done.
      * intros (x & Hk & Hx & HP).
        destruct (decide (i = k)) as [->|Hne].
        { rewrite Nat.sub_diag in Hx. simpl in Hx. congruence. }
        exists x. split; [lia|]. split; [|done].
        replace (i - k)%nat with (S (i - S k)) in Hx by lia. done.
Qed.

Lemma find_date_cols_spec (row1 : list cell) :
  (∀ i, i ∈ find_date_cols row1 ↔
        ∃ s, row1 !! i = Some (Str s) ∧ lower (strip s) = "date") ∧
  StronglySorted lt (find_date_cols row1) ∧
  Forall (λ i, (i < length row1)%nat) (find_date_cols row1).
Proof.
  destruct (kept_positions is_marker 0 row1) as [Hmem Hsorted].
  assert (Hiff : ∀ i, i ∈ find_date_cols row1 ↔
            ∃ s, row1 !! i = Some (Str s) ∧ lower (strip s) = "date").
  { intros i. unfold find_date_cols, enumerate. simpl in Hmem. rewrite Hmem.
    rewrite Nat.sub_0_r. split.
    - intros (v & _ & Hv & Hm). destruct v as [|s|]; try done.
      exists s. split; [done|]. by apply String.eqb_eq in Hm.
    - intros (s & Hs & Hd). exists (Str s). split; [lia|]. split; [done|].
      simpl. by apply String.eqb_eq. }
  split; [done|]. split; [exact Hsorted|].
  apply Forall_forall. intros i (s & Hs & _)%Hiff. by apply lookup_lt_Some in Hs.
Qed.

(** X6: the marker columns are exactly the positions of row 1 that hold the
    text "date" in any letter case, white space around it ignored; a missing
    or numeric cell is never a marker; the positions come in increasing
    order. *)
Theorem X6_find_date_cols (row1 : list cell) :
  (∀ i, i ∈ find_date_cols row1 ↔
        ∃ s, row1 !! i = Some (Str s) ∧ lower (strip s) = "date") ∧
  StronglySorted lt (find_date_cols row1) ∧
  Forall (λ i, (i < length row1)%nat) (find_date_cols row1).
Proof. apply find_date_cols_spec. Qed.

Lemma block_ranges_columns (df : DataFrame) (c : nat) (rest : list nat) :
  StronglySorted lt (c :: rest) →
  Forall (λ i, (i < length (columns df))%nat) (c :: rest) →
  concat (map (λ ab, take (ab.2 - ab.1) (drop ab.1 (columns df)))
              (block_ranges (c :: rest) (length (columns df))))
  = drop c (columns df).
Proof.
  revert c. induction rest as [|n rest IH]; intros c Hs Hb.
  - simpl. rewrite app_nil_r. apply take_ge. rewrite length_drop. lia.
  - apply StronglySorted_inv in Hs as [Hs Hc].
    apply Forall_cons in Hb as [_ Hb].
    apply Forall_cons in Hc as [Hcn _].
    change (block_ranges (c :: n :: rest) (length (columns df)))
      with ((c, n) :: block_ranges (n :: rest) (length (columns df))).
    rewrite map_cons, concat_cons, (IH n Hs Hb). simpl.
    replace (drop n (columns df)) with (drop (n - c) (drop c (columns df))).
    + apply take_drop.
    + rewrite drop_drop. f_equal. lia.
Qed.

(** X7: on a sheet whose row 1 is as wide as the sheet, there is one block
    per marker, every block starts at its marker column, and the blocks,
    side by side, are the columns from the first marker to the last column:
    each of these columns is in one block, and the columns before the first
    marker are in none. *)
Theorem X7_blocks_cover (df : DataFrame) (label : nat) (row1 : list cell)
    (c : nat) (rest : list nat) :
  rows df !! 1%nat = Some (label, row1) →
  length row1 = length (columns df) →
  find_date_cols row1 = c :: rest →
  let blocks := make_blocks df (find_date_cols row1) in
  length blocks = length (find_date_cols row1) ∧
  Forall2 (λ m b, head (columns b) = columns df !! m) (find_date_cols row1) blocks ∧
  concat (map columns blocks) = drop c (columns df).
Proof.
  intros Hrow Hlen Hcols blocks. subst blocks.
  destruct (find_date_cols_spec row1) as (_ & Hsorted & Hbound).
  rewrite Hlen in Hbound. rewrite Hcols in *.
  split; [|split].
  - unfold make_blocks. rewrite length_map. clear.
    generalize (c :: rest). intros l. induction l as [|x l IH]; simpl; [done|].
    by rewrite IH.
  - unfold make_blocks. revert Hsorted Hbound. generalize (c :: rest). clear.
    intros l. induction l as [|x l IH]; intros Hs Hb; simpl; [constructor|].
    apply StronglySorted_inv in Hs as [Hs Hx].
    apply Forall_cons in Hb as [Hxb Hb].
    constructor; [|by apply IH]. simpl.
    assert (Hend : (x < match l with [] => length (columns df) | n :: _ => n end)%nat).
    { destruct l as [|n l]; [done|]. by apply Forall_cons in Hx as [? _]. }
    destruct (lookup_lt_is_Some_2 (columns df) x Hxb) as [v Hv].
    rewrite Hv, (drop_S _ _ _ Hv).
    destruct (match l with [] => length (columns df) | n :: _ => n end - x)%nat
      eqn:E; [lia|]. done.
  - unfold make_blocks. rewrite map_map. simpl.
    by apply block_ranges_columns.
Qed.

End MarkerFacts.

Lemma X7_blocks_cover_witness :
  let blocks := ScheduleParser.make_blocks sheet_ex
                  (ScheduleParser.find_date_cols
                     [Str "Date"; Str "Time"; Str "Date"; Str "Time"]) in
  length blocks
  = length (ScheduleParser.find_date_cols
              [Str "Date"; Str "Time"; Str "Date"; Str "Time"]) ∧
  Forall2 (λ m b, head (columns b) = columns sheet_ex !! m)
          (ScheduleParser.find_date_cols
             [Str "Date"; Str "Time"; Str "Date"; Str "Time"]) blocks ∧
  concat (map columns blocks) = drop 0 (columns sheet_ex).
Proof.
  apply (X7_blocks_cover sheet_ex 1%nat
           [Str "Date"; Str "Time"; Str "Date"; Str "Time"] 0%nat [2%nat]);
    reflexivity.
Defined.

(** ** What a block reads *)

Section BlockReads.

Import PyStr Cal Fmt ScheduleParser.

Lemma collect_ext {A B : Type} (f g : A → result (list B)) (l : list A) :
  Forall (λ a, f a = g a) l → collect f l = collect g l.
Proof.
  induction 1 as [|a l Ha _ IH]; [done|]. simpl. by rewrite Ha, IH.
Qed.

Lemma collect_filter {A B : Type} (f : A → result (list B)) (P : A → Prop)
    `{∀ a, Decision (P a)} (l : list A) :
  (∀ a, ¬ P a → f a = Ok []) → collect f (filter P l) = collect f l.
Proof.
  intros Hskip. induction l as [|a l IH]; [done|].
  rewrite filter_cons. destruct (decide (P a)) as [Ha|Ha]; simpl.
  - by rewrite IH.
  - rewrite (Hskip a Ha), IH. simpl. by destruct (collect f l).
Qed.

Lemma drop_undated_row2 (subset : DataFrame) :
  rows (drop_undated subset) !! 2%nat = rows subset !! 2%nat.
Proof.
  unfold drop_undated. simpl.
  destruct (rows subset) as [|r0 [|r1 [|r2 rest]]]; done.
Qed.

Lemma drop_undated_tail (subset : DataFrame) :
  drop 3 (rows (drop_undated subset))
  = filter (λ r, isna (at_pos r.2 0) = false) (drop 3 (rows subset)).
Proof.
  unfold drop_undated. simpl.
  destruct (rows subset) as [|r0 [|r1 [|r2 rest]]]; done.
Qed.

Lemma mask_redundant (cfg : config) (reference_date : timestamp)
    (block : DataFrame) :
  block_trace cfg reference_date (drop_undated block)
  = block_trace cfg reference_date block ∧
  _parse_block cfg reference_date (drop_undated block)
  = _parse_block cfg reference_date block.
Proof.
  assert (H : block_trace cfg reference_date (drop_undated block)
              = block_trace cfg reference_date block).
  { unfold block_trace.
    change (columns (drop_undated block)) with (columns block).
    destruct (columns block) as [|date_col cols]; [done|].
    apply collect_ext, Forall_forall. intros [pos col] _. simpl.
    unfold column_trace. rewrite drop_undated_row2, drop_undated_tail.
    destruct (rows block !! 2%nat) as [[label header]|]; [|done].
    destruct (at_pos header pos) as [|interval|]; try done.
    destruct (_parse_time_and_duration cfg interval) as [[start_time duration]|];
      [|done].
    destruct (negb _); [done|].
    apply collect_filter. intros r Hr. apply not_false_is_true in Hr.
    unfold cell_entries. by rewrite Hr. }
  split; [done|]. unfold _parse_block. by rewrite H.
Qed.

(** X8: the rows that [parse_schedule] drops from a block before parsing it
    (lines 137-139) are rows [_parse_block] skips by itself (line 98):
    with or without the mask, a block gives the same entries, or the same
    exception. *)
Theorem X8_mask_changes_nothing (cfg : config) (reference_date : timestamp)
    (block : DataFrame) :
  block_trace cfg reference_date (drop_undated block)
  = block_trace cfg reference_date block ∧
  _parse_block cfg reference_date (drop_undated block)
  = _parse_block cfg reference_date block.
Proof. apply mask_redundant. Qed.

(** A block is read from row 2 on: rows 0 and 1 are not looked at. *)
Lemma block_trace_from_row2 (cfg : config) (reference_date : timestamp)
    (b b' : DataFrame) :
  columns b = columns b' → drop 2 (rows b) = drop 2 (rows b') →
  block_trace cfg reference_date b = block_trace cfg reference_date b'.
Proof.
  intros Hc Hr. unfold block_trace. rewrite Hc.
  destruct (columns b') as [|date_col cols]; [done|].
  apply collect_ext, Forall_forall. intros [pos col] _. simpl.
  unfold column_trace.
  assert (H2 : rows b !! 2%nat = rows b' !! 2%nat).
  { pose proof (lookup_drop (rows b) 2 0) as E1.
    pose proof (lookup_drop (rows b') 2 0) as E2.
    simpl in E1, E2. rewrite <- E1, <- E2. by rewrite Hr. }
  assert (H3 : drop 3 (rows b) = drop 3 (rows b')).
  { pose proof (drop_drop (rows b) 1 2) as E1.
    pose proof (drop_drop (rows b') 1 2) as E2.
    simpl in E1, E2. rewrite <- E1, <- E2. by rewrite Hr. }
  by rewrite H2, H3.
Qed.

(** X9: [parse_schedule] reads no cell of row 0 of the frame it works on:
    two frames with the same column labels and the same rows from row 1 on
    (the same labels and the same typed cells) give the same result,
    whatever their rows 0 hold.  This is a fact about frames: in a file
    read by [pd.read_csv], row 0 also fixes the width of the frame and
    takes part in the typing of its columns, so that changing the first
    line of a file can change the cells of the other rows. *)
Theorem X9_row0_is_not_read (cfg : config) (reference_date : timestamp)
    (cols : list nat) (r0 r0' : nat * list cell) (rest : list (nat * list cell)) :
  parse_schedule cfg reference_date (mkDF cols (r0 :: rest))
  = parse_schedule cfg reference_date (mkDF cols (r0' :: rest)).
Proof.
  unfold parse_schedule. simpl.
  destruct (rest !! 0%nat) as [[label row1]|]; [|done].
  assert (H : collect (λ b, es ← _parse_block cfg reference_date b; Ok [es])
                (make_blocks (mkDF cols (r0 :: rest)) (find_date_cols row1))
            = collect (λ b, es ← _parse_block cfg reference_date b; Ok [es])
                (make_blocks (mkDF cols (r0' :: rest)) (find_date_cols row1))).
  { unfold make_blocks. simpl.
    generalize (block_ranges (find_date_cols row1) (length cols)). intros rs.
    induction rs as [|ab rs IH]; [done|]. simpl. rewrite IH.
    destruct (mask_redundant cfg reference_date
                (iloc_cols (mkDF cols (r0 :: rest)) ab.1 ab.2)) as [_ ->].
    destruct (mask_redundant cfg reference_date
                (iloc_cols (mkDF cols (r0' :: rest)) ab.1 ab.2)) as [_ ->].
    unfold _parse_block.
    by rewrite (block_trace_from_row2 cfg reference_date
                  (iloc_cols (mkDF cols (r0 :: rest)) ab.1 ab.2)
                  (iloc_cols (mkDF cols (r0' :: rest)) ab.1 ab.2)). }
  by rewrite H.
Qed.

End BlockReads.

(** ** When parsing raises *)

Section Raising.

Import PyStr Cal Fmt ScheduleParser.

(** X10: a sheet that ends after row 1 (no time row), with a marker in row 1
    and at least one column behind it in its block, makes [parse_schedule]
    raise [IndexError]; it does not return the empty frame. *)
Theorem X10_short_sheet_raises (cfg : config) (reference_date : timestamp)
    (df : DataFrame) (label : nat) (row1 : list cell) (c : nat) (rest : list nat) :
  rows df !! 1%nat = Some (label, row1) →
  rows df !! 2%nat = None →
  find_date_cols row1 = c :: rest →
  (c + 2 ≤ match rest with next :: _ => next | [] => length (columns df) end)%nat →
  (c + 2 ≤ length (columns df))%nat →
  parse_schedule cfg reference_date df = Raise IndexError.
Proof.
  intros Hrow1 Hrow2 Hcols Hend Hwidth.
  unfold parse_schedule. rewrite Hrow1, Hcols.
  change (make_blocks df (c :: rest))
    with (drop_undated
            (iloc_cols df c (match rest with next :: _ => next | [] => length (columns df) end))
          :: make_blocks df rest).
  set (e := match rest with next :: _ => next | [] => length (columns df) end) in *.
  simpl. destruct (mask_redundant cfg reference_date (iloc_cols df c e)) as [_ ->].
  assert (Hblock : _parse_block cfg reference_date (iloc_cols df c e) = Raise IndexError).
  { unfold _parse_block, block_trace. simpl.
    destruct (lookup_lt_is_Some_2 (columns df) c ltac:(lia)) as [v0 Hv0].
    destruct (lookup_lt_is_Some_2 (columns df) (S c) ltac:(lia)) as [v1 Hv1].
    rewrite (drop_S _ _ _ Hv0), (drop_S _ _ _ Hv1).
    destruct (e - c)%nat as [|[|n]] eqn:E; try lia. simpl.
    unfold column_trace. simpl. rewrite list_lookup_fmap, Hrow2. done. }
  by rewrite Hblock.
Qed.

Lemma collect_total {A B : Type} (f : A → result (list B)) (l : list A) :
  Forall (λ a, ∃ xs, f a = Ok xs) l → ∃ ys, collect f l = Ok ys.
Proof.
  induction 1 as [|a l [xs Ha] _ [ys IH]]; simpl; [eauto|].
  rewrite Ha, IH. simpl. eauto.
Qed.

Lemma to_datetime_nat (fmt s : string) :
  to_datetime fmt s = Ok NaT → is_null s = true.
Proof.
  unfold to_datetime, is_null. destruct (compile fmt) as [rs|]; simpl; [|done].
  destruct (bool_decide (s = "" ∨ s ∈ nat_strings)); [done|].
  destruct (rx_match rs s) as [[caps rest]|]; [|done].
  destruct (nonempty rest); [done|]. by destruct (valid (build caps)).
Qed.

(** X11: a block with a time row parses without an exception as soon as no
    cell of the time row is a number and no date cell reads as one of the
    texts pandas takes for a missing time ("", "NaT", "nan", ...): dates
    that do not parse, meta rows, labels in the time row and empty cells
    are all skipped silently. *)
Theorem X11_block_parses (cfg : config) (reference_date : timestamp)
    (block : DataFrame) (label : nat) (header : list cell) :
  columns block ≠ [] →
  rows block !! 2%nat = Some (label, header) →
  (∀ pos repr, at_pos header pos ≠ Num repr) →
  Forall (λ r, isna (at_pos r.2 0) = true ∨ is_null (str (at_pos r.2 0)) = false)
         (drop 3 (rows block)) →
  ∃ tr, block_trace cfg reference_date block = Ok tr.
Proof.
  intros Hcols Hrow2 Hnum Hdates. unfold block_trace.
  destruct (columns block) as [|date_col cols]; [done|].
  apply collect_total, Forall_forall. intros [pos col] _. simpl.
  unfold column_trace. rewrite Hrow2.
  destruct (at_pos header pos) as [|interval|repr] eqn:Hcell; [eauto| |].
  2:{ by destruct (Hnum pos repr). }
  destruct (_parse_time_and_duration cfg interval) as [[start_time duration]|];
    [|eauto].
  destruct (negb _); [eauto|].
  apply collect_total. eapply Forall_impl; [exact Hdates|].
  intros [r cells] Hr. simpl in *.
  assert (∃ es, cell_entries cfg reference_date start_time duration
                  (at_pos cells 0) (at_pos cells pos) = Ok es) as [es ->]; [|simpl; eauto].
  unfold cell_entries.
  destruct Hr as [Hna|Hnull]; [rewrite Hna; simpl; eauto|].
  destruct (isna (at_pos cells 0) || _); [eauto|].
  destruct (to_datetime (Format_Date cfg) (str (at_pos cells 0))) as [[|d]|] eqn:Hd;
    [|destruct (team_list cfg (at_pos cells pos)); eauto|eauto].
  apply to_datetime_nat in Hd. congruence.
Qed.

End Raising.

Lemma X10_short_sheet_raises_witness :
  ScheduleParser.parse_schedule ScheduleParser.DEFAULT_CONFIG (Cal.mkTs 2025 9 2 0 0)
    (frame_of_grid [[Str "Monday"; NaN]; [Str "Date"; Str "Time"]])
  = Raise IndexError.
Proof.
  apply (X10_short_sheet_raises ScheduleParser.DEFAULT_CONFIG (Cal.mkTs 2025 9 2 0 0)
           (frame_of_grid [[Str "Monday"; NaN]; [Str "Date"; Str "Time"]])
           1%nat [Str "Date"; Str "Time"] 0%nat []);
    try reflexivity; simpl; lia.
Defined.

Lemma X11_block_parses_witness :
  ∃ tr, ScheduleParser.block_trace ScheduleParser.DEFAULT_CONFIG
          (Cal.mkTs 2025 7 21 0 0) block_ex = Ok tr.
Proof.
  apply (X11_block_parses ScheduleParser.DEFAULT_CONFIG (Cal.mkTs 2025 7 21 0 0)
           block_ex 2%nat
           [NaN; Str "6 pm - 7:15 pm"; Str "Time"; Str "8 pm - 9 pm"]).
  - discriminate.
  - reflexivity.
  - intros pos repr. do 4 (destruct pos as [|pos]; [discriminate|]). discriminate.
  - apply (bool_decide_unpack _). vm_compute. exact I.
Defined.

(** ** Dates under the default pattern *)

Section DateRoundTrip.

Import PyStr Cal Fmt ScheduleParser.

Lemma all_from_spec (fuel : nat) (y0 : Z) (P : Z → bool) :
  all_from fuel y0 P = true → ∀ y, y0 ≤ y < y0 + Z.of_nat fuel → P y = true.
Proof.
  revert y0. induction fuel as [|f IH]; intros y0 H y Hy; [lia|].
  simpl in H. apply andb_true_iff in H as [H0 H].
  destruct (decide (y = y0)) as [->|Hne]; [done|].
  apply (IH (y0 + 1) H). lia.
Qed.

Lemma year_text_check :
  all_from (Z.to_nat 9000) 1000
    (λ y, String.eqb (of_Z y) (four_digits y) && (int (four_digits y) =? y)
          && match candidates dY (four_digits y) with
             | (m, rest) :: _ => String.eqb m (four_digits y) && negb (nonempty rest)
             | [] => false
             end)
  = true.
Proof. vm_compute. reflexivity. Qed.

(** A year from 1000 to 9999 is written on four digits, which read back as
    the year. *)
Lemma year_four_digits (y : Z) :
  1000 ≤ y ≤ 9999 →
  of_Z y = four_digits y ∧ int (four_digits y) = y ∧
  head (candidates dY (four_digits y)) = Some (four_digits y, "").
Proof.
  intros Hy.
  pose proof (all_from_spec _ _ _ year_text_check y ltac:(lia)) as H.
  apply andb_true_iff in H as [H H3]. apply andb_true_iff in H as [H1 H2].
  apply String.eqb_eq in H1. apply Z.eqb_eq in H2. split; [done|]. split; [done|].
  destruct (candidates dY (four_digits y)) as [|[m rest] l]; [done|].
  apply andb_true_iff in H3 as [Hm Hr]. apply String.eqb_eq in Hm.
  apply negb_true_iff, nonempty_false in Hr. simpl. by subst.
Qed.

Lemma short_year_check :
  all_from (Z.to_nat 999) 1
    (λ y, match rx_match [RDir dY] (of_Z y) with None => true | Some _ => false end
          && isdigit (match of_Z y with String c _ => c | EmptyString => " "%char end))
  = true.
Proof. vm_compute. reflexivity. Qed.

(** A year below 1000 is written on fewer than four digits, which [%Y] does
    not read. *)
Lemma short_year (y : Z) :
  1 ≤ y ≤ 999 → rx_match [RDir dY] (of_Z y) = None.
Proof.
  intros Hy.
  pose proof (all_from_spec _ _ _ short_year_check y ltac:(lia)) as H.
  apply andb_true_iff in H as [H _]. by destruct (rx_match [RDir dY] (of_Z y)).
Qed.

Lemma two_digits_cases (n : Z) (P : Z → Prop) :
  1 ≤ n ≤ 31 →
  P 1 → P 2 → P 3 → P 4 → P 5 → P 6 → P 7 → P 8 → P 9 → P 10 → P 11 → P 12 →
  P 13 → P 14 → P 15 → P 16 → P 17 → P 18 → P 19 → P 20 → P 21 → P 22 →
  P 23 → P 24 → P 25 → P 26 → P 27 → P 28 → P 29 → P 30 → P 31 → P n.
Proof.
  intros Hn. intros.
  assert (∃ k : nat, (k < 31)%nat ∧ n = Z.of_nat (S k)) as (k & Hk & ->).
  { exists (Z.to_nat (n - 1)). lia. }
  do 31 (destruct k as [|k]; [assumption|]). lia.
Qed.

Lemma two_digits_int (n : Z) : 1 ≤ n ≤ 31 → int (two_digits n) = n.
Proof. intros Hn. apply (two_digits_cases n); [done|..]; reflexivity. Qed.

Lemma day_prefix (n : Z) (r : list rx) (rest : string) :
  1 ≤ n ≤ 31 →
  rx_match (RDir dd :: RLit "/" :: r) (two_digits n +:+ "/" +:+ rest)
  = after_group dd (two_digits n) (rx_match r rest).
Proof.
  intros Hn. apply (two_digits_cases n); [done|..];
    (match goal with
     | |- context [two_digits ?k +:+ ?x] =>
         let t := eval vm_compute in (two_digits k) in
         change (two_digits k) with t;
         rewrite !app_cons; change ("" +:+ rest) with rest
     end; simpl; by destruct (rx_match r rest) as [[caps out]|]).
Qed.

Lemma month_prefix (n : Z) (r : list rx) (rest : string) :
  1 ≤ n ≤ 12 →
  rx_match (RDir dm :: RLit "/" :: r) (two_digits n +:+ "/" +:+ rest)
  = after_group dm (two_digits n) (rx_match r rest).
Proof.
  intros Hn. assert (H31 : 1 ≤ n ≤ 31) by lia. revert Hn.
  apply (two_digits_cases n); [done|..]; intros Hn; try lia;
    (match goal with
     | |- context [two_digits ?k +:+ ?x] =>
         let t := eval vm_compute in (two_digits k) in
         change (two_digits k) with t;
         rewrite !app_cons; change ("" +:+ rest) with rest
     end; simpl; by destruct (rx_match r rest) as [[caps out]|]).
Qed.

Lemma rx_match_head (d : directive) (r : list rx) (s m rest : string)
    (caps : list (directive * string)) (out : string) :
  head (candidates d s) = Some (m, rest) →
  rx_match r rest = Some (caps, out) →
  rx_match (RDir d :: r) s = Some ((d, m) :: caps, out).
Proof.
  intros Hhead Hr. simpl. destruct (candidates d s) as [|[m' rest'] l]; [done|].
  simpl in Hhead. injection Hhead as -> ->. simpl. by rewrite Hr.
Qed.

Lemma to_datetime_default_date (x : string) :
  to_datetime "%m/%d/%Y" x =
  if is_null x then Ok NaT
  else match rx_match [RDir dm; RLit "/"; RDir dd; RLit "/"; RDir dY] x with
       | None => Raise ValueError
       | Some (caps, rest) =>
           if nonempty rest then Raise ValueError
           else if valid (build caps) then Ok (Ts (build caps)) else Raise ValueError
       end.
Proof. reflexivity. Qed.

Lemma digit_char (k : Z) :
  0 ≤ k ≤ 9 → isdigit (ascii_of_nat (Z.to_nat (48 + k))) = true.
Proof.
  intros Hk.
  assert (∃ n : nat, (n < 10)%nat ∧ k = Z.of_nat n) as (n & Hn & ->).
  { exists (Z.to_nat k). lia. }
  do 10 (destruct n as [|n]; [reflexivity|]). lia.
Qed.

Lemma not_null_digit (c : ascii) (r : string) :
  isdigit c = true → is_null (String c r) = false.
Proof.
  intros Hc. apply bool_decide_eq_false_2. intros [H|H]; [done|].
  unfold nat_strings in H.
  repeat (apply elem_of_cons in H as [H|H];
          [injection H as -> _; by vm_compute in Hc|]).
  by apply elem_of_nil in H.
Qed.

Lemma valid_bounds (t : timestamp) :
  valid t = true →
  1 ≤ year t ∧ 1 ≤ month t ≤ 12 ∧ 1 ≤ day t ≤ 31.
Proof.
  unfold valid, days_in_month. rewrite !andb_true_iff.
  intros ((((Hy & Hm1) & Hm2) & Hd1) & Hd2).
  destruct (month t =? 2), (is_leap (year t)),
    ((month t =? 4) || (month t =? 6) || (month t =? 9) || (month t =? 11)); lia.
Qed.

(** The text of a date under the default pattern, and what the pattern's
    expression gives on it. *)
Lemma default_date_text (t : timestamp) :
  valid t = true →
  strftime "%m/%d/%Y" t
  = two_digits (month t) +:+ "/" +:+ two_digits (day t) +:+ "/" +:+ of_Z (year t) ∧
  is_null (strftime "%m/%d/%Y" t) = false ∧
  rx_match [RDir dm; RLit "/"; RDir dd; RLit "/"; RDir dY] (strftime "%m/%d/%Y" t)
  = after_group dm (two_digits (month t))
      (after_group dd (two_digits (day t)) (rx_match [RDir dY] (of_Z (year t)))).
Proof.
  intros Hvalid. destruct (valid_bounds t Hvalid) as (Hy1 & Hm & Hd).
  assert (Hfmt : strftime "%m/%d/%Y" t
    = two_digits (month t) +:+ "/" +:+ two_digits (day t) +:+ "/" +:+ of_Z (year t)).
  { change (strftime "%m/%d/%Y" t) with
      (zfill 2 (of_Z (month t)) +:+
       String "/" (zfill 2 (of_Z (day t)) +:+ String "/" (of_Z (year t) +:+ ""))).
    rewrite !zfill_two_digits by lia. by rewrite append_empty. }
  split; [done|]. rewrite Hfmt. split.
  - apply (not_null_digit (ascii_of_nat (Z.to_nat (48 + month t / 10)))).
    apply digit_char. pose proof (Z.div_pos (month t) 10 ltac:(lia) ltac:(lia)).
    assert (month t / 10 < 10) by (apply Z.div_lt_upper_bound; lia). lia.
  - rewrite (month_prefix (month t)) by done.
    by rewrite (day_prefix (day t)) by done.
Qed.

(** Under the default pattern a date of a year from 1000 on, written as
    text, reads back as the same date. *)
Lemma default_date_roundtrip (t : timestamp) :
  valid t = true → 1000 ≤ year t ≤ 9999 → hour t = 0 → minute t = 0 →
  strftime "%m/%d/%Y" t
  = two_digits (month t) +:+ "/" +:+ two_digits (day t) +:+ "/" +:+ four_digits (year t) ∧
  to_datetime "%m/%d/%Y" (strftime "%m/%d/%Y" t) = Ok (Ts t).
Proof.
  intros Hvalid Hy Hh Hmin.
  destruct (valid_bounds t Hvalid) as (Hy1 & Hm & Hd).
  destruct (year_four_digits (year t) Hy) as (Hz & Hint & Hcand).
  destruct (default_date_text t Hvalid) as (Hfmt & Hnull & Hrx).
  split; [by rewrite Hfmt, Hz|].
  rewrite to_datetime_default_date, Hnull, Hrx, Hz.
  rewrite (rx_match_head dY [] (four_digits (year t)) (four_digits (year t)) ""
             [] "" Hcand eq_refl).
  cbn [after_group nonempty].
  assert (Hb : build [(dm, two_digits (month t)); (dd, two_digits (day t));
                      (dY, four_digits (year t))] = t).
  { unfold build. cbn [fold_left apply_group fst snd year month day hour minute].
    rewrite Hint, !two_digits_int by lia. destruct t; simpl in *. by subst. }
  by rewrite Hb, Hvalid.
Qed.

(** A date of a year below 1000 is written with a year of fewer than four
    digits, and reading the text again raises. *)
Lemma default_date_short_year (t : timestamp) :
  valid t = true → year t < 1000 →
  to_datetime "%m/%d/%Y" (strftime "%m/%d/%Y" t) = Raise ValueError.
Proof.
  intros Hvalid Hy. destruct (valid_bounds t Hvalid) as (Hy1 & Hm & Hd).
  destruct (default_date_text t Hvalid) as (Hfmt & Hnull & Hrx).
  rewrite to_datetime_default_date, Hnull, Hrx, short_year by lia. done.
Qed.

Lemma match_four (p1 p2 p3 p4 : ascii → bool) (s m rest : string) :
  match_classes [p1; p2; p3; p4] s = Some (m, rest) →
  ∃ a b c d, m = String a (String b (String c (String d ""))) ∧
             p1 a = true ∧ p2 b = true ∧ p3 c = true ∧ p4 d = true.
Proof.
  simpl. destruct s as [|a [|b [|c [|d r]]]]; try done.
  - by destruct (p1 a).
  - destruct (p1 a); [|done]. by destruct (p2 b).
  - destruct (p1 a); [|done]. destruct (p2 b); [|done]. by destruct (p3 c).
  - destruct (p1 a) eqn:Ha; [|done]. destruct (p2 b) eqn:Hb; [|done].
    destruct (p3 c) eqn:Hc; [|done]. destruct (p4 d) eqn:Hd; [|done].
    intros [= <- _]. by exists a, b, c, d.
Qed.

Lemma cap_year (m : string) : cap_ok (dY, m) → 0 ≤ int m ≤ 9999.
Proof.
  intros (ps & s & rest & Hps & Hm). simpl in Hps, Hm.
  apply list_elem_of_singleton in Hps as ->.
  apply match_four in Hm as (a & b & c & d & -> & Ha & Hb & Hc & Hd).
  unfold int. simpl. rewrite Ha, Hb, Hc, Hd. unfold digit_val.
  apply isdigit_code in Ha, Hb, Hc, Hd. lia.
Qed.

(** A date read with the default pattern is a calendar date at midnight,
    with a year of four digits. *)
Lemma default_date_fields (s : string) (t : timestamp) :
  to_datetime "%m/%d/%Y" s = Ok (Ts t) →
  valid t = true ∧ year t ≤ 9999 ∧ hour t = 0 ∧ minute t = 0.
Proof.
  rewrite to_datetime_default_date. destruct (is_null s); [done|].
  destruct (rx_match _ s) as [[caps rest]|] eqn:Hm; [|done].
  destruct (nonempty rest); [done|].
  destruct (valid (build caps)) eqn:Hv; [|done]. intros [= <-].
  apply rx_match_caps in Hm as [Hd Hok].
  apply caps_shape3 in Hd as (m1 & m2 & m3 & ->).
  apply Forall_cons in Hok as [_ Hok]. apply Forall_cons in Hok as [_ Hok].
  apply Forall_cons in Hok as [H3 _]. apply cap_year in H3.
  split; [done|]. unfold build. simpl. lia.
Qed.

End DateRoundTrip.

(** ** The last step of [parse_schedule] *)

Section ScheduleOrder.

Import PyStr Cal Fmt ScheduleParser.

Lemma concat_filter_nonempty {A : Type} (l : list (list A)) :
  concat (filter (λ es : list A, es ≠ []) l) = concat l.
Proof.
  induction l as [|x l IH]; [done|]. rewrite filter_cons.
  destruct (decide (x ≠ [])) as [H|H]; simpl; [by rewrite IH|].
  apply dec_stable in H. by subst.
Qed.

Lemma insert_sorted_map {A B : Type} (key : B → datetime * string) (f : A → B)
    (x : A) (l : list A) :
  insert_sorted key (f x) (map f l) = map f (insert_sorted (λ a, key (f a)) x l).
Proof.
  induction l as [|y l IH]; [done|]. simpl.
  destruct (key_leb (key (f x)) (key (f y))); [done|]. simpl. by rewrite IH.
Qed.

Lemma sort_values_map {A B : Type} (key : B → datetime * string) (f : A → B)
    (l : list A) :
  sort_values key (map f l) = map f (sort_values (λ a, key (f a)) l).
Proof.
  induction l as [|x l IH]; [done|]. simpl. by rewrite IH, insert_sorted_map.
Qed.

Lemma collect_map {A B : Type} (f : A → result B) (g : A → B) (l : list A) :
  (∀ a, a ∈ l → f a = Ok (g a)) →
  collect (λ a, x ← f a; Ok [x]) l = Ok (map g l).
Proof.
  induction l as [|a l IH]; intros H; [done|]. simpl.
  rewrite (H a) by left. simpl. rewrite IH by (intros; apply H; by right). done.
Qed.

(** Every entry of a block is made from a date its row's date cell reads
    as. *)
Lemma block_trace_dated (cfg : config) (reference_date : timestamp)
    (block : DataFrame) (tr : list ((nat * nat) * entry))
    (ke : (nat * nat) * entry) :
  block_trace cfg reference_date block = Ok tr → ke ∈ tr →
  dated cfg reference_date ke.2.
Proof.
  unfold block_trace. intros Htr He.
  destruct (columns block) as [|date_col cols]; [done|].
  destruct (collect_ok_elem _ _ _ _ Htr He) as ([pos col'] & xs & _ & Hcol & Hx).
  simpl in Hcol. unfold column_trace in Hcol.
  destruct (rows block !! 2%nat) as [[label header]|]; [|done].
  destruct (at_pos header pos) as [|interval|]; try done.
  { injection Hcol as <-. by apply elem_of_nil in Hx. }
  destruct (_parse_time_and_duration cfg interval) as [[start_time duration]|].
  2:{ injection Hcol as <-. by apply elem_of_nil in Hx. }
  destruct (negb (nonempty start_time && nonempty duration)).
  { injection Hcol as <-. by apply elem_of_nil in Hx. }
  destruct (collect_ok_elem _ _ _ _ Hcol Hx) as ([r0 cells] & ys & _ & Hys & Hy).
  simpl in Hys.
  destruct (cell_entries cfg reference_date start_time duration
              (at_pos cells 0) (at_pos cells pos)) as [es|] eqn:Hes; [|done].
  injection Hys as <-. apply list_elem_of_fmap in Hy as (e' & -> & He').
  destruct (cell_entries_inv _ _ _ _ _ _ _ _ Hes He')
    as (_ & _ & d & teams & Hd & _ & _ & Heq).
  exists (str (at_pos cells 0)), d. simpl. rewrite Heq. done.
Qed.

Lemma parse_block_dated (cfg : config) (reference_date : timestamp)
    (block : DataFrame) (es : list entry) :
  _parse_block cfg reference_date block = Ok es →
  Forall (dated cfg reference_date) es.
Proof.
  unfold _parse_block.
  destruct (block_trace cfg reference_date block) as [tr|] eqn:Htr; [|done].
  simpl. intros [= <-]. apply Forall_forall. intros e He.
  apply list_elem_of_fmap in He as (ke & -> & Hke).
  by apply (block_trace_dated _ _ _ _ _ Htr).
Qed.

Lemma parsed_blocks_dated (cfg : config) (reference_date : timestamp)
    (blocks : list DataFrame) (parsed : list (list entry)) :
  collect (λ b, es ← _parse_block cfg reference_date b; Ok [es]) blocks = Ok parsed →
  Forall (dated cfg reference_date) (concat parsed).
Proof.
  intros H%collect_single. apply Forall_concat.
  induction H as [|b es bs ess Hb _ IH]; constructor; [|done].
  by apply (parse_block_dated _ _ b).
Qed.

(** With the default pattern, the date text of an entry made from the date
    [d] reads as [d] again, and is written back unchanged, when the year of
    [d] has four digits; it raises when the year is below 1000. *)
Lemma reparse_default (cfg : config) (e : entry) (s : string) (d : timestamp) :
  Format_Date cfg = "%m/%d/%Y" →
  to_datetime "%m/%d/%Y" s = Ok (Ts d) →
  Date e = Str (strftime "%m/%d/%Y" d) →
  valid d = true ∧ year d ≤ 9999 ∧ hour d = 0 ∧ minute d = 0 ∧
  if 1000 <=? year d
  then reads_back cfg e = true ∧ row_date cfg e = Ts d ∧
       reparse_date cfg e = Ok (row_date cfg e, e) ∧
       reformat_date cfg (row_date cfg e, e) = e ∧
       Date e = Str (two_digits (month d) +:+ "/" +:+ two_digits (day d)
                     +:+ "/" +:+ four_digits (year d))
  else reads_back cfg e = false ∧ reparse_date cfg e = Raise ValueError.
Proof.
  intros Hfmt Hd Hdate.
  destruct (default_date_fields _ _ Hd) as (Hv & Hy & Hh & Hmin).
  repeat (split; [done|]).
  unfold reads_back, reparse_date, row_date, reformat_date.
  rewrite Hdate, Hfmt. cbn [str].
  destruct (Z.leb_spec 1000 (year d)) as [Hlo|Hlo].
  - destruct (default_date_roundtrip d Hv ltac:(lia) Hh Hmin) as [Htxt Hrt].
    rewrite Hrt. split; [done|]. split; [done|]. split; [done|].
    split; [|by rewrite Htxt]. destruct e; simpl in *. by rewrite Hdate.
  - by rewrite (default_date_short_year d Hv Hlo).
Qed.

Lemma reparse_dated (cfg : config) (reference_date : timestamp) (e : entry) :
  Format_Date cfg = "%m/%d/%Y" → dated cfg reference_date e →
  if reads_back cfg e
  then reparse_date cfg e = Ok (row_date cfg e, e) ∧
       reformat_date cfg (row_date cfg e, e) = e
  else reparse_date cfg e = Raise ValueError.
Proof.
  intros Hfmt (s & d & Hd & _ & _ & Hdate). rewrite Hfmt in Hd, Hdate.
  destruct (reparse_default cfg e s d Hfmt Hd Hdate) as (_ & _ & _ & _ & H).
  destruct (1000 <=? year d).
  - by destruct H as (-> & _ & ? & ? & _).
  - by destruct H as (-> & ?).
Qed.

Lemma collect_reparse (cfg : config) (reference_date : timestamp)
    (entries : list entry) :
  Format_Date cfg = "%m/%d/%Y" → Forall (dated cfg reference_date) entries →
  collect (λ e, x ← reparse_date cfg e; Ok [x]) entries
  = if forallb (reads_back cfg) entries
    then Ok (map (λ e, (row_date cfg e, e)) entries)
    else Raise ValueError.
Proof.
  intros Hfmt. induction 1 as [|e es He _ IH]; [done|].
  cbn [collect forallb]. pose proof (reparse_dated cfg reference_date e Hfmt He) as H.
  destruct (reads_back cfg e).
  - destruct H as [-> _]. cbn. rewrite IH.
    by destruct (forallb (reads_back cfg) es).
  - by rewrite H.
Qed.

Lemma merge_default (cfg : config) (reference_date : timestamp)
    (entries : list entry) :
  Format_Date cfg = "%m/%d/%Y" → Forall (dated cfg reference_date) entries →
  merge_and_order cfg entries
  = if forallb (reads_back cfg) entries
    then Ok (numbered (sort_values (row_key cfg) entries))
    else Raise ValueError.
Proof.
  intros Hfmt Hall. unfold merge_and_order.
  rewrite (collect_reparse cfg reference_date entries Hfmt Hall).
  destruct (forallb (reads_back cfg) entries) eqn:Hrb; [|done].
  cbn. f_equal.
  rewrite (sort_values_map (λ de : datetime * entry, (de.1, Start_Time de.2))
             (λ e, (row_date cfg e, e))).
  change (λ a : entry, ((row_date cfg a, a).1, Start_Time (row_date cfg a, a).2))
    with (row_key cfg).
  unfold numbered. rewrite imap_fmap. apply imap_ext. intros i e Hi. simpl.
  f_equal.
  assert (He : e ∈ entries).
  { rewrite <- (sort_values_perm (row_key cfg)). apply list_elem_of_lookup. eauto. }
  rewrite Forall_forall in Hall.
  pose proof (reparse_dated cfg reference_date e Hfmt (Hall e He)) as H.
  rewrite forallb_forall in Hrb. rewrite (Hrb e) in H by (by apply list_elem_of_In).
  by destruct H.
Qed.

Lemma parse_schedule_default (cfg : config) (reference_date : timestamp)
    (df : DataFrame) :
  Format_Date cfg = "%m/%d/%Y" →
  parse_schedule cfg reference_date df =
  match rows df !! 1%nat with
  | None => Raise IndexError
  | Some (_, row1) =>
      parsed ← collect (λ b, es ← _parse_block cfg reference_date b; Ok [es])
                       (make_blocks df (find_date_cols row1));
      if forallb (reads_back cfg) (concat parsed)
      then Ok (numbered (sort_values (row_key cfg) (concat parsed)))
      else Raise ValueError
  end.
Proof.
  intros Hfmt. unfold parse_schedule.
  destruct (rows df !! 1%nat) as [[label row1]|]; [|done].
  destruct (collect _ (make_blocks df (find_date_cols row1))) as [parsed|] eqn:Hp;
    [|done]. cbn.
  pose proof (parsed_blocks_dated _ _ _ _ Hp) as Hall.
  rewrite <- (concat_filter_nonempty parsed) in Hall |- *.
  destruct (filter _ parsed) as [|es dfs]; [done|].
  by apply (merge_default cfg reference_date).
Qed.

(** The rows returned under the default pattern: the entries of the blocks,
    sorted and numbered, every one with a date text that reads back. *)
Lemma parse_schedule_returned (cfg : config) (reference_date : timestamp)
    (df : DataFrame) (out : list row) :
  Format_Date cfg = "%m/%d/%Y" →
  parse_schedule cfg reference_date df = Ok out →
  ∃ label row1 parsed,
    rows df !! 1%nat = Some (label, row1) ∧
    collect (λ b, es ← _parse_block cfg reference_date b; Ok [es])
            (make_blocks df (find_date_cols row1)) = Ok parsed ∧
    forallb (reads_back cfg) (concat parsed) = true ∧
    out = numbered (sort_values (row_key cfg) (concat parsed)).
Proof.
  intros Hfmt. rewrite (parse_schedule_default _ _ _ Hfmt).
  destruct (rows df !! 1%nat) as [[label row1]|]; [|done].
  destruct (collect _ _) as [parsed|] eqn:Hp; [|done]. cbn.
  destruct (forallb _ _) eqn:Hrb; [|done]. intros [= <-].
  by exists label, row1, parsed.
Qed.

End ScheduleOrder.

Section ScheduleRows.

Import PyStr Cal Fmt ScheduleParser.

Lemma fields_numbered (l : list entry) : map fields (numbered l) = l.
Proof.
  unfold numbered. change (map fields) with (fmap (M:=list) fields).
  rewrite fmap_imap.
  rewrite (imap_ext _ (const id) l) by done. rewrite imap_const. apply list_fmap_id.
Qed.

Lemma index_numbered (l : list entry) :
  map Index (numbered l) = map Z.of_nat (seq 0 (length l)).
Proof.
  unfold numbered. change (map Index) with (fmap (M:=list) Index).
  rewrite fmap_imap.
  rewrite (imap_ext _ (λ i _, Z.of_nat i) l) by done. apply imap_seq_0.
Qed.

Lemma ascending_map {A B : Type} (key : B → datetime * string) (f : A → B)
    (l : list A) :
  ascending key (map f l) ↔ ascending (λ a, key (f a)) l.
Proof.
  induction l as [|x [|y l] IH]; [done|done|].
  change (key_leb (key (f x)) (key (f y)) = true ∧ ascending key (map f (y :: l))
          ↔ key_leb (key (f x)) (key (f y)) = true
            ∧ ascending (λ a, key (f a)) (y :: l)).
  by rewrite IH.
Qed.

Lemma weekday_text (d : timestamp) : strftime "%A" d = weekday_name d.
Proof. unfold strftime. simpl. apply append_empty. Qed.

(** X12: with the default date pattern, reading the dates again and writing
    them back (lines 148 to 150) changes no row.  When the date text of
    every entry of the blocks reads back, [parse_schedule] returns the
    entries of the blocks, in the order of the blocks, sorted by date and
    start-time text and numbered from 0; when one does not, it raises
    [ValueError].  The date text of an entry made from the date [d] reads
    back exactly when the year of [d] is 1000 or later: an earlier year is
    written on fewer than four digits, which [%Y] does not read. *)
Theorem X12_default_dates_kept (cfg : config) (reference_date : timestamp)
    (df : DataFrame) :
  Format_Date cfg = "%m/%d/%Y" →
  parse_schedule cfg reference_date df =
  match rows df !! 1%nat with
  | None => Raise IndexError
  | Some (_, row1) =>
      parsed ← collect (λ b, es ← _parse_block cfg reference_date b; Ok [es])
                       (make_blocks df (find_date_cols row1));
      if forallb (reads_back cfg) (concat parsed)
      then Ok (numbered (sort_values (row_key cfg) (concat parsed)))
      else Raise ValueError
  end ∧
  ∀ block es e,
    _parse_block cfg reference_date block = Ok es → e ∈ es →
    ∃ d : timestamp,
      valid d = true ∧ Date e = Str (strftime "%m/%d/%Y" d) ∧
      (reads_back cfg e = true ↔ 1000 ≤ year d).
Proof.
  intros Hfmt. split; [by apply parse_schedule_default|].
  intros block es e Hes He.
  pose proof (parse_block_dated _ _ _ _ Hes) as Hall.
  rewrite Forall_forall in Hall.
  destruct (Hall e He) as (s & d & Hd & _ & _ & Hdate). rewrite Hfmt in Hd, Hdate.
  destruct (reparse_default cfg e s d Hfmt Hd Hdate) as (Hv & _ & _ & _ & H).
  exists d. split; [done|]. split; [done|].
  destruct (Z.leb_spec 1000 (year d)) as [Hlo|Hlo].
  - by destruct H as (-> & _).
  - destruct H as (-> & _). split; [done|lia].
Qed.

(** X13: with the default date pattern, the rows returned are in ascending
    order of the date their [Date] text reads as, then of their start time
    as text, and [Index] counts them from 0 in that order. *)
Theorem X13_rows_ascending (cfg : config) (reference_date : timestamp)
    (df : DataFrame) (out : list row) :
  Format_Date cfg = "%m/%d/%Y" →
  parse_schedule cfg reference_date df = Ok out →
  ascending (λ r, row_key cfg (fields r)) out ∧
  map Index out = map Z.of_nat (seq 0 (length out)).
Proof.
  intros Hfmt (label & row1 & parsed & _ & _ & _ & ->)%parse_schedule_returned;
    [|done]. split.
  - apply (ascending_map (row_key cfg) fields). rewrite fields_numbered.
    apply sort_values_ascending.
  - rewrite index_numbered. unfold numbered. by rewrite length_imap.
Qed.

(** X14: with the default date pattern, the rows returned are the entries of
    the blocks, each exactly once and unchanged, and rows with the same date
    and start time keep the order in which the blocks emitted them. *)
Theorem X14_rows_are_the_entries (cfg : config) (reference_date : timestamp)
    (df : DataFrame) (label : nat) (row1 : list cell)
    (parsed : list (list entry)) (out : list row) :
  Format_Date cfg = "%m/%d/%Y" →
  rows df !! 1%nat = Some (label, row1) →
  collect (λ b, es ← _parse_block cfg reference_date b; Ok [es])
          (make_blocks df (find_date_cols row1)) = Ok parsed →
  parse_schedule cfg reference_date df = Ok out →
  map fields out ≡ₚ concat parsed ∧
  ∀ k, filter (λ e, tied (row_key cfg) k e = true) (map fields out)
       = filter (λ e, tied (row_key cfg) k e = true) (concat parsed).
Proof.
  intros Hfmt Hrow1 Hp. rewrite (parse_schedule_default _ _ _ Hfmt), Hrow1, Hp.
  cbn. destruct (forallb _ _); [|done]. intros [= <-].
  rewrite fields_numbered. split.
  - apply sort_values_perm.
  - intros k. apply sort_values_stable.
Qed.

(** X15: whatever the configuration, the last step of [parse_schedule]
    writes the [Date] and [Index] columns only: the other five columns of
    the rows returned are those of the entries of the blocks, each entry
    once. *)
Theorem X15_other_columns_kept (cfg : config) (reference_date : timestamp)
    (df : DataFrame) (label : nat) (row1 : list cell)
    (parsed : list (list entry)) (out : list row) :
  rows df !! 1%nat = Some (label, row1) →
  collect (λ b, es ← _parse_block cfg reference_date b; Ok [es])
          (make_blocks df (find_date_cols row1)) = Ok parsed →
  parse_schedule cfg reference_date df = Ok out →
  map (λ r, other_fields (fields r)) out ≡ₚ map other_fields (concat parsed) ∧
  length out = length (concat parsed).
Proof.
  intros Hrow1 Hp. unfold parse_schedule. rewrite Hrow1. simpl. rewrite Hp. simpl.
  rewrite <- (concat_filter_nonempty parsed).
  assert (Hgen : ∀ entries, merge_and_order cfg entries = Ok out →
            map (λ r, other_fields (fields r)) out ≡ₚ map other_fields entries).
  { intros entries (keyed & Hk & _ & Hperm & ->)%merge_sorted.
    change (map (λ r, other_fields (fields r))) with
      (fmap (M:=list) (λ r : row, other_fields (fields r))).
    rewrite fmap_imap.
    rewrite (imap_ext _ (const (λ de : datetime * entry, other_fields de.2))) by done.
    rewrite imap_const, Hperm.
    assert (map (λ de : datetime * entry, other_fields de.2) keyed
            = map other_fields entries) as Heq.
    { clear Hperm. induction Hk as [|e de es des [He _] _ IH]; [done|].
      simpl. by rewrite IH, He. }
    change (map (λ de : datetime * entry, other_fields de.2) keyed
            ≡ₚ map other_fields entries). by rewrite Heq. }
  intros Hout.
  assert (Hperm : map (λ r, other_fields (fields r)) out
                  ≡ₚ map other_fields (concat (filter (λ es, es ≠ []) parsed))).
  { destruct (filter _ parsed) as [|es dfs]; [by injection Hout as <-|].
    by apply Hgen. }
  split; [done|]. apply Permutation_length in Hperm.
  by rewrite !length_map in Hperm.
Qed.

(** X16: with the default date pattern, every row returned carries the date
    [d] its [Date] text reads as: the text is the month and the day on two
    digits and the year on four, [Day] is the name of the weekday of [d],
    and [Week] is the number of whole weeks from the reference date to
    [d]. *)
Theorem X16_row_date_fields (cfg : config) (reference_date : timestamp)
    (df : DataFrame) (out : list row) (r : row) :
  Format_Date cfg = "%m/%d/%Y" →
  parse_schedule cfg reference_date df = Ok out → r ∈ out →
  ∃ d : timestamp,
    valid d = true ∧ year d ≤ 9999 ∧ hour d = 0 ∧ minute d = 0 ∧
    row_date cfg (fields r) = Ts d ∧
    Date (fields r) = Str (two_digits (month d) +:+ "/" +:+ two_digits (day d)
                           +:+ "/" +:+ four_digits (year d)) ∧
    Day (fields r) = weekday_name d ∧
    Week (fields r) = week_of reference_date d.
Proof.
  intros Hfmt (label & row1 & parsed & _ & Hp & Hrb & ->)%parse_schedule_returned
         Hr; [|done].
  assert (He : fields r ∈ concat parsed).
  { rewrite <- (sort_values_perm (row_key cfg)), <- fields_numbered.
    apply list_elem_of_fmap. eauto. }
  pose proof (parsed_blocks_dated _ _ _ _ Hp) as Hall.
  rewrite Forall_forall in Hall.
  destruct (Hall _ He) as (s & d & Hd & Hw & Hday & Hdate).
  rewrite Hfmt in Hd, Hdate.
  destruct (reparse_default cfg (fields r) s d Hfmt Hd Hdate)
    as (Hv & Hy & Hh & Hmin & H).
  rewrite forallb_forall in Hrb.
  specialize (Hrb (fields r) (proj1 (list_elem_of_In _ _) He)).
  destruct (1000 <=? year d).
  - destruct H as (_ & Hrd & _ & _ & Htxt). exists d.
    repeat (split; [done|]). split; [by rewrite Hday, weekday_text|done].
  - destruct H as (H & _). congruence.
Qed.

End ScheduleRows.

Lemma X12_default_dates_kept_witness :
  ScheduleParser.parse_schedule ScheduleParser.DEFAULT_CONFIG
    (Cal.mkTs 2025 7 21 0 0) sheet_old_year =
  match rows sheet_old_year !! 1%nat with
  | None => Raise IndexError
  | Some (_, row1) =>
      parsed ← ScheduleParser.collect
                 (λ b, es ← ScheduleParser._parse_block ScheduleParser.DEFAULT_CONFIG
                              (Cal.mkTs 2025 7 21 0 0) b; Ok [es])
                 (ScheduleParser.make_blocks sheet_old_year
                    (ScheduleParser.find_date_cols row1));
      if forallb (reads_back ScheduleParser.DEFAULT_CONFIG) (concat parsed)
      then Ok (numbered (ScheduleParser.sort_values
                           (row_key ScheduleParser.DEFAULT_CONFIG) (concat parsed)))
      else Raise ValueError
  end ∧
  ∀ block es e,
    ScheduleParser._parse_block ScheduleParser.DEFAULT_CONFIG
      (Cal.mkTs 2025 7 21 0 0) block = Ok es → e ∈ es →
    ∃ d : Cal.timestamp,
      Cal.valid d = true ∧ ScheduleParser.Date e = Str (Fmt.strftime "%m/%d/%Y" d) ∧
      (reads_back ScheduleParser.DEFAULT_CONFIG e = true ↔ 1000 ≤ Cal.year d).
Proof. apply X12_default_dates_kept. reflexivity. Defined.

(** A date of the year 999: the block writes it as 01/01/999, and the last
    step raises on that text. *)
Example old_year_raises :
  ScheduleParser.Date <$>
    default [] (match ScheduleParser.make_blocks sheet_old_year [0%nat] with
                | b :: _ => match ScheduleParser._parse_block
                                    ScheduleParser.DEFAULT_CONFIG
                                    (Cal.mkTs 2025 7 21 0 0) b with
                            | Ok es => Some es
                            | Raise _ => None
                            end
                | [] => None
                end)
  = [Str "01/01/999"; Str "01/01/999"] ∧
  ScheduleParser.parse_schedule ScheduleParser.DEFAULT_CONFIG
    (Cal.mkTs 2025 7 21 0 0) sheet_old_year = Raise ValueError.
Proof. split; vm_compute; reflexivity. Qed.

Lemma X13_rows_ascending_witness :
  ∃ out, ScheduleParser.parse_schedule ScheduleParser.DEFAULT_CONFIG
           (Cal.mkTs 2025 7 21 0 0) sheet_mornings = Ok out ∧
         length out = 2%nat ∧
         ascending (λ r, row_key ScheduleParser.DEFAULT_CONFIG
                           (ScheduleParser.fields r)) out ∧
         map ScheduleParser.Index out = map Z.of_nat (seq 0 (length out)).
Proof.
  eexists. split; [vm_compute; reflexivity|]. split; [reflexivity|].
  apply (X13_rows_ascending ScheduleParser.DEFAULT_CONFIG (Cal.mkTs 2025 7 21 0 0)
           sheet_mornings); [reflexivity | vm_compute; reflexivity].
Defined.

Lemma X14_rows_are_the_entries_witness :
  ∃ parsed out,
    length (concat parsed) = 3%nat ∧
    map ScheduleParser.fields out ≡ₚ concat parsed ∧
    ∀ k, filter (λ e, tied (row_key ScheduleParser.DEFAULT_CONFIG) k e = true)
                (map ScheduleParser.fields out)
         = filter (λ e, tied (row_key ScheduleParser.DEFAULT_CONFIG) k e = true)
                  (concat parsed).
Proof.
  eexists _, _. split; [|
    eapply (X14_rows_are_the_entries ScheduleParser.DEFAULT_CONFIG
              (Cal.mkTs 2025 7 21 0 0) sheet_ex);
      [reflexivity | vm_compute; reflexivity | vm_compute; reflexivity
      | vm_compute; reflexivity] ].
  vm_compute. reflexivity.
Defined.

Lemma X15_other_columns_kept_witness :
  ∃ parsed out,
    ScheduleParser.parse_schedule ScheduleParser.DEFAULT_CONFIG
      (Cal.mkTs 2025 7 21 0 0) sheet_ex = Ok out ∧
    map (λ r, other_fields (ScheduleParser.fields r)) out
      ≡ₚ map other_fields (concat parsed) ∧
    length out = length (concat parsed).
Proof.
  eexists _, _. split; [vm_compute; reflexivity|].
  eapply (X15_other_columns_kept ScheduleParser.DEFAULT_CONFIG
            (Cal.mkTs 2025 7 21 0 0) sheet_ex);
    [vm_compute; reflexivity | vm_compute; reflexivity | vm_compute; reflexivity].
Defined.

Lemma X16_row_date_fields_witness :
  ∃ d : Cal.timestamp,
    Cal.valid d = true ∧ Cal.year d ≤ 9999 ∧ Cal.hour d = 0 ∧ Cal.minute d = 0 ∧
    row_date ScheduleParser.DEFAULT_CONFIG
      (ScheduleParser.mkEntry 0 "Saturday" (Str "07/26/2025") "10:00 AM" "1:00" "B")
    = Cal.Ts d ∧
    Str "07/26/2025"
    = Str (two_digits (Cal.month d) +:+ "/" +:+ two_digits (Cal.day d)
           +:+ "/" +:+ four_digits (Cal.year d)) ∧
    "Saturday" = Cal.weekday_name d ∧
    0 = ScheduleParser.week_of (Cal.mkTs 2025 7 21 0 0) d.
Proof.
  apply (X16_row_date_fields ScheduleParser.DEFAULT_CONFIG (Cal.mkTs 2025 7 21 0 0)
           sheet_mornings
           [ ScheduleParser.mkRow 0
               (ScheduleParser.mkEntry 0 "Saturday" (Str "07/26/2025") "10:00 AM"
                  "1:00" "B");
             ScheduleParser.mkRow 1
               (ScheduleParser.mkEntry 0 "Saturday" (Str "07/26/2025") "9:00 AM"
                  "1:00" "A") ]
           (ScheduleParser.mkRow 0
              (ScheduleParser.mkEntry 0 "Saturday" (Str "07/26/2025") "10:00 AM"
                 "1:00" "B")));
    [reflexivity | vm_compute; reflexivity | left].
Defined.

(** ** The two time patterns *)

Section PatternOrder.

Import PyStr Cal Fmt ScheduleParser.

Lemma match_one_src (p : ascii → bool) (s m rest : string) :
  match_classes [p] s = Some (m, rest) → ∃ a, s = String a rest ∧ p a = true.
Proof.
  simpl. destruct s as [|a r]; [done|]. destruct (p a) eqn:Ha; [|done].
  intros [= _ <-]. eauto.
Qed.

Lemma match_two_src (p q : ascii → bool) (s m rest : string) :
  match_classes [p; q] s = Some (m, rest) →
  ∃ a b, s = String a (String b rest) ∧ p a = true ∧ q b = true.
Proof.
  simpl. destruct s as [|a [|b r]]; [done| |].
  - by destruct (p a).
  - destruct (p a) eqn:Ha; [|done]. destruct (q b) eqn:Hb; [|done].
    intros [= _ <-]. eauto.
Qed.

(** The hour group takes one character, or two of which the second is a
    digit. *)
Lemma hour_candidates (x m rest : string) :
  (m, rest) ∈ candidates dI x →
  (∃ a, x = String a rest) ∨
  (∃ a b, x = String a (String b rest) ∧ isdigit b = true).
Proof.
  unfold candidates. intros (ps & Hps & Hm)%list_elem_of_omap. simpl in Hps.
  repeat (apply elem_of_cons in Hps as [->|Hps]).
  - apply match_two_src in Hm as (a & b & -> & Ha & Hb). right. exists a, b.
    split; [done|]. apply range_code in Hb.
    pose proof code_vals as (? & ? & ? & ? & ?). apply isdigit_code. lia.
  - apply match_two_src in Hm as (a & b & -> & Ha & Hb). right. exists a, b.
    split; [done|]. apply range_code in Hb.
    pose proof code_vals as (? & ? & ? & ? & ?). apply isdigit_code. lia.
  - apply match_one_src in Hm as (a & -> & _). left. eauto.
  - by apply elem_of_nil in Hps.
Qed.

Lemma ws_head (s rest : string) :
  rest ∈ ws_candidates s → ∃ c s', s = String c s' ∧ isspace c = true.
Proof.
  destruct s as [|c s']; simpl.
  - intros H. by apply elem_of_nil in H.
  - destruct (isspace c) eqn:Hc; [eauto|]. intros H. by apply elem_of_nil in H.
Qed.

Lemma char_classes_apart (c : ascii) :
  (isspace c = true → ci ":" c = false) ∧
  (isdigit c = true → isspace c = false ∧ ci ":" c = false).
Proof. destruct c as [[] [] [] [] [] [] [] []]; vm_compute; by split. Qed.

(** What follows the hour under each pattern: white space under the first,
    a colon under the second. *)
Lemma bare_after_hour (x : string) (r : list (directive * string) * string) :
  rx_match [RDir dI; RWs; RDir dp] x = Some r →
  ∃ rest c s', ((∃ a, x = String a rest) ∨
                (∃ a b, x = String a (String b rest) ∧ isdigit b = true)) ∧
               rest = String c s' ∧ isspace c = true.
Proof.
  simpl. intros ([m rest] & Hc%hour_candidates & Hm)%first_some_elem.
  destruct (first_some _ (ws_candidates rest)) as [[caps out]|] eqn:Hws; [|done].
  apply first_some_elem in Hws as (rest' & (c & s' & -> & Hsp)%ws_head & _).
  exists (String c s'), c, s'. done.
Qed.

Lemma minutes_after_hour (x : string) (r : list (directive * string) * string) :
  rx_match [RDir dI; RLit ":"; RDir dM; RWs; RDir dp] x = Some r →
  ∃ rest c s', ((∃ a, x = String a rest) ∨
                (∃ a b, x = String a (String b rest) ∧ isdigit b = true)) ∧
               rest = String c s' ∧ ci ":" c = true.
Proof.
  intros ([m rest] & Hc%hour_candidates & Hm)%first_some_elem.
  destruct rest as [|c s']; [done|].
  destruct (ci ":" c) eqn:Hci; [|done].
  exists (String c s'), c, s'. done.
Qed.

Lemma patterns_apart (x : string) (r1 r2 : list (directive * string) * string) :
  rx_match [RDir dI; RWs; RDir dp] x = Some r1 →
  rx_match [RDir dI; RLit ":"; RDir dM; RWs; RDir dp] x = Some r2 → False.
Proof.
  intros (rest1 & c1 & s1 & H1 & -> & Hsp)%bare_after_hour
         (rest2 & c2 & s2 & H2 & -> & Hci)%minutes_after_hour.
  destruct H1 as [(a & ->)|(a & b & -> & Hb)],
           H2 as [(a' & Heq)|(a' & b' & Heq & Hb')];
    injection Heq as <-; intros; subst.
  - apply char_classes_apart in Hsp. congruence.
  - apply char_classes_apart in Hb' as [? _]. congruence.
  - apply char_classes_apart in Hb as [_ ?]. congruence.
  - apply char_classes_apart in Hsp. congruence.
Qed.

Lemma attempts_exclusive (x : string) (a b : timestamp) :
  to_datetime "%I %p" x = Ok (Ts a) → to_datetime "%I:%M %p" x = Ok (Ts b) → False.
Proof.
  rewrite to_datetime_bare, to_datetime_minutes.
  destruct (is_null x); [done|].
  destruct (rx_match [RDir dI; RWs; RDir dp] x) as [r1|] eqn:H1; [|done].
  destruct (rx_match [RDir dI; RLit ":"; RDir dM; RWs; RDir dp] x) as [r2|] eqn:H2;
    [|by intros _ ?]. destruct (patterns_apart x r1 r2 H1 H2).
Qed.

(** X17: no text is read as a time by both patterns of
    [time_format_attempts], so trying them in the other order gives the same
    value for every text. *)
Theorem X17_time_patterns_exclusive (x : string) :
  ¬ (∃ a b, to_datetime "%I %p" x = Ok (Ts a) ∧
            to_datetime "%I:%M %p" x = Ok (Ts b)) ∧
  first_parsed (reverse time_format_attempts) x
  = first_parsed time_format_attempts x.
Proof.
  split.
  - intros (a & b & Ha & Hb). by apply (attempts_exclusive x a b).
  - change (reverse time_format_attempts) with ["%I:%M %p"; "%I %p"].
    unfold time_format_attempts, first_parsed.
    pose proof (attempts_exclusive x) as Hex.
    rewrite to_datetime_bare, to_datetime_minutes in *.
    destruct (is_null x); [done|].
    destruct (rx_match [RDir dI; RWs; RDir dp] x) as [[c1 r1]|];
      destruct (rx_match [RDir dI; RLit ":"; RDir dM; RWs; RDir dp] x) as [[c2 r2]|];
      try destruct (nonempty r1); try destruct (nonempty r2);
      try destruct (valid (build c1)); try destruct (valid (build c2));
      try done; destruct (Hex _ _ eq_refl eq_refl).
Qed.

End PatternOrder.

(** ** Settings that are not read *)

Section UnusedSettings.

Import PyStr Cal Fmt ScheduleParser.

(** X19: the [Duration] pattern of the configuration is never read; the
    replacement text is not read when empty cells are omitted; the separator
    is not read when splitting is skipped.  Changing one of them changes
    nothing in the result of [parse_schedule], exception included. *)
Theorem X19_unused_settings (fd ft dur dur' : string) (omit : bool)
    (rep rep' : string) (skip : bool) (sep sep' : string)
    (reference_date : timestamp) (df : DataFrame) :
  parse_schedule (mkConfig fd ft dur omit rep skip sep) reference_date df
  = parse_schedule (mkConfig fd ft dur' omit rep skip sep) reference_date df ∧
  parse_schedule (mkConfig fd ft dur true rep skip sep) reference_date df
  = parse_schedule (mkConfig fd ft dur true rep' skip sep) reference_date df ∧
  parse_schedule (mkConfig fd ft dur omit rep true sep) reference_date df
  = parse_schedule (mkConfig fd ft dur omit rep true sep') reference_date df.
Proof. repeat split; reflexivity. Qed.

End UnusedSettings.

(** ** Trimmed texts *)

Section StripFacts.

Import PyStr.

Lemma lstrip_idem (s : string) : lstrip (lstrip s) = lstrip s.
Proof.
  induction s as [|c r IH]; [done|]. simpl.
  destruct (isspace c) eqn:Hc; [done|]. simpl. by rewrite Hc.
Qed.

Lemma rstrip_cons (c : ascii) (r : string) :
  rstrip (String c r) =
  match rstrip r with
  | EmptyString => if isspace c then EmptyString else String c EmptyString
  | r' => String c r'
  end.
Proof. done. Qed.

Lemma rstrip_idem (s : string) : rstrip (rstrip s) = rstrip s.
Proof.
  induction s as [|c r IH]; [done|]. rewrite rstrip_cons.
  destruct (rstrip r) as [|x r'] eqn:Hr.
  - destruct (isspace c) eqn:Hc; [done|]. rewrite rstrip_cons. simpl. by rewrite Hc.
  - rewrite rstrip_cons, IH. done.
Qed.

Lemma rstrip_lstrip (s : string) : rstrip (lstrip s) = lstrip (rstrip s).
Proof.
  induction s as [|c r IH]; [done|]. rewrite rstrip_cons.
  cbn [lstrip]. destruct (isspace c) eqn:Hc.
  - rewrite IH. destruct (rstrip r) as [|x r']; [done|].
    cbn [lstrip]. by rewrite Hc.
  - rewrite rstrip_cons. destruct (rstrip r) as [|x r']; cbn [lstrip]; by rewrite Hc.
Qed.

Lemma strip_idem (s : string) : strip (strip s) = strip s.
Proof.
  unfold strip. by rewrite rstrip_lstrip, lstrip_idem, rstrip_idem.
Qed.

End StripFacts.

(** ** Participants *)

Section TeamFacts.

Import PyStr Cal Fmt ScheduleParser.

(** The participants of a cell: the replacement alone for an empty cell,
    trimmed non-empty tokens otherwise. *)
Lemma team_list_tokens (cfg : config) (team_entry : cell) (teams : list string) :
  team_list cfg team_entry = Some teams →
  (Missing_Omit cfg = false ∧ teams = [Missing_Replacement cfg]) ∨
  Forall (λ t, t ≠ "" ∧ strip t = t) teams.
Proof.
  unfold team_list.
  set (team_str := if isna team_entry then "" else strip (str team_entry)).
  assert (Hidem : strip team_str = team_str).
  { unfold team_str. destruct (isna team_entry); [done|apply strip_idem]. }
  destruct (nonempty team_str) eqn:Hne; simpl.
  - intros H. right. destruct (Split_Skip cfg).
    + injection H as <-. constructor; [|done]. split; [|done].
      intros Heq. by rewrite Heq in Hne.
    + injection H as <-. apply Forall_forall. intros t Ht.
      apply list_elem_of_filter in Ht as [Hn Ht].
      apply list_elem_of_fmap in Ht as (p & -> & _).
      split; [|apply strip_idem]. intros Heq. by rewrite Heq in Hn.
  - destruct (Missing_Omit cfg); [done|]. intros [= <-]. by left.
Qed.

Lemma block_trace_team (cfg : config) (reference_date : timestamp)
    (block : DataFrame) (tr : list ((nat * nat) * entry))
    (ke : (nat * nat) * entry) :
  block_trace cfg reference_date block = Ok tr → ke ∈ tr →
  ∃ team_entry teams,
    team_list cfg team_entry = Some teams ∧ Team ke.2 ∈ teams.
Proof.
  unfold block_trace. intros Htr He.
  destruct (columns block) as [|date_col cols]; [done|].
  destruct (collect_ok_elem _ _ _ _ Htr He) as ([pos col'] & xs & _ & Hcol & Hx).
  simpl in Hcol. unfold column_trace in Hcol.
  destruct (rows block !! 2%nat) as [[label header]|]; [|done].
  destruct (at_pos header pos) as [|interval|]; try done.
  { injection Hcol as <-. by apply elem_of_nil in Hx. }
  destruct (_parse_time_and_duration cfg interval) as [[start_time duration]|].
  2:{ injection Hcol as <-. by apply elem_of_nil in Hx. }
  destruct (negb (nonempty start_time && nonempty duration)).
  { injection Hcol as <-. by apply elem_of_nil in Hx. }
  destruct (collect_ok_elem _ _ _ _ Hcol Hx) as ([r0 cells] & ys & _ & Hys & Hy).
  simpl in Hys.
  destruct (cell_entries cfg reference_date start_time duration
              (at_pos cells 0) (at_pos cells pos)) as [es|] eqn:Hes; [|done].
  injection Hys as <-. apply list_elem_of_fmap in Hy as (e' & -> & He').
  destruct (cell_entries_inv _ _ _ _ _ _ _ _ Hes He')
    as (_ & _ & d & teams & _ & Hteams & Hin & _).
  exists (at_pos cells pos), teams. done.
Qed.

(** X18: a participant emitted by a block is never empty and never has
    white space around it, unless it is the replacement text of the
    configuration, which is emitted as it stands. *)
Theorem X18_team_is_trimmed (cfg : config) (reference_date : timestamp)
    (block : DataFrame) (es : list entry) (e : entry) :
  _parse_block cfg reference_date block = Ok es → e ∈ es →
  (Missing_Omit cfg = false ∧ Team e = Missing_Replacement cfg) ∨
  (Team e ≠ "" ∧ strip (Team e) = Team e).
Proof.
  unfold _parse_block.
  destruct (block_trace cfg reference_date block) as [tr|] eqn:Htr; [|done].
  simpl. intros [= <-] He. apply list_elem_of_fmap in He as (ke & -> & Hke).
  destruct (block_trace_team _ _ _ _ _ Htr Hke) as (cell & teams & Hteams & Hin).
  destruct (team_list_tokens _ _ _ Hteams) as [[Homit ->]|Hall].
  - left. apply list_elem_of_singleton in Hin. done.
  - right. rewrite Forall_forall in Hall. by apply Hall.
Qed.

End TeamFacts.

Lemma X18_team_is_trimmed_witness :
  (ScheduleParser.Missing_Omit ScheduleParser.DEFAULT_CONFIG = false ∧
   "16U" = ScheduleParser.Missing_Replacement ScheduleParser.DEFAULT_CONFIG) ∨
  ("16U" ≠ "" ∧ PyStr.strip "16U" = "16U").
Proof.
  eapply (X18_team_is_trimmed ScheduleParser.DEFAULT_CONFIG (Cal.mkTs 2025 7 21 0 0)
            block_ex _
            (ScheduleParser.mkEntry 0 "Monday" (Str "07/21/2025") "6:00 PM" "1:15"
               "16U")).
  - vm_compute. reflexivity.
  - left.
Defined.

(** ** The configuration file beside the schedule *)

Section SiblingPath.

Import PyStr ScheduleParser.

Lemma dirname_head_none (b : string) :
  has_char "/" b = false → dirname_head b = "".
Proof. destruct b as [|c r]; [done|]. cbn [dirname_head]. by intros ->. Qed.

Lemma dirname_head_app (a b : string) :
  dirname_head (a +:+ String "/" b) = a +:+ String "/" (dirname_head b).
Proof.
  induction a as [|c a IH]; [done|].
  rewrite !app_cons. cbn [dirname_head has_char]. rewrite has_char_app.
  cbn [has_char]. rewrite Ascii.eqb_refl. cbn [orb]. rewrite !orb_true_r.
  by rewrite IH.
Qed.

Lemma dirname_head_slashes (d b : string) :
  all_slashes d = true → has_char "/" b = false → dirname_head (d +:+ b) = d.
Proof.
  intros Hd Hb. induction d as [|c d IH]; [by apply dirname_head_none|].
  cbn [all_slashes] in Hd. apply andb_true_iff in Hd as [Hc Hd].
  rewrite app_cons. cbn [dirname_head has_char]. rewrite Hc. cbn [orb].
  by rewrite IH.
Qed.

Lemma rstrip_slash_cons (c : ascii) (r : string) :
  rstrip_slash (String c r) =
  match rstrip_slash r with
  | EmptyString => if Ascii.eqb c "/" then EmptyString else String c EmptyString
  | r' => String c r'
  end.
Proof. done. Qed.

Lemma endswith_slash_cons (c : ascii) (r : string) :
  endswith_slash (String c r) =
  match r with EmptyString => Ascii.eqb c "/" | _ => endswith_slash r end.
Proof. by destruct r. Qed.

Lemma rstrip_slash_end (s : string) : endswith_slash (rstrip_slash s) = false.
Proof.
  induction s as [|c r IH]; [done|]. rewrite rstrip_slash_cons.
  destruct (rstrip_slash r) as [|x r'] eqn:Hr.
  - destruct (Ascii.eqb c "/") eqn:Hc; [done|]. by rewrite endswith_slash_cons.
  - by rewrite endswith_slash_cons.
Qed.

Lemma rstrip_slash_nonempty (s : string) :
  all_slashes s = false → nonempty (rstrip_slash s) = true.
Proof.
  induction s as [|c r IH]; [done|]. rewrite rstrip_slash_cons.
  cbn [all_slashes]. intros H.
  destruct (rstrip_slash r) as [|x r'] eqn:Hr; [|done].
  destruct (Ascii.eqb c "/"); [|done]. simpl in H. by specialize (IH H).
Qed.

Lemma rstrip_slash_fix (s : string) :
  endswith_slash s = false → rstrip_slash s = s.
Proof.
  induction s as [|c r IH]; [done|].
  rewrite endswith_slash_cons, rstrip_slash_cons. destruct r as [|x r'].
  - by intros ->.
  - intros H. by rewrite (IH H).
Qed.

Lemma rstrip_slash_app (a : string) : rstrip_slash (a +:+ "/") = rstrip_slash a.
Proof.
  induction a as [|c a IH]; [done|].
  by rewrite app_cons, !rstrip_slash_cons, IH.
Qed.

Lemma all_slashes_app (a : string) : all_slashes (a +:+ "/") = all_slashes a.
Proof.
  induction a as [|c a IH]; [done|].
  rewrite app_cons. cbn [all_slashes]. by rewrite IH.
Qed.

Lemma all_slashes_end (d : string) :
  all_slashes d = true → nonempty d = true → endswith_slash d = true.
Proof.
  induction d as [|c d IH]; [done|]. cbn [all_slashes].
  intros [Hc Hd]%andb_true_iff _. rewrite endswith_slash_cons.
  destruct d as [|x d']; [done|]. by apply IH.
Qed.

Lemma basename_plain (b : string) : has_char "/" b = false → Paths.basename b = b.
Proof. destruct b as [|c r]; [done|]. cbn [Paths.basename]. by intros ->. Qed.

Lemma basename_app (a b : string) :
  has_char "/" b = false → Paths.basename (a +:+ String "/" b) = b.
Proof.
  intros Hb. induction a as [|c a IH].
  - change ("" +:+ String "/" b) with (String "/" b).
    cbn [Paths.basename has_char]. rewrite Ascii.eqb_refl. cbn [orb].
    by apply basename_plain.
  - rewrite app_cons. cbn [Paths.basename has_char]. rewrite has_char_app.
    cbn [has_char]. rewrite Ascii.eqb_refl. cbn [orb]. by rewrite !orb_true_r.
Qed.

Lemma basename_slashes (d b : string) :
  all_slashes d = true → has_char "/" b = false → Paths.basename (d +:+ b) = b.
Proof.
  intros Hd Hb. induction d as [|c d IH]; [by apply basename_plain|].
  cbn [all_slashes] in Hd. apply andb_true_iff in Hd as [Hc Hd].
  rewrite app_cons. cbn [Paths.basename has_char]. rewrite Hc. cbn [orb]. by apply IH.
Qed.

(** A directory name is empty, made of slashes only, or does not end with a
    slash. *)
Lemma dirname_shape (p : string) :
  dirname p = "" ∨
  (nonempty (dirname p) = true ∧ all_slashes (dirname p) = true) ∨
  (nonempty (dirname p) = true ∧ all_slashes (dirname p) = false ∧
   endswith_slash (dirname p) = false).
Proof.
  unfold dirname. destruct (nonempty (dirname_head p)) eqn:Hne; simpl.
  - destruct (all_slashes (dirname_head p)) eqn:Hall; simpl.
    + right. left. done.
    + right. right. split; [by apply rstrip_slash_nonempty|].
      split; [|apply rstrip_slash_end].
      destruct (all_slashes (rstrip_slash (dirname_head p))) eqn:H; [|done].
      pose proof (all_slashes_end _ H (rstrip_slash_nonempty _ Hall)) as He.
      by rewrite rstrip_slash_end in He.
  - left. by destruct (dirname_head p).
Qed.

Lemma sibling_of (d name : string) :
  has_char "/" name = false →
  d = "" ∨ (nonempty d = true ∧ all_slashes d = true) ∨
  (nonempty d = true ∧ all_slashes d = false ∧ endswith_slash d = false) →
  dirname (path_join d name) = d ∧ Paths.basename (path_join d name) = name.
Proof.
  intros Hname Hd. unfold path_join.
  assert (startswith "/" name = false) as ->.
  { destruct name as [|c r]; [done|]. cbn [has_char] in Hname. cbn [startswith].
    apply orb_false_iff in Hname as [Hc _]. by rewrite Ascii.eqb_sym, Hc. }
  destruct Hd as [->|[[Hne Hall]|(Hne & Hall & Hend)]].
  - change ("" +:+ name) with name. cbn [nonempty negb orb].
    unfold dirname. rewrite (dirname_head_none name Hname). split; [done|].
    by apply basename_plain.
  - rewrite Hne, (all_slashes_end d Hall Hne). cbn [negb orb]. split.
    + unfold dirname. rewrite (dirname_head_slashes d name Hall Hname).
      by rewrite Hne, Hall.
    + by apply basename_slashes.
  - rewrite Hne, Hend. cbn [negb orb].
    change (d +:+ "/" +:+ name) with (d +:+ String "/" name). split.
    + unfold dirname. rewrite dirname_head_app, (dirname_head_none name Hname).
      change (d +:+ String "/" "") with (d +:+ "/").
      rewrite all_slashes_app, Hall.
      assert (nonempty (d +:+ "/") = true) as -> by (by destruct d).
      cbn [negb andb]. rewrite rstrip_slash_app. by apply rstrip_slash_fix.
    + by apply basename_app.
Qed.

(** X20: the file looked for when no configuration path is given is named
    [parser_config.json] and lies in the directory of the schedule file:
    the directory and the file name of the fallback path are the directory
    of the schedule path and that name. *)
Theorem X20_fallback_is_sibling (schedule_path : string) :
  let fallback_path := path_join (dirname schedule_path) "parser_config.json" in
  dirname fallback_path = dirname schedule_path ∧
  Paths.basename fallback_path = "parser_config.json".
Proof.
  apply sibling_of; [reflexivity|apply dirname_shape].
Qed.

End SiblingPath.

(** ** Comma-separated options of the splitter *)

Section OptionValues.

Import PyStr CSVSplitter CSVSplitterFile.

Lemma split_char_pieces (c : ascii) (s : string) :
  length (split_char c s) = S (count_char c s) ∧
  Forall (λ p, has_char c p = false) (split_char c s).
Proof.
  induction s as [|x r [IHl IHf]]; [by repeat constructor|].
  cbn [split_char count_char]. destruct (Ascii.eqb x c) eqn:Hx.
  - split; [simpl; by rewrite IHl|]. by constructor.
  - destruct (split_char c r) as [|h t]; [done|]. split; [done|].
    apply Forall_cons in IHf as [Hh Ht]. constructor; [|done].
    cbn [has_char]. by rewrite Hx, Hh.
Qed.

Lemma lstrip_free (c : ascii) (s : string) :
  has_char c s = false → has_char c (lstrip s) = false.
Proof.
  induction s as [|x r IH]; [done|]. cbn [lstrip]. intros H.
  destruct (isspace x); [|done]. cbn [has_char] in H.
  apply orb_false_iff in H as [_ H]. by apply IH.
Qed.

Lemma rstrip_free (c : ascii) (s : string) :
  has_char c s = false → has_char c (rstrip s) = false.
Proof.
  induction s as [|x r IH]; [done|]. rewrite rstrip_cons. cbn [has_char].
  intros [Hx Hr]%orb_false_iff. specialize (IH Hr).
  destruct (rstrip r) as [|y r'].
  - destruct (isspace x); [done|]. cbn [has_char]. by rewrite Hx.
  - cbn [has_char] in *. by rewrite Hx, IH.
Qed.

Lemma strip_free (c : ascii) (s : string) :
  has_char c s = false → has_char c (strip s) = false.
Proof. intros H. unfold strip. by apply lstrip_free, rstrip_free. Qed.

(** X21: an option of the splitter is cut at every comma: a text with [n]
    commas gives [n + 1] values, each trimmed and free of commas, empty
    values included.  The include and exclude lists are absent for an empty
    text and for no text only, so a list that is given is never empty. *)
Theorem X21_option_values (v : string) :
  length (parse_columns v) = S (count_char "," v) ∧
  Forall (λ x, strip x = x ∧ has_char "," x = false) (parse_columns v) ∧
  parse_values (Some v) = (if nonempty v then Some (parse_columns v) else None) ∧
  given (parse_values (Some v)) = nonempty v ∧
  given (parse_values None) = false.
Proof.
  destruct (split_char_pieces "," v) as [Hlen Hfree]. unfold parse_columns.
  split; [by rewrite length_map|]. split.
  - apply Forall_fmap. apply (Forall_impl _ _ _ Hfree). intros p Hp. simpl.
    split; [apply strip_idem|by apply strip_free].
  - split; [done|]. split; [|done]. unfold parse_values.
    destruct (nonempty v); [|done].
    destruct (split_char "," v); [done|done].
Qed.

End OptionValues.
